(** * rsdoctor: plugin-hook interception and feature normalisation

    A shallow embedding of
    - [packages/core/src/inner-plugins/utils/plugin.ts]
      ([reportPluginData], [interceptPluginHook]) and
    - the feature part of [normalizeUserConfig] with [defaultBoolean],
    together with the properties the specification states about them.

    JavaScript effects are written as explicit state passing over a
    [World]: the wall clock read by [Date.now()], the build session's
    accumulated plugin data, and the data fields of the tap objects the
    host's hook registry owns.  A computation either completes normally
    or throws a JavaScript value. *)

From stdpp Require Import gmap strings list pretty.

Set Warnings "-register-all".
Open Scope Z_scope.
Open Scope string_scope.

(** ** JavaScript values *)

Module Js.

(** First-order JavaScript data.  Numbers are the integers (time stamps
    and small constants are all the code handles); a [VFunction] is a
    callable property that ignores its arguments and returns a fixed
    value, which is enough for predicates such as [compiler.isChild]. *)
Inductive Value : Type :=
| VUndefined
| VNull
| VBool (b : bool)
| VNum (n : Z)
| VStr (s : string)
| VArray (items : list Value)
| VObject (props : list (string * Value))
| VFunction (ret : Value).

(** ToBoolean. *)
Definition truthy (v : Value) : bool :=
  match v with
  | VUndefined | VNull => false
  | VBool b => b
  | VNum n => negb (Z.eqb n 0)
  | VStr s => negb (String.eqb s "")
  | VArray _ | VObject _ | VFunction _ => true
  end.

(** [v === undefined || v === null], the test behind [?.] and [??]. *)
Definition nullish (v : Value) : bool :=
  match v with
  | VUndefined | VNull => true
  | _ => false
  end.

Fixpoint lookupProp (k : string) (props : list (string * Value)) : Value :=
  match props with
  | [] => VUndefined
  | (k', v) :: rest => if String.eqb k k' then v else lookupProp k rest
  end.

(** [v.k] for a [v] that is neither [undefined] nor [null]: an own data
    property of an object, [undefined] for anything else. *)
Definition getProp (v : Value) (k : string) : Value :=
  match v with
  | VObject props => lookupProp k props
  | _ => VUndefined
  end.

(** [xs[i]] on an [arguments] object or an array. *)
Definition index (xs : list Value) (i : nat) : Value :=
  nth i xs VUndefined.

(** Strict equality with a string literal. *)
Definition isStr (s : string) (v : Value) : bool :=
  match v with
  | VStr s' => String.eqb s' s
  | _ => false
  end.

(** [Array.prototype.includes] with a string literal as the needle. *)
Definition includes (items : list Value) (s : string) : bool :=
  existsb (isStr s) items.

(** The [TypeError] the engine raises when a non-callable is called or a
    property of [undefined]/[null] is read (its message is
    engine-specific and left out). *)
Definition TypeError : Value := VObject [("name", VStr "TypeError")].

(** The [AssertionError] raised by node's [assert]. *)
Definition AssertionError : Value := VObject [("name", VStr "AssertionError")].

(** [new Error(message)] with its captured stack. *)
Definition mkError (message stack : string) : Value :=
  VObject [("message", VStr message); ("stack", VStr stack)].

End Js.
Import Js.

(** ** Telemetry records and the world *)

(** Modelled from the spec: [DevToolError] (package [@rsdoctor/utils],
    not among the sources) is the structured error descriptor; it keeps
    the constructor's arguments: the composite title, the message, the
    two presentation flags of [controller] and the stack. *)
Record DevToolError : Type := mkDevToolError {
  title : string;
  message : Value;
  noStack : bool;
  noColor : bool;
  stack : Value
}.

(** One entry of [SDK.PluginHookData]: the object literal built in
    [reportPluginData]. *)
Record PluginHookData : Type := mkPluginHookData {
  tapName : string;
  costs : Z;
  startAt : Z;
  endAt : Z;
  type : string;
  result : Value;
  error : list DevToolError
}.

(** A tap object is a reference into the host's registry. *)
Abbreviation loc := nat.

(** The data fields of a tap object ([fn] lives in the [FnStore]
    below): its name, its calling-convention tag and whatever else the
    host keeps on it ([stage], [before], ...). *)
Record TapFields : Type := mkTapFields {
  tap_name : string;
  tap_type : string;
  tap_rest : list (string * Value)
}.

Record World : Type := mkWorld {
  now : Z;
  pluginData : gmap string (list PluginHookData);
  taps : gmap loc TapFields
}.

Definition setPluginData (d : gmap string (list PluginHookData)) (w : World) : World :=
  {| now := now w; pluginData := d; taps := taps w |}.

(** ** Computations *)

Inductive Completion (A : Type) : Type :=
| Normal (a : A)
| Throw (e : Value).
Arguments Normal {A} a.
Arguments Throw {A} e.

Definition M (A : Type) : Type := World -> Completion A * World.

Definition ret {A} (a : A) : M A := fun w => (Normal a, w).

Definition throw {A} (e : Value) : M A := fun w => (Throw e, w).

Definition bind {A B} (m : M A) (k : A -> M B) : M B :=
  fun w =>
    match m w with
    | (Normal a, w') => k a w'
    | (Throw e, w') => (Throw e, w')
    end.

Notation "'let*' x := m 'in' k" := (bind m (fun x => k))
  (at level 10, x name, m at level 100, k at level 200).
Notation "m ;;; k" := (bind m (fun _ => k))
  (at level 100, k at level 200, right associativity).

(** [try { body } catch (error) { handler }]. *)
Definition try_catch {A} (body : M A) (handler : Value -> M A) : M A :=
  fun w =>
    match body w with
    | (Normal a, w') => (Normal a, w')
    | (Throw e, w') => handler e w'
    end.

(** [Date.now()]. *)
Definition Date_now : M Z := fun w => (Normal (now w), w).

(** ** Promises *)

Inductive Settlement : Type :=
| Fulfilled (v : Value)
| Rejected (reason : Value)
| Pending.

(** A promise is the rest of the computation that settles it, run from
    the world the event loop has reached by then; its reactions run
    right after it settles.  [Pending] is a promise that never
    settles. *)
Definition Promise : Type := World -> Settlement * World.

(** What a callback hands back: a plain value or a promise. *)
Inductive Returned : Type :=
| RValue (v : Value)
| RPromise (p : Promise).

(** The promise a handler's or an async body's completion settles. *)
Definition settle (m : M Value) : Promise :=
  fun w =>
    match m w with
    | (Normal v, w') => (Fulfilled v, w')
    | (Throw e, w') => (Rejected e, w')
    end.

(** [p.then(onFulfilled)]. *)
Definition then_ (p : Promise) (onFulfilled : Value -> M Value) : Promise :=
  fun w =>
    match p w with
    | (Fulfilled v, w') => settle (onFulfilled v) w'
    | (Rejected e, w') => (Rejected e, w')
    | (Pending, w') => (Pending, w')
    end.

(** [p.catch(onRejected)]. *)
Definition catch_ (p : Promise) (onRejected : Value -> M Value) : Promise :=
  fun w =>
    match p w with
    | (Fulfilled v, w') => (Fulfilled v, w')
    | (Rejected e, w') => settle (onRejected e) w'
    | (Pending, w') => (Pending, w')
    end.

(** An object with a callable [then]. *)
Definition isThenable (v : Value) : bool :=
  match getProp v "then" with
  | VFunction _ => true
  | _ => false
  end.

(** [await r]: a promise is there when it settles, a plain value at
    once; a thenable's [then] is handed the two resolving functions,
    and a [VFunction] calls neither, so that [await] never resumes.
    (A promise's own fulfilment value is never a thenable.) *)
Definition await (r : Returned) : Promise :=
  match r with
  | RValue v => fun w => (if isThenable v then Pending else Fulfilled v, w)
  | RPromise p => p
  end.

(** A tap callback, called with [this] and [arguments]. *)
Definition Callback : Type := Value -> list Value -> M Returned.

(** The [fn] slots of the tap objects. *)
Abbreviation FnStore := (gmap loc Callback).

(** [o.apply(this, arguments)] where [o] was read from a [fn] slot. *)
Definition apply (o : option Callback) (this : Value) (args : list Value) : M Returned :=
  match o with
  | Some f => f this args
  | None => throw TypeError
  end.

(** A step that touches no state. *)
Definition lift {A} (c : Completion A) : M A := fun w => (c, w).

(** [v.k(...)] on a first-order value. *)
Definition callMethod (v : Value) (k : string) : Completion Value :=
  if nullish v then Throw TypeError
  else match getProp v k with
       | VFunction r => Normal r
       | _ => Throw TypeError
       end.

(** ** The build session's SDK *)

(** [SDK.PluginData]: records keyed by hook name. *)
Abbreviation PluginData := (gmap string (list PluginHookData)).

(** The one method of [RsdoctorSDK] the interceptor uses. *)
Record RsdoctorSDK : Type := mkSDK {
  reportPlugin : PluginData -> M unit
}.

Definition recordsOf (hook : string) (w : World) : list PluginHookData :=
  default [] (pluginData w !! hook).

(** Modelled from the spec: [RsdoctorSDK.reportPlugin] (package
    [@rsdoctor/sdk], not among the sources) merges the submitted records
    into the session's accumulated state, keyed by hook name, appending
    to the records the hook already has. *)
Definition mergePluginData (acc data : PluginData) : PluginData :=
  union_with (fun old new => Some (old ++ new)%list) acc data.

(** Modelled from the spec: the session's SDK, whose sink never refuses
    a submission. *)
Definition sessionSdk : RsdoctorSDK :=
  {| reportPlugin := fun data w =>
       (Normal tt, setPluginData (mergePluginData (pluginData w) data) w) |}.

(** A session whose sink is broken: every submission throws [t]. *)
Definition faultySdk (t : Value) : RsdoctorSDK :=
  {| reportPlugin := fun _ => throw t |}.

(** ** [reportPluginData] *)

Definition reportPluginData (sdk : RsdoctorSDK) (hook : string) (tapName : string)
    (start : Z) (type : string) (_res : Returned) (err : Value) : M unit :=
  let* end_ := Date_now in
  reportPlugin sdk
    {[ hook :=
         [ {| tapName := tapName;
              costs := end_ - start;
              startAt := start;
              endAt := end_;
              type := type;
              result := VNull;
              error :=
                if truthy err
                then [ {| title := tapName +:+ " " +:+ hook +:+ " Error";
                          message := getProp err "message";
                          noStack := false;
                          noColor := true;
                          stack := getProp err "stack" |} ]
                else [] |} ] ]}.

(** ** [interceptPluginHook] *)

(** [tap.name] and [tap.type], read from the tap object when the proxy
    reports (a template literal and the record show a missing field as
    [undefined]). *)
Definition tapNameOf (tap : loc) : M string :=
  fun w => (Normal (from_option tap_name "undefined" (taps w !! tap)), w).

Definition tapTypeOf (tap : loc) : M string :=
  fun w => (Normal (from_option tap_type "undefined" (taps w !! tap)), w).

(** The two call sites of [reportPluginData] every proxy has: the
    success one passes the result and no error, the failure one [null]
    and the caught error. *)
Definition reportSuccess (sdk : RsdoctorSDK) (name : string) (tap : loc)
    (start : Z) (res : Returned) : M unit :=
  let* n := tapNameOf tap in
  let* t := tapTypeOf tap in
  reportPluginData sdk name n start t res VUndefined.

Definition reportFailure (sdk : RsdoctorSDK) (name : string) (tap : loc)
    (start : Z) (error : Value) : M unit :=
  let* n := tapNameOf tap in
  let* t := tapTypeOf tap in
  reportPluginData sdk name n start t (RValue VNull) error.

(** The [catch] block of the sync and the async proxy and the rejection
    handler of the promise proxy: report the error, throw it again. *)
Definition onError {A} (sdk : RsdoctorSDK) (name : string) (tap : loc) (start : Z)
    (error : Value) : M A :=
  reportFailure sdk name tap start error ;;;
  throw error.

(** [tap.type === 'sync']: the replacement of [tap.fn]. *)
Definition syncProxy (sdk : RsdoctorSDK) (name : string) (tap : loc)
    (o : option Callback) : Callback :=
  fun this arguments =>
    let* start := Date_now in
    try_catch
      (let* res := apply o this arguments in
       reportSuccess sdk name tap start res ;;;
       ret res)
      (onError sdk name tap start).

(** What follows the [await] in the async proxy: the rest of the [try]
    block when the awaited value is there, the [catch] block when the
    [await] throws. *)
Definition resumed (sdk : RsdoctorSDK) (name : string) (tap : loc) (start : Z)
    (r : Returned) : Promise :=
  fun w =>
    match await r w with
    | (Fulfilled res, w') =>
        settle (try_catch
                  (reportSuccess sdk name tap start (RValue res) ;;;
                   ret res)
                  (onError sdk name tap start)) w'
    | (Rejected error, w') => settle (onError sdk name tap start error) w'
    | (Pending, w') => (Pending, w')
    end.

(** [tap.type === 'async']: an [async function].  Its body runs up to
    the [await] within the call; what follows the [await] runs when the
    awaited value is there and settles the promise the call returned.
    An exception before the [await] is caught by the same [catch], and
    the promise is handed back already rejected. *)
Definition asyncProxy (sdk : RsdoctorSDK) (name : string) (tap : loc)
    (o : option Callback) : Callback :=
  fun this arguments w0 =>
    let start := now w0 in
    match apply o this arguments w0 with
    | (Throw error, w1) =>
        let '(settled, w2) := settle (onError sdk name tap start error) w1 in
        (Normal (RPromise (fun w => (settled, w))), w2)
    | (Normal r, w1) =>
        (Normal (RPromise (resumed sdk name tap start r)), w1)
    end.

(** [arguments?.[0]?.compiler?.isChild()]. *)
Definition isChildOf (arguments : list Value) : Completion Value :=
  let a0 := index arguments 0 in
  if nullish a0 then Normal VUndefined
  else
    let compiler := getProp a0 "compiler" in
    if nullish compiler then Normal VUndefined
    else callMethod compiler "isChild".

(** The chain [.then(...).catch(...)] the promise proxy attaches to the
    promise of the original callback. *)
Definition chained (sdk : RsdoctorSDK) (name : string) (tap : loc) (start : Z)
    (isChild : Value) (p : Promise) : Promise :=
  catch_
    (then_ p (fun res =>
       if truthy isChild then ret res
       else
         reportSuccess sdk name tap start (RValue res) ;;;
         ret res))
    (onError sdk name tap start).

(** [tap.type === 'promise']. *)
Definition promiseProxy (sdk : RsdoctorSDK) (name : string) (tap : loc)
    (o : option Callback) : Callback :=
  fun this arguments =>
    let* start := Date_now in
    let* isChild := lift (isChildOf arguments) in
    let* r := apply o this arguments in
    match r with
    | RPromise p => ret (RPromise (chained sdk name tap start isChild p))
    | RValue v =>
        (* not a promise: the two method calls are made on what is there *)
        let* r1 := lift (callMethod v "then") in
        let* r2 := lift (callMethod r1 "catch") in
        ret (RValue r2)
    end.

(** The store the registration works on: the world as it is when the
    tap is registered, which holds the data fields of the tap objects,
    and their [fn] slots.  A callback in a slot is called later, in the
    world of that time. *)
Record Heap : Type := mkHeap {
  world : World;
  fnOf : FnStore
}.

Definition setFn (tap : loc) (f : Callback) (hp : Heap) : Heap :=
  {| world := world hp; fnOf := <[tap := f]> (fnOf hp) |}.

(** The [register] observer handed to [hook.intercept]: it reads
    [tap.fn] and [tap.type], assigns [tap.fn] for the three known
    conventions and returns the tap it was given. *)
Definition register (sdk : RsdoctorSDK) (name : string) (tap : loc) (hp : Heap)
    : loc * Heap :=
  let o := fnOf hp !! tap in
  let type := tap_type <$> taps (world hp) !! tap in
  if bool_decide (type = Some "sync") then
    (tap, setFn tap (syncProxy sdk name tap o) hp)
  else if bool_decide (type = Some "async") then
    (tap, setFn tap (asyncProxy sdk name tap o) hp)
  else if bool_decide (type = Some "promise") then
    (tap, setFn tap (promiseProxy sdk name tap o) hp)
  else
    (tap, hp).

(** An interceptor object: here only its [register] member. *)
Record HookInterceptor : Type := mkInterceptor {
  i_register : loc -> Heap -> loc * Heap
}.

(** What the host keeps for one hook: the interceptors installed and
    the taps registered. *)
Record HookState : Type := mkHookState {
  interceptors : list HookInterceptor;
  registered : list loc
}.

(** [IHook]: an object that may have an [intercept] method; [None] is a
    hook that is [undefined] or [null]. *)
Record HookObject : Type := mkHook {
  intercept :
    option (HookInterceptor -> Heap * HookState -> Completion unit * (Heap * HookState))
}.

Definition IHook : Type := option HookObject.

Definition interceptPluginHook (sdk : RsdoctorSDK) (name : string) (hook : IHook)
    (st : Heap * HookState) : Completion unit * (Heap * HookState) :=
  match hook with
  | None => (Normal tt, st)
  | Some hk =>
      match intercept hk with
      | None => (Normal tt, st)
      | Some method => method {| i_register := register sdk name |} st
      end
  end.

(** Modelled from the spec: the host's HookRegistration (tapable's
    [Hook], which is not part of this repository) "exposes an
    interception point invoked whenever a new callback is registered on
    it".  [intercept] keeps the interceptor and passes it the taps
    registered so far; registering a tap passes the tap object through
    the [register] member of every interceptor, in the order they were
    installed, and keeps what comes out. *)
Definition runRegister (acc : loc * Heap) (i : HookInterceptor) : loc * Heap :=
  i_register i (fst acc) (snd acc).

(** Modelled from the spec: [hook.intercept(interceptor)] of the host's
    hook. *)
Definition hook_intercept (i : HookInterceptor) (st : Heap * HookState)
    : Completion unit * (Heap * HookState) :=
  let '(hp, h) := st in
  let step := fun (acc : list loc * Heap) (t : loc) =>
    let '(t', hp') := i_register i t (snd acc) in
    (fst acc ++ [t'], hp')%list in
  let '(ts, hp') := foldl step ([], hp) (registered h) in
  (Normal tt,
   (hp', {| interceptors := (interceptors h ++ [i])%list; registered := ts |})).

(** Modelled from the spec: [hook.tap(...)] of the host's hook; the new
    tap object [t] gets its callback, then goes through the
    interceptors. *)
Definition hook_tap (t : loc) (fn : Callback) (st : Heap * HookState)
    : Heap * HookState :=
  let '(hp, h) := st in
  let '(t', hp') := foldl runRegister (t, setFn t fn hp) (interceptors h) in
  (hp', {| interceptors := interceptors h; registered := (registered h ++ [t'])%list |}).

(** Modelled from the spec: a hook of the host, which has an
    interception point. *)
Definition tapableHook : HookObject := {| intercept := Some hook_intercept |}.

Definition emptyHook : HookState := {| interceptors := []; registered := [] |}.

(** The host invoking [tap.fn]. *)
Definition callTap (hp : Heap) (tap : loc) : Callback :=
  fun this arguments => apply (fnOf hp !! tap) this arguments.

(** ** Configuration: the feature flags of [normalizeUserConfig] *)

Module Config.

Definition defaultBoolean (v : Value) (dft : bool) : bool :=
  match v with
  | VBool b => b
  | _ => dft
  end.

(** [typeof v === 'object'] ([null] included, functions not). *)
Definition typeofObject (v : Value) : bool :=
  match v with
  | VNull | VArray _ | VObject _ => true
  | _ => false
  end.

(** [assert(c)]. *)
Definition assert (c : bool) : Completion unit :=
  if c then Normal tt else Throw AssertionError.

(** A destructuring default: it applies to [undefined] only. *)
Definition orDefault (v dft : Value) : Value :=
  match v with
  | VUndefined => dft
  | _ => v
  end.

(** Modelled from the spec: [SDK.IMode[SDK.IMode.lite]] (package
    [@rsdoctor/types], not among the sources) is the name of the
    enumeration member [lite], the report mode ['lite']. *)
Definition IMode_lite : string := "lite".

(** The options of the user configuration that decide the features and
    the checks made before them; [VUndefined] is an option left out. *)
Record UserConfig : Type := mkUserConfig {
  linter : Value;
  features : Value;
  loaderInterceptorOptions : Value;
  disableClientServer : Value;
  output : Value;
  mode : Value
}.

Record Features : Type := mkFeatures {
  loader : bool;
  plugins : bool;
  resolver : bool;
  bundle : bool;
  treeShaking : bool;
  lite : bool
}.

Definition isBoolean (v : Value) : bool :=
  match v with
  | VBool _ => true
  | _ => false
  end.

(** [normalizeUserConfig(config).features]: the destructuring defaults,
    the four assertions and the [_features] object.  The other members
    of the result do not feed into it and are left out; building them
    reads members of [output], which throws when [output] is [null]. *)
Definition normalizeUserConfig (config : UserConfig) : Completion Features :=
  let linter := orDefault (linter config) (VObject []) in
  let features := orDefault (features config) (VObject []) in
  let loaderInterceptorOptions :=
    orDefault (loaderInterceptorOptions config) (VObject []) in
  let disableClientServer :=
    orDefault (disableClientServer config) (VBool false) in
  let output := orDefault (output config) (VObject []) in
  let mode := orDefault (mode config) (VStr "normal") in
  match assert (truthy linter && typeofObject linter) with
  | Throw e => Throw e
  | Normal _ =>
  match assert (truthy features && typeofObject features) with
  | Throw e => Throw e
  | Normal _ =>
  match assert (truthy loaderInterceptorOptions
                && typeofObject loaderInterceptorOptions) with
  | Throw e => Throw e
  | Normal _ =>
  match assert (isBoolean disableClientServer) with
  | Throw e => Throw e
  | Normal _ =>
      let _features :=
        match features with
        | VArray items =>
            {| loader := includes items "loader";
               plugins := includes items "plugins";
               resolver := includes items "resolver";
               bundle := includes items "bundle";
               treeShaking := includes items "treeShaking";
               lite := includes items "lite" || isStr IMode_lite mode |}
        | _ =>
            {| loader := defaultBoolean (getProp features "loader") true;
               plugins := defaultBoolean (getProp features "plugins") true;
               resolver := defaultBoolean (getProp features "resolver") false;
               bundle := defaultBoolean (getProp features "bundle") true;
               treeShaking := defaultBoolean (getProp features "treeShaking") false;
               lite := defaultBoolean (getProp features "lite") false
                       || isStr IMode_lite mode |}
        end in
      if nullish output then Throw TypeError else Normal _features
  end end end end.

(** An option that is left out or is an object (an array included), a
    boolean option that is left out or is a boolean. *)
Definition objectOrAbsent (v : Value) : Prop :=
  v = VUndefined ∨ (∃ props, v = VObject props) ∨ (∃ items, v = VArray items).

Definition booleanOrAbsent (v : Value) : Prop :=
  v = VUndefined ∨ ∃ b, v = VBool b.

(** A flag that is the member when the member is a boolean and [dft]
    when the member is not specified. *)
Definition defaultsTo (dft : bool) (member : Value) (flag : bool) : Prop :=
  (∀ b, member = VBool b → flag = b) ∧ (member = VUndefined → flag = dft).

End Config.

(** ** Configuration: the whole of [normalizeUserConfig] *)

(** Modelled from the spec: [SDK.ToDataType] (package [@rsdoctor/types],
    not among the sources), how much of the code a report keeps; these
    are the four members [normalizeReportType] names. *)
Module ToDataType.
Inductive t : Type := Normal | NoSource | NoSourceAndAssets | NoCode.
End ToDataType.

Module Options.

(** Modelled from the spec: [SDK.IMode[SDK.IMode.brief]] (package
    [@rsdoctor/types], not among the sources) is the name of the
    enumeration member [brief]. *)
Definition IMode_brief : string := "brief".

(** [v.k], with no [?.]: reading a member of [undefined] or [null]
    throws. *)
Definition member (v : Value) (k : string) : Completion Value :=
  if nullish v then Throw TypeError else Normal (getProp v k).

(** [normalizeReportType(reportCodeType, mode)].  The flags are read
    one after the other, and only as far as the answer needs them; the
    mode ['brief'] reads none. *)
Definition normalizeReportType (reportCodeType : Value) (mode : Value)
    : Completion ToDataType.t :=
  if isStr IMode_brief mode then Normal ToDataType.NoCode
  else if isStr Config.IMode_lite mode then
    match member reportCodeType "noAssetsAndModuleSource" with
    | Throw e => Throw e
    | Normal noAssetsAndModuleSource =>
        if truthy noAssetsAndModuleSource
        then Normal ToDataType.NoSourceAndAssets
        else Normal ToDataType.NoSource
    end
  else
    match member reportCodeType "noCode" with
    | Throw e => Throw e
    | Normal noCode =>
        if truthy noCode then Normal ToDataType.NoCode
        else
          match member reportCodeType "noAssetsAndModuleSource" with
          | Throw e => Throw e
          | Normal noAssetsAndModuleSource =>
              if truthy noAssetsAndModuleSource
              then Normal ToDataType.NoSourceAndAssets
              else
                match member reportCodeType "noModuleSource" with
                | Throw e => Throw e
                | Normal noModuleSource =>
                    if truthy noModuleSource then Normal ToDataType.NoSource
                    else Normal ToDataType.Normal
                end
          end
    end.

(** The options of the plugin, [VUndefined] for one left out;
    [experiments] is the one option [RsdoctorRspackPluginOptions]
    adds. *)
Record PluginOptions : Type := mkPluginOptions {
  linter : Value;
  features : Value;
  loaderInterceptorOptions : Value;
  disableClientServer : Value;
  sdkInstance : Value;
  innerClientPath : Value;
  output : Value;
  supports : Value;
  port : Value;
  printLog : Value;
  mode : Value;
  brief : Value;
  experiments : Value
}.

(** [RsdoctorPluginOptionsNormalized]. *)
Record Normalized : Type := mkNormalized {
  res_linter : Value;
  res_features : Config.Features;
  res_skipLoaders : Value;
  res_disableClientServer : Value;
  res_sdkInstance : Value;
  res_reportCodeType : ToDataType.t;
  res_reportDir : Value;
  res_compressData : Value;
  res_innerClientPath : Value;
  res_supports : Value;
  res_port : Value;
  res_printLog : Value;
  res_mode : Value;
  res_brief : Value
}.

(** The members an object spread [...v] copies: those of an object, the
    elements of an array under their indices.  An object is the list of
    its members, looked up from the front, so the spread members go
    before the ones written ahead of the spread in the literal. *)
Definition ownProps (v : Value) : list (string * Value) :=
  match v with
  | VObject props => props
  | VArray items => imap (fun i x => (pretty i, x)) items
  | _ => []
  end.

Definition isArray (v : Value) : bool :=
  match v with
  | VArray _ => true
  | _ => false
  end.

(** The defaults of the destructuring of [config]. *)
Definition defaultReportCodeType : Value :=
  VObject [("noModuleSource", VBool false);
           ("noAssetsAndModuleSource", VBool false);
           ("noCode", VBool false)].

Definition defaultOutput : Value :=
  VObject [("reportCodeType", defaultReportCodeType);
           ("reportDir", VStr "");
           ("compressData", VBool true)].

Definition defaultSupports : Value :=
  VObject [("parseBundle", VBool true); ("banner", VUndefined);
           ("generateTileGraph", VBool true); ("gzip", VBool false)].

Definition defaultPrintLog : Value := VObject [("serverUrls", VBool true)].

Definition defaultBrief : Value :=
  VObject [("reportHtmlDir", VUndefined); ("reportHtmlName", VUndefined);
           ("writeDataJson", VBool false)].

(** The text handed to [logger.info] (without the colour codes). *)
Definition compressDataWarning : string :=
  "[RSDOCTOR]: When you use compressData: false, it is recommended to set output.reportCodeType to { noAssetsAndModuleSource: true }.".

(** [_features], as in [Config.normalizeUserConfig]. *)
Definition normalizeFeatures (features mode : Value) : Config.Features :=
  match features with
  | VArray items =>
      {| Config.loader := includes items "loader";
         Config.plugins := includes items "plugins";
         Config.resolver := includes items "resolver";
         Config.bundle := includes items "bundle";
         Config.treeShaking := includes items "treeShaking";
         Config.lite := includes items "lite" || isStr Config.IMode_lite mode |}
  | _ =>
      {| Config.loader := Config.defaultBoolean (getProp features "loader") true;
         Config.plugins := Config.defaultBoolean (getProp features "plugins") true;
         Config.resolver := Config.defaultBoolean (getProp features "resolver") false;
         Config.bundle := Config.defaultBoolean (getProp features "bundle") true;
         Config.treeShaking :=
           Config.defaultBoolean (getProp features "treeShaking") false;
         Config.lite := Config.defaultBoolean (getProp features "lite") false
                        || isStr Config.IMode_lite mode |}
  end.

(** [normalizeUserConfig(config)]: what it returns, with the messages it
    hands to [logger.info] on the way, or what it throws. *)
Definition normalizeUserConfig (config : PluginOptions)
    : Completion (Normalized * list string) :=
  let linter := Config.orDefault (linter config) (VObject []) in
  let features := Config.orDefault (features config) (VObject []) in
  let loaderInterceptorOptions :=
    Config.orDefault (loaderInterceptorOptions config) (VObject []) in
  let disableClientServer :=
    Config.orDefault (disableClientServer config) (VBool false) in
  let innerClientPath := Config.orDefault (innerClientPath config) (VStr "") in
  let output := Config.orDefault (output config) defaultOutput in
  let supports := Config.orDefault (supports config) defaultSupports in
  let printLog := Config.orDefault (printLog config) defaultPrintLog in
  let mode := Config.orDefault (mode config) (VStr "normal") in
  let brief := Config.orDefault (brief config) defaultBrief in
  match Config.assert (truthy linter && Config.typeofObject linter) with
  | Throw e => Throw e
  | Normal _ =>
  match Config.assert (truthy features && Config.typeofObject features) with
  | Throw e => Throw e
  | Normal _ =>
  match Config.assert (truthy loaderInterceptorOptions
                       && Config.typeofObject loaderInterceptorOptions) with
  | Throw e => Throw e
  | Normal _ =>
  match Config.assert (Config.isBoolean disableClientServer) with
  | Throw e => Throw e
  | Normal _ =>
      let _features := normalizeFeatures features mode in
      let _linter :=
        VObject (ownProps linter ++
                 [("rules", VObject []); ("extends", VArray []);
                  ("level", VStr "Error")])%list in
      let skipLoaders :=
        if isArray (getProp loaderInterceptorOptions "skipLoaders")
        then getProp loaderInterceptorOptions "skipLoaders"
        else VArray [] in
      if nullish output then Throw TypeError
      else
        let reportCodeType := getProp output "reportCodeType" in
        match (if truthy reportCodeType
               then normalizeReportType reportCodeType mode
               else normalizeReportType defaultReportCodeType mode) with
        | Throw e => Throw e
        | Normal globalReportCodeType =>
        let res :=
          {| res_linter := _linter;
             res_features := _features;
             res_skipLoaders := skipLoaders;
             res_disableClientServer := disableClientServer;
             res_sdkInstance := sdkInstance config;
             res_reportCodeType := globalReportCodeType;
             res_reportDir :=
               if truthy (getProp output "reportDir")
               then getProp output "reportDir" else VStr "";
             res_compressData :=
               match getProp output "compressData" with
               | VUndefined => VBool true
               | v => v
               end;
             res_innerClientPath := innerClientPath;
             res_supports := supports;
             res_port := port config;
             res_printLog := printLog;
             res_mode := mode;
             res_brief := brief |} in
        let warn :=
          match getProp output "compressData" with
          | VBool false =>
              (truthy reportCodeType
               && negb (truthy (getProp reportCodeType "noAssetsAndModuleSource")))
              || negb (truthy reportCodeType)
          | _ => false
          end in
        Normal (res, if warn then [compressDataWarning] else [])
        end
  end end end end.

(** [RsdoctorRspackPluginOptionsNormalized]: the normalized options and
    the [experiments] member. *)
Record RspackNormalized : Type := mkRspackNormalized {
  base : Normalized;
  res_experiments : Value
}.

(** [normalizeRspackUserOptions(options)].  The object
    [normalizeUserConfig] returns has no [experiments] member, so
    [config.experiments ??= {}] always makes a fresh object. *)
Definition normalizeRspackUserOptions (options : PluginOptions)
    : Completion (RspackNormalized * list string) :=
  match normalizeUserConfig options with
  | Throw e => Throw e
  | Normal (config, logged) =>
      let experiments := experiments options in
      let given :=
        if nullish experiments then VUndefined
        else getProp experiments "enableNativePlugin" in
      let enableNativePlugin := if nullish given then VBool false else given in
      Normal ({| base := config;
                 res_experiments :=
                   VObject [("enableNativePlugin", enableNativePlugin)] |},
              logged)
  end.

(** The options the feature-only embedding looks at. *)
Definition toConfig (config : PluginOptions) : Config.UserConfig :=
  {| Config.linter := linter config;
     Config.features := features config;
     Config.loaderInterceptorOptions := loaderInterceptorOptions config;
     Config.disableClientServer := disableClientServer config;
     Config.output := output config;
     Config.mode := mode config |}.

(** The four options that are checked pass their checks. *)
Definition optionsPass (config : PluginOptions) : Prop :=
  Config.objectOrAbsent (linter config)
  ∧ Config.objectOrAbsent (features config)
  ∧ Config.objectOrAbsent (loaderInterceptorOptions config)
  ∧ Config.booleanOrAbsent (disableClientServer config).

(** The options of [output], the defaults standing in for an [output]
    left out. *)
Definition outputOf (config : PluginOptions) : Value :=
  Config.orDefault (output config) defaultOutput.

(** The members the object spread puts into [linter] ahead of the
    user's. *)
Definition linterDefaults : list (string * Value) :=
  [("rules", VObject []); ("extends", VArray []); ("level", VStr "Error")].

(** Options that set nothing but [mode] and [output]. *)
Definition onlyOutput (mode output : Value) : PluginOptions :=
  {| linter := VUndefined; features := VUndefined;
     loaderInterceptorOptions := VUndefined; disableClientServer := VUndefined;
     sdkInstance := VUndefined; innerClientPath := VUndefined;
     output := output; supports := VUndefined; port := VUndefined;
     printLog := VUndefined; mode := mode; brief := VUndefined;
     experiments := VUndefined |}.

End Options.

(** ** Rule sets made serializable *)

Module Rules.

(** A function found as the [toString] or the [toJSON] member of a
    regular expression: [RegExp.prototype.toString], which a regular
    expression inherits, or another function, told from the others by a
    label. *)
Inductive Method : Type :=
| RegExpToString
| Custom (label : string).

(** [f === g] on two such functions. *)
Definition sameMethod (f g : Method) : bool :=
  match f, g with
  | RegExpToString, RegExpToString => true
  | Custom a, Custom b => String.eqb a b
  | _, _ => false
  end.

(** A rule-set condition: an option left out (or any falsy value), a
    string, a function, a regular expression with what [item.toString]
    reads and with or without a [toJSON] member, an array of
    conditions, or the logical conditions [{ and, or, not }].
    Conditions are trees: no object is its own descendant. *)
Inductive Condition : Type :=
| CAbsent
| CString (s : string)
| CFunction
| CRegExp (source : string) (toString : Method) (toJSON : option Method)
| CArray (items : list Condition)
| CLogical (and_ or_ not_ : Condition).

(** [makeRuleSetSerializable(item)]: the item as the call leaves it.  A
    regular expression gets its [toString] as [toJSON], whether it had
    a [toJSON] or not. *)
Fixpoint makeRuleSetSerializable (item : Condition) : Condition :=
  match item with
  | CAbsent => CAbsent
  | CRegExp source toString _ => CRegExp source toString (Some toString)
  | CArray items => CArray (map makeRuleSetSerializable items)
  | CLogical and_ or_ not_ =>
      CLogical (makeRuleSetSerializable and_)
               (makeRuleSetSerializable or_)
               (makeRuleSetSerializable not_)
  | CString s => CString s
  | CFunction => CFunction
  end.

(** A rule: the conditions [makeRulesSerializable] visits and the two
    lists of nested rules.  [issuerLayer], [oneOf] and [rules] can be
    missing; an entry of a rule list can be falsy ([None]). *)
Inductive Rule : Type :=
| mkRule (test resourceQuery resource resourceFragment scheme issuer : Condition)
         (issuerLayer : option Condition)
         (include exclude : Condition)
         (oneOf rules : option (list (option Rule))).

(** [makeRulesSerializable(rules)] on an array, the body of its
    [forEach] being [serializeRule]. *)
Fixpoint serializeRule (rule : Rule) : Rule :=
  match rule with
  | mkRule test resourceQuery resource resourceFragment scheme issuer
           issuerLayer include exclude oneOf rules =>
      mkRule (makeRuleSetSerializable test)
             (makeRuleSetSerializable resourceQuery)
             (makeRuleSetSerializable resource)
             (makeRuleSetSerializable resourceFragment)
             (makeRuleSetSerializable scheme)
             (makeRuleSetSerializable issuer)
             (option_map makeRuleSetSerializable issuerLayer)
             (makeRuleSetSerializable include)
             (makeRuleSetSerializable exclude)
             (option_map (map (option_map serializeRule)) oneOf)
             (option_map (map (option_map serializeRule)) rules)
  end.

(** [makeRulesSerializable(rules)]; [None] is an argument that is no
    array. *)
Definition makeRulesSerializable (rules : option (list (option Rule)))
    : option (list (option Rule)) :=
  option_map (map (option_map serializeRule)) rules.

(** Every regular expression in the condition has its [toString] as
    [toJSON]. *)
Fixpoint serializable (c : Condition) : bool :=
  match c with
  | CRegExp _ toString (Some toJSON) => sameMethod toJSON toString
  | CRegExp _ _ None => false
  | CArray items => forallb serializable items
  | CLogical a o n => serializable a && serializable o && serializable n
  | _ => true
  end.

(** The condition with the [toJSON] members taken off. *)
Fixpoint bare (c : Condition) : Condition :=
  match c with
  | CRegExp source toString _ => CRegExp source toString None
  | CArray items => CArray (map bare items)
  | CLogical a o n => CLogical (bare a) (bare o) (bare n)
  | other => other
  end.

(** Every condition the rule holds, the nested rules included. *)
Fixpoint conditionsOf (rule : Rule) : list Condition :=
  match rule with
  | mkRule test resourceQuery resource resourceFragment scheme issuer
           issuerLayer include exclude oneOf rules =>
      let nested := fun (rs : option (list (option Rule))) =>
        match rs with
        | Some l =>
            flat_map (fun r => match r with
                               | Some r' => conditionsOf r'
                               | None => []
                               end) l
        | None => []
        end in
      ([test; resourceQuery; resource; resourceFragment; scheme; issuer]
       ++ match issuerLayer with Some c => [c] | None => [] end
       ++ [include; exclude]
       ++ nested oneOf ++ nested rules)%list
  end.

Definition conditionsOfAll (rules : option (list (option Rule))) : list Condition :=
  match rules with
  | Some l =>
      flat_map (fun r => match r with
                         | Some r' => conditionsOf r'
                         | None => []
                         end) l
  | None => []
  end.

(** The conditions of an entry of a rule list, and of a list that can
    be missing. *)
Definition entryConditions (r : option Rule) : list Condition :=
  match r with
  | Some r' => conditionsOf r'
  | None => []
  end.

Definition nestedConditions (rs : option (list (option Rule))) : list Condition :=
  match rs with
  | Some l => flat_map entryConditions l
  | None => []
  end.

(** What holds of a rule once it is serialized: its conditions are
    serializable, they are the ones it had, and serializing it again
    changes nothing. *)
Definition ruleDone (r : Rule) : Prop :=
  Forall (fun c => serializable c = true) (conditionsOf (serializeRule r))
  ∧ map bare (conditionsOf (serializeRule r)) = map bare (conditionsOf r)
  ∧ serializeRule (serializeRule r) = serializeRule r.

(** A rule that sets [test] and, when given, [oneOf]. *)
Definition ruleWith (test : Condition) (oneOf : option (list (option Rule))) : Rule :=
  mkRule test CAbsent CAbsent CAbsent CAbsent CAbsent None CAbsent CAbsent oneOf None.

End Rules.

(** ** Where a node of the transformed code comes from *)

Module SourceRange.

(** [SDK.ModuleInstance], as far as the function uses it: its path and
    what its three methods return ([getSourceRange] for the location it
    is asked about). *)
Record ModuleInstance : Type := mkModule {
  path : Value;
  getSource : Value;
  getSourceMap : Value;
  getSourceRange : Value -> Value
}.

(** [v.k] where nothing guards against a [v] that is [undefined] or
    [null]. *)
Definition member (v : Value) (k : string) : Completion Value :=
  if nullish v then Throw TypeError else Normal (getProp v k).

(** [Lodash.isUndefined]. *)
Definition isUndefined (v : Value) : bool :=
  match v with
  | VUndefined => true
  | _ => false
  end.

Definition report (path content : Value) (isTransformed : bool) (range : Value)
    : Value :=
  VObject [("path", path); ("content", content);
           ("isTransformed", VBool isTransformed); ("range", range)].

(** [getSourceRangeFromTransformedOffset(module, node)], [loc] being
    [node.loc]. *)
Definition getSourceRangeFromTransformedOffset (module : ModuleInstance)
    (loc : Value) : Completion Value :=
  let source := getSource module in
  let sourceMap := getSourceMap module in
  match member loc "start" with
  | Throw e => Throw e
  | Normal transformedStart =>
  match member loc "end" with
  | Throw e => Throw e
  | Normal transformedEnd =>
      if negb (truthy transformedStart) || negb (truthy transformedEnd)
      then Normal VUndefined
      else
        match member source "transformed" with
        | Throw e => Throw e
        | Normal transformed =>
            let transformedReport :=
              report (path module) transformed true
                (VObject [("start", transformedStart); ("end", transformedEnd)]) in
            if negb (truthy sourceMap) then Normal transformedReport
            else
              let sourceRange := getSourceRange module loc in
              if nullish sourceRange then Normal transformedReport
              else
                (* sourceRange?.start.line, sourceRange?.start.column *)
                match member (getProp sourceRange "start") "line" with
                | Throw e => Throw e
                | Normal startLine =>
                    if isUndefined startLine then Normal transformedReport
                    else if isUndefined (getProp (getProp sourceRange "start") "column")
                    then Normal transformedReport
                    else
                      (* sourceRange?.end?.line, sourceRange?.end?.column *)
                      let end_ := getProp sourceRange "end" in
                      if nullish end_ then Normal transformedReport
                      else if isUndefined (getProp end_ "line")
                      then Normal transformedReport
                      else if isUndefined (getProp end_ "column")
                      then Normal transformedReport
                      else
                        match member source "source" with
                        | Throw e => Throw e
                        | Normal original =>
                            Normal (report (path module) original false sourceRange)
                        end
                end
        end
  end end.

(** The two reports the function can return: the node where it is in
    the transformed code, and the node where the source map puts it in
    the original code. *)
Definition transformedReport (module : ModuleInstance) (loc : Value) : Value :=
  report (path module) (getProp (getSource module) "transformed") true
    (VObject [("start", getProp loc "start"); ("end", getProp loc "end")]).

Definition originalReport (module : ModuleInstance) (loc : Value) : Value :=
  report (path module) (getProp (getSource module) "source") false
    (getSourceRange module loc).

(** The range has a start and an end, and none of the two lines and the
    two columns is [undefined]. *)
Definition mapped (range : Value) : Prop :=
  nullish range = false
  ∧ nullish (getProp range "start") = false
  ∧ getProp (getProp range "start") "line" ≠ VUndefined
  ∧ getProp (getProp range "start") "column" ≠ VUndefined
  ∧ nullish (getProp range "end") = false
  ∧ getProp (getProp range "end") "line" ≠ VUndefined
  ∧ getProp (getProp range "end") "column" ≠ VUndefined.

(** The node and the module can be asked: the node has a location with
    a start and an end, the module a source. *)
Definition located (module : ModuleInstance) (loc : Value) : Prop :=
  nullish loc = false
  ∧ truthy (getProp loc "start") = true
  ∧ truthy (getProp loc "end") = true
  ∧ nullish (getSource module) = false.

(** A position, a location, and a module whose source map puts every
    location at a given range. *)
Definition position (line column : Value) : Value :=
  VObject [("line", line); ("column", column)].

Definition range (start end_ : Value) : Value :=
  VObject [("start", start); ("end", end_)].

Definition moduleMappingTo (sourceMap sourceRange : Value) : ModuleInstance :=
  {| path := VStr "/src/index.ts";
     getSource := VObject [("source", VStr "let a: number = 1");
                           ("transformed", VStr "var a = 1")];
     getSourceMap := sourceMap;
     getSourceRange := fun _ => sourceRange |}.

Definition someLoc : Value :=
  range (position (VNum 1) (VNum 0)) (position (VNum 1) (VNum 9)).

End SourceRange.

(** * Vocabulary of the properties *)

(** The world once exactly one more record [r] is kept for [hook];
    nothing else differs. *)
Definition withRecord (hook : string) (r : PluginHookData) (w : World) : World :=
  setPluginData (<[hook := (recordsOf hook w ++ [r])%list]> (pluginData w)) w.

(** The name and the tag a proxy reports are the tap object's at the
    time of the report. *)
Definition nameAt (w : World) (tap : loc) : string :=
  from_option tap_name "undefined" (taps w !! tap).

Definition typeAt (w : World) (tap : loc) : string :=
  from_option tap_type "undefined" (taps w !! tap).

(** The record of a success, and of a failure with error [e]. *)
Definition isSuccessRecord (r : PluginHookData) : Prop :=
  result r = VNull ∧ error r = [].

Definition isFailureRecord (tn hook : string) (e : Value) (r : PluginHookData) : Prop :=
  result r = VNull ∧
  ∃ d, error r = [d] ∧
       title d = tn +:+ " " +:+ hook +:+ " Error" ∧
       message d = getProp e "message" ∧
       stack d = getProp e "stack" ∧
       noStack d = false ∧ noColor d = true.

(** What every record says about the invocation: the tap, the
    convention tag and the two clock readings. *)
Definition describes (tap : loc) (start : Z) (w : World) (r : PluginHookData) : Prop :=
  tapName r = nameAt w tap ∧ type r = typeAt w tap ∧
  startAt r = start ∧ endAt r = now w ∧ costs r = now w - start.

(** [tap.fn], as the host calls it once [register] has seen the tap. *)
Definition instrumented (sdk : RsdoctorSDK) (name : string) (tap : loc) (hp : Heap)
    : Callback :=
  callTap (snd (register sdk name tap hp)) tap.

Definition typeIs (hp : Heap) (tap : loc) (ty : string) : Prop :=
  tap_type <$> taps (world hp) !! tap = Some ty.

(** The child-context predicate of an invocation holds, or it is false
    or cannot be asked at all. *)
Definition isChild (args : list Value) : Prop :=
  ∃ c, isChildOf args = Normal c ∧ truthy c = true.

Definition notChild (args : list Value) : Prop :=
  ∃ c, isChildOf args = Normal c ∧ truthy c = false.

Definition sinkReturns (sdk : RsdoctorSDK) : Prop :=
  ∀ d w, ∃ w', reportPlugin sdk d w = (Normal tt, w').

Definition sinkThrows (sdk : RsdoctorSDK) (t : Value) : Prop :=
  ∀ d w, ∃ w', reportPlugin sdk d w = (Throw t, w').

Definition outcome {A B} (x : A * B) : A := fst x.

(** How the call of the original settles when it is awaited: a thrown
    error is a rejection. *)
Definition awaited (c : Completion Returned) : Promise :=
  match c with
  | Normal r => await r
  | Throw e => fun w => (Rejected e, w)
  end.

(** What is expected of the record of a settled promise: it carries an
    error descriptor exactly when the promise rejected. *)
Definition errorIffRejected (s : Settlement) (r : PluginHookData) : Prop :=
  error r ≠ [] ↔ ∃ e, s = Rejected e.

(** The store after [interceptPluginHook] ran twice on a fresh hook of
    the host and the tap [tap] with callback [o] was registered. *)
Definition interceptedTwice (sdk : RsdoctorSDK) (name : string) (hp : Heap)
    (tap : loc) (o : Callback) : Heap :=
  let st1 := snd (interceptPluginHook sdk name (Some tapableHook) (hp, emptyHook)) in
  let st2 := snd (interceptPluginHook sdk name (Some tapableHook) st1) in
  fst (hook_tap tap o st2).

(** ** A concrete build: tap [my-plugin] on hook [compile] *)

Module Scenario.

Definition fields (ty : string) : TapFields :=
  {| tap_name := "my-plugin"; tap_type := ty; tap_rest := [("stage", VNum 0)] |}.

(** The tap object is reference [0]; the clock reads 100. *)
Definition world0 (ty : string) : World :=
  {| now := 100; pluginData := ∅; taps := {[ 0%nat := fields ty ]} |}.

Definition later (ms : Z) (w : World) : World :=
  {| now := now w + ms; pluginData := pluginData w; taps := taps w |}.

Definition heap0 (ty : string) (o : Callback) : Heap :=
  {| world := world0 ty; fnOf := {[ 0%nat := o ]} |}.

Definition boom : Value := mkError "boom" "Error: boom at my-plugin.js:1:1".

(** Callbacks that run for 5 ms. *)
Definition returns42 : Callback :=
  fun _ _ w => (Normal (RValue (VNum 42)), later 5 w).

Definition throwsBoom : Callback :=
  fun _ _ w => (Throw boom, later 5 w).

(** Callbacks that return at once a promise settling 5 ms after. *)
Definition resolves (v : Value) : Callback :=
  fun _ _ w => (Normal (RPromise (fun w' => (Fulfilled v, later 5 w'))), w).

Definition rejects (e : Value) : Callback :=
  fun _ _ w => (Normal (RPromise (fun w' => (Rejected e, later 5 w'))), w).

(** A compilation of a child compiler, and one of the top-level one. *)
Definition childArgs : list Value :=
  [VObject [("compiler", VObject [("isChild", VFunction (VBool true))])]].

Definition topArgs : list Value :=
  [VObject [("compiler", VObject [("isChild", VFunction (VBool false))])]].

End Scenario.

(** The store after [interceptPluginHook] ran once on a fresh hook of
    the host and the tap [tap] with callback [o] was registered. *)
Definition interceptedOnce (sdk : RsdoctorSDK) (name : string) (hp : Heap)
    (tap : loc) (o : Callback) : Heap :=
  let st1 := snd (interceptPluginHook sdk name (Some tapableHook) (hp, emptyHook)) in
  fst (hook_tap tap o st1).

(** More of the concrete build. *)
Module Cases.

(** A sink that throws [t] the first time it is used, notes under the
    key [sink-failed] that it did, and works from then on. *)
Definition flakySdk (t : Value) : RsdoctorSDK :=
  {| reportPlugin := fun data w =>
       match pluginData w !! "sink-failed" with
       | None => (Throw t, setPluginData (<["sink-failed" := []]> (pluginData w)) w)
       | Some _ => (Normal tt, setPluginData (mergePluginData (pluginData w) data) w)
       end |}.

Definition sinkDown : Value := mkError "sink down" "Error: sink down at sdk.js:1:1".

(** A callback whose promise never settles. *)
Definition hangs : Callback :=
  fun _ _ w => (Normal (RPromise (fun w' => (Pending, w'))), w).

(** Callbacks that run for 5 ms and throw a given value, or return one. *)
Definition throws (e : Value) : Callback :=
  fun _ _ w => (Throw e, Scenario.later 5 w).

Definition returns (v : Value) : Callback :=
  fun _ _ w => (Normal (RValue v), Scenario.later 5 w).

(** A compilation whose [compiler] has no [isChild] method. *)
Definition oddArgs : list Value :=
  [VObject [("compiler", VObject [("name", VStr "child")])]].

End Cases.

Ltac monad_unfold :=
  cbv [bind try_catch ret throw lift settle then_ catch_ onError Date_now apply].

(** * Properties *)

(** ** The session sink *)

Lemma mergePluginData_singleton (acc : PluginData) (hook : string)
    (rs : list PluginHookData) :
  mergePluginData acc {[ hook := rs ]}
  = <[hook := (default [] (acc !! hook) ++ rs)%list]> acc.
Proof.
  apply map_eq; intros k. unfold mergePluginData.
  rewrite lookup_union_with.
  destruct (decide (hook = k)) as [->|Hne].
  - rewrite lookup_singleton_eq, lookup_insert_eq.
    destruct (acc !! k); reflexivity.
  - rewrite lookup_singleton_ne, lookup_insert_ne by done.
    destruct (acc !! k); reflexivity.
Qed.

Lemma recordsOf_withRecord (hook : string) (r : PluginHookData) (w : World) :
  recordsOf hook (withRecord hook r w) = (recordsOf hook w ++ [r])%list.
Proof.
  unfold recordsOf at 1, withRecord, setPluginData; simpl.
  by rewrite lookup_insert_eq.
Qed.

Lemma recordsOf_withRecord_ne (hook k : string) (r : PluginHookData) (w : World) :
  hook ≠ k → recordsOf k (withRecord hook r w) = recordsOf k w.
Proof.
  intros Hne. unfold recordsOf, withRecord, setPluginData; simpl.
  by rewrite lookup_insert_ne.
Qed.

Lemma length_recordsOf_withRecord (hook : string) (r : PluginHookData) (w : World) :
  length (recordsOf hook (withRecord hook r w)) = S (length (recordsOf hook w)).
Proof. rewrite recordsOf_withRecord, length_app; simpl; lia. Qed.

Lemma now_withRecord (hook : string) (r : PluginHookData) (w : World) :
  now (withRecord hook r w) = now w.
Proof. reflexivity. Qed.

Lemma taps_withRecord (hook : string) (r : PluginHookData) (w : World) :
  taps (withRecord hook r w) = taps w.
Proof. reflexivity. Qed.

(** ** The reporter *)

(** With the session's sink, [reportPluginData] submits exactly one
    record and returns. *)
Lemma reportPluginData_session (hook tn : string) (start : Z) (ty : string)
    (res : Returned) (err : Value) (w : World) :
  reportPluginData sessionSdk hook tn start ty res err w
  = (Normal tt,
     withRecord hook
       {| tapName := tn; costs := now w - start; startAt := start;
          endAt := now w; type := ty; result := VNull;
          error := if truthy err
                   then [ {| title := tn +:+ " " +:+ hook +:+ " Error";
                             message := getProp err "message";
                             noStack := false; noColor := true;
                             stack := getProp err "stack" |} ]
                   else [] |} w).
Proof.
  unfold reportPluginData, bind, Date_now, sessionSdk, withRecord; simpl.
  by rewrite mergePluginData_singleton.
Qed.

Lemma reportSuccess_session (name : string) (tap : loc) (start : Z)
    (res : Returned) (w : World) :
  ∃ r, reportSuccess sessionSdk name tap start res w = (Normal tt, withRecord name r w)
       ∧ isSuccessRecord r ∧ describes tap start w r.
Proof.
  eexists. unfold reportSuccess, bind, tapNameOf, tapTypeOf.
  rewrite reportPluginData_session. simpl.
  split; [reflexivity|]. by repeat split.
Qed.

Lemma reportFailure_session (name : string) (tap : loc) (start : Z)
    (e : Value) (w : World) :
  truthy e = true →
  ∃ r, reportFailure sessionSdk name tap start e w = (Normal tt, withRecord name r w)
       ∧ isFailureRecord (nameAt w tap) name e r ∧ describes tap start w r.
Proof.
  intros He. eexists. unfold reportFailure, bind, tapNameOf, tapTypeOf.
  rewrite reportPluginData_session, He. simpl.
  split; [reflexivity|]. split; [|by repeat split].
  split; [reflexivity|]. eexists. by repeat split.
Qed.

(** A falsy error is not told apart from no error. *)
Lemma reportFailure_session_falsy (name : string) (tap : loc) (start : Z)
    (e : Value) (w : World) :
  truthy e = false →
  ∃ r, reportFailure sessionSdk name tap start e w = (Normal tt, withRecord name r w)
       ∧ isSuccessRecord r ∧ describes tap start w r.
Proof.
  intros He. eexists. unfold reportFailure, bind, tapNameOf, tapTypeOf.
  rewrite reportPluginData_session, He. simpl.
  split; [reflexivity|]. by repeat split.
Qed.

(** Whatever the sink, a report is one call of [reportPlugin], with one
    record under the hook's name; the record is built before the call. *)
Lemma reportSuccess_one_call (name : string) (tap : loc) (start : Z)
    (res : Returned) (w : World) :
  ∃ r, isSuccessRecord r ∧ describes tap start w r
       ∧ ∀ sdk, reportSuccess sdk name tap start res w
                = reportPlugin sdk {[ name := [r] ]} w.
Proof.
  eexists. split; [|split]; [| |intros sdk; reflexivity]; by repeat split.
Qed.

Lemma reportFailure_one_call (name : string) (tap : loc) (start : Z)
    (e : Value) (w : World) :
  ∃ r, describes tap start w r
       ∧ (truthy e = true → isFailureRecord (nameAt w tap) name e r)
       ∧ (error r ≠ [] ↔ truthy e = true)
       ∧ ∀ sdk, reportFailure sdk name tap start e w
                = reportPlugin sdk {[ name := [r] ]} w.
Proof.
  eexists. split; [|split; [|split]]; [| | |intros sdk; reflexivity].
  - by repeat split.
  - intros He. split; [reflexivity|]. simpl. rewrite He.
    eexists. by repeat split.
  - simpl. by destruct (truthy e).
Qed.

Lemma sessionSdk_reportPlugin (hook : string) (r : PluginHookData) (w : World) :
  reportPlugin sessionSdk {[ hook := [r] ]} w = (Normal tt, withRecord hook r w).
Proof.
  unfold sessionSdk, withRecord; simpl. by rewrite mergePluginData_singleton.
Qed.

(** ** One layer of instrumentation *)

Lemma instrumented_sync sdk name tap hp :
  typeIs hp tap "sync" →
  instrumented sdk name tap hp = syncProxy sdk name tap (fnOf hp !! tap).
Proof.
  unfold typeIs, instrumented, register, callTap. intros ->.
  rewrite bool_decide_eq_true_2 by done. simpl.
  by rewrite lookup_insert_eq.
Qed.

Lemma instrumented_async sdk name tap hp :
  typeIs hp tap "async" →
  instrumented sdk name tap hp = asyncProxy sdk name tap (fnOf hp !! tap).
Proof.
  unfold typeIs, instrumented, register, callTap. intros ->.
  rewrite bool_decide_eq_false_2 by done.
  rewrite bool_decide_eq_true_2 by done. simpl.
  by rewrite lookup_insert_eq.
Qed.

Lemma instrumented_promise sdk name tap hp :
  typeIs hp tap "promise" →
  instrumented sdk name tap hp = promiseProxy sdk name tap (fnOf hp !! tap).
Proof.
  unfold typeIs, instrumented, register, callTap. intros ->.
  do 2 rewrite bool_decide_eq_false_2 by done.
  rewrite bool_decide_eq_true_2 by done. simpl.
  by rewrite lookup_insert_eq.
Qed.

Section Layer.
Variables (name : string) (tap : loc) (o : Callback).
Variables (this : Value) (args : list Value).

Lemma syncProxy_returns w res w1 :
  o this args w = (Normal res, w1) →
  ∃ r, syncProxy sessionSdk name tap (Some o) this args w
         = (Normal res, withRecord name r w1)
       ∧ isSuccessRecord r ∧ describes tap (now w) w1 r.
Proof.
  intros Ho.
  destruct (reportSuccess_session name tap (now w) res w1) as (r & Hr & Hs & Hd).
  exists r. split; [|done].
  cbv [syncProxy bind try_catch Date_now apply ret].
  by rewrite Ho, Hr.
Qed.

Lemma syncProxy_throws w e w1 :
  o this args w = (Throw e, w1) →
  truthy e = true →
  ∃ r, syncProxy sessionSdk name tap (Some o) this args w
         = (Throw e, withRecord name r w1)
       ∧ isFailureRecord (nameAt w1 tap) name e r ∧ describes tap (now w) w1 r.
Proof.
  intros Ho He.
  destruct (reportFailure_session name tap (now w) e w1 He) as (r & Hr & Hs & Hd).
  exists r. split; [|done].
  cbv [syncProxy onError bind try_catch Date_now apply throw].
  by rewrite Ho, Hr.
Qed.
End Layer.

(** *** The promise proxy's chain, with the session's sink *)

Section Chain.
Variables (name : string) (tap : loc) (start : Z) (c : Value) (p : Promise).

Lemma chained_pending sdk ws w2 :
  p ws = (Pending, w2) →
  chained sdk name tap start c p ws = (Pending, w2).
Proof. intros Hp. unfold chained. monad_unfold. by rewrite Hp. Qed.

Lemma chained_child_fulfilled sdk ws v w2 :
  truthy c = true →
  p ws = (Fulfilled v, w2) →
  chained sdk name tap start c p ws = (Fulfilled v, w2).
Proof. intros Hc Hp. unfold chained. monad_unfold. by rewrite Hp, Hc. Qed.

Lemma chained_fulfilled ws v w2 :
  truthy c = false →
  p ws = (Fulfilled v, w2) →
  ∃ r, chained sessionSdk name tap start c p ws
         = (Fulfilled v, withRecord name r w2)
       ∧ isSuccessRecord r ∧ describes tap start w2 r.
Proof.
  intros Hc Hp.
  destruct (reportSuccess_session name tap start (RValue v) w2) as (r & Hr & Hs & Hd).
  exists r. split; [|done].
  unfold chained. monad_unfold. by rewrite Hp, Hc, Hr.
Qed.

(** The rejection handler does not look at [isChild]. *)
Lemma chained_rejected ws e w2 :
  truthy e = true →
  p ws = (Rejected e, w2) →
  ∃ r, chained sessionSdk name tap start c p ws
         = (Rejected e, withRecord name r w2)
       ∧ isFailureRecord (nameAt w2 tap) name e r ∧ describes tap start w2 r.
Proof.
  intros He Hp.
  destruct (reportFailure_session name tap start e w2 He) as (r & Hr & Hs & Hd).
  exists r. split; [|done].
  unfold chained. monad_unfold. by rewrite Hp, Hr.
Qed.

Lemma chained_rejected_falsy ws e w2 :
  truthy e = false →
  p ws = (Rejected e, w2) →
  ∃ r, chained sessionSdk name tap start c p ws
         = (Rejected e, withRecord name r w2)
       ∧ isSuccessRecord r ∧ describes tap start w2 r.
Proof.
  intros He Hp.
  destruct (reportFailure_session_falsy name tap start e w2 He) as (r & Hr & Hs & Hd).
  exists r. split; [|done].
  unfold chained. monad_unfold. by rewrite Hp, Hr.
Qed.
End Chain.

Lemma promiseProxy_promise sdk name tap (o : Callback) this args w c p w1 :
  isChildOf args = Normal c →
  o this args w = (Normal (RPromise p), w1) →
  promiseProxy sdk name tap (Some o) this args w
  = (Normal (RPromise (chained sdk name tap (now w) c p)), w1).
Proof.
  intros Hc Ho. unfold promiseProxy. monad_unfold. by rewrite Hc, Ho.
Qed.

Lemma promiseProxy_throws sdk name tap (o : Callback) this args w c e w1 :
  isChildOf args = Normal c →
  o this args w = (Throw e, w1) →
  promiseProxy sdk name tap (Some o) this args w = (Throw e, w1).
Proof.
  intros Hc Ho. unfold promiseProxy. monad_unfold. by rewrite Hc, Ho.
Qed.

(** *** The async proxy, with the session's sink *)

Section Resume.
Variables (name : string) (tap : loc) (start : Z) (r : Returned).

Lemma resumed_pending sdk ws w2 :
  await r ws = (Pending, w2) →
  resumed sdk name tap start r ws = (Pending, w2).
Proof. intros Hp. unfold resumed. by rewrite Hp. Qed.

Lemma resumed_fulfilled ws v w2 :
  await r ws = (Fulfilled v, w2) →
  ∃ rec, resumed sessionSdk name tap start r ws
           = (Fulfilled v, withRecord name rec w2)
         ∧ isSuccessRecord rec ∧ describes tap start w2 rec.
Proof.
  intros Hp.
  destruct (reportSuccess_session name tap start (RValue v) w2) as (rec & Hr & Hs & Hd).
  exists rec. split; [|done].
  unfold resumed. rewrite Hp. monad_unfold. by rewrite Hr.
Qed.

Lemma resumed_rejected ws e w2 :
  truthy e = true →
  await r ws = (Rejected e, w2) →
  ∃ rec, resumed sessionSdk name tap start r ws
           = (Rejected e, withRecord name rec w2)
         ∧ isFailureRecord (nameAt w2 tap) name e rec ∧ describes tap start w2 rec.
Proof.
  intros He Hp.
  destruct (reportFailure_session name tap start e w2 He) as (rec & Hr & Hs & Hd).
  exists rec. split; [|done].
  unfold resumed. rewrite Hp. monad_unfold. by rewrite Hr.
Qed.
End Resume.

Lemma asyncProxy_returns sdk name tap (o : Callback) this args w r w1 :
  o this args w = (Normal r, w1) →
  asyncProxy sdk name tap (Some o) this args w
  = (Normal (RPromise (resumed sdk name tap (now w) r)), w1).
Proof. intros Ho. unfold asyncProxy, apply. by rewrite Ho. Qed.

(** A report of any kind: one record, whatever the error. *)
Lemma reportFailure_session_any (name : string) (tap : loc) (start : Z)
    (e : Value) (w : World) :
  ∃ r, reportFailure sessionSdk name tap start e w = (Normal tt, withRecord name r w)
       ∧ describes tap start w r
       ∧ (error r ≠ [] ↔ truthy e = true).
Proof.
  destruct (truthy e) eqn:He.
  - destruct (reportFailure_session name tap start e w He)
      as (r & Hr & (_ & d & Hd & _) & Hdesc).
    exists r. split; [done|]. split; [done|].
    rewrite Hd. by split.
  - destruct (reportFailure_session_falsy name tap start e w He)
      as (r & Hr & (_ & Hd) & Hdesc).
    exists r. split; [done|]. split; [done|].
    rewrite Hd. by split.
Qed.

Lemma syncProxy_completes name tap (o : Callback) this args w (c : Completion Returned) w1 :
  o this args w = (c, w1) →
  ∃ r, syncProxy sessionSdk name tap (Some o) this args w = (c, withRecord name r w1).
Proof.
  intros Ho. destruct c as [res|e].
  - destruct (syncProxy_returns name tap o this args w res w1 Ho) as (r & Hr & _).
    by exists r.
  - destruct (reportFailure_session_any name tap (now w) e w1) as (r & Hr & _).
    exists r. cbv [syncProxy onError bind try_catch Date_now apply throw].
    by rewrite Ho, Hr.
Qed.

Lemma chained_settled name tap start c p ws s w2 :
  truthy c = false →
  p ws = (s, w2) →
  s ≠ Pending →
  ∃ r, chained sessionSdk name tap start c p ws = (s, withRecord name r w2)
       ∧ describes tap start w2 r
       ∧ (error r ≠ [] ↔ ∃ e, s = Rejected e ∧ truthy e = true).
Proof.
  intros Hc Hp Hs. destruct s as [v|e|]; [| |done].
  - destruct (chained_fulfilled name tap start c p ws v w2 Hc Hp)
      as (r & Hr & (_ & Herr) & Hd).
    exists r. split; [done|]. split; [done|]. rewrite Herr.
    split; [done|]. intros (e & He & _). discriminate.
  - destruct (reportFailure_session_any name tap start e w2) as (r & Hr & Hd & Herr).
    exists r. split; [|split; [done|]].
    + unfold chained. monad_unfold. by rewrite Hp, Hr.
    + rewrite Herr. split; [eauto|]. by intros (e' & [= <-] & He).
Qed.

(** Whatever the sink: outside a child context the chain makes one call
    of [reportPlugin] when the promise settles. *)
Lemma chained_one_call name tap start c p ws s w2 :
  truthy c = false →
  p ws = (s, w2) →
  s ≠ Pending →
  ∃ r, describes tap start w2 r
       ∧ (error r ≠ [] ↔ ∃ e, s = Rejected e ∧ truthy e = true)
       ∧ ∀ sdk w3, reportPlugin sdk {[ name := [r] ]} w2 = (Normal tt, w3) →
           chained sdk name tap start c p ws = (s, w3).
Proof.
  intros Hc Hp Hs. destruct s as [v|e|]; [| |done].
  - destruct (reportSuccess_one_call name tap start (RValue v) w2)
      as (r & (_ & Herr) & Hd & Hcall).
    exists r. split; [done|]. split.
    + rewrite Herr. split; [done|]. intros (e & He & _). discriminate.
    + intros sdk w3 Hsub. unfold chained. monad_unfold.
      by rewrite Hp, Hc, Hcall, Hsub.
  - destruct (reportFailure_one_call name tap start e w2)
      as (r & Hd & _ & Herr & Hcall).
    exists r. split; [done|]. split.
    + rewrite Herr. split; [eauto|]. by intros (e' & [= <-] & He).
    + intros sdk w3 Hsub. unfold chained. monad_unfold.
      by rewrite Hp, Hcall, Hsub.
Qed.

Lemma resumed_settled name tap start r ws s w2 :
  await r ws = (s, w2) →
  s ≠ Pending →
  ∃ rec, resumed sessionSdk name tap start r ws = (s, withRecord name rec w2)
         ∧ describes tap start w2 rec
         ∧ (error rec ≠ [] ↔ ∃ e, s = Rejected e ∧ truthy e = true).
Proof.
  intros Hp Hs. destruct s as [v|e|]; [| |done].
  - destruct (resumed_fulfilled name tap start r ws v w2 Hp)
      as (rec & Hr & (_ & Herr) & Hd).
    exists rec. split; [done|]. split; [done|]. rewrite Herr.
    split; [done|]. intros (e & He & _). discriminate.
  - destruct (reportFailure_session_any name tap start e w2) as (rec & Hr & Hd & Herr).
    exists rec. split; [|split; [done|]].
    + unfold resumed. rewrite Hp. monad_unfold. by rewrite Hr.
    + rewrite Herr. split; [eauto|]. by intros (e' & [= <-] & He).
Qed.

(** *** Any sink *)

Section AnySink.
Variable sdk : RsdoctorSDK.
Variables (name : string) (tap : loc) (start : Z).

Section Returns.
Hypothesis Hsink : sinkReturns sdk.

Lemma reportSuccess_returns res w :
  ∃ w', reportSuccess sdk name tap start res w = (Normal tt, w').
Proof.
  unfold reportSuccess, reportPluginData, tapNameOf, tapTypeOf. monad_unfold.
  apply Hsink.
Qed.

Lemma reportFailure_returns e w :
  ∃ w', reportFailure sdk name tap start e w = (Normal tt, w').
Proof.
  unfold reportFailure, reportPluginData, tapNameOf, tapTypeOf. monad_unfold.
  apply Hsink.
Qed.

Lemma chained_transparent c p ws :
  outcome (chained sdk name tap start c p ws) = outcome (p ws).
Proof.
  unfold chained, outcome. monad_unfold.
  destruct (p ws) as [[v|e|] w2]; simpl; [| |done].
  - destruct (truthy c); [done|].
    destruct (reportSuccess_returns (RValue v) w2) as [w' ->]. done.
  - destruct (reportFailure_returns e w2) as [w' ->]. done.
Qed.

Lemma resumed_transparent r ws :
  outcome (resumed sdk name tap start r ws) = outcome (await r ws).
Proof.
  unfold resumed, outcome.
  destruct (await r ws) as [[v|e|] w2]; monad_unfold; simpl; [| |done].
  - destruct (reportSuccess_returns (RValue v) w2) as [w' ->]. done.
  - destruct (reportFailure_returns e w2) as [w' ->]. done.
Qed.
End Returns.

Section Throws.
Variable t : Value.
Hypothesis Hsink : sinkThrows sdk t.

Lemma reportSuccess_throws res w :
  ∃ w', reportSuccess sdk name tap start res w = (Throw t, w').
Proof.
  unfold reportSuccess, reportPluginData, tapNameOf, tapTypeOf. monad_unfold.
  apply Hsink.
Qed.

Lemma reportFailure_throws e w :
  ∃ w', reportFailure sdk name tap start e w = (Throw t, w').
Proof.
  unfold reportFailure, reportPluginData, tapNameOf, tapTypeOf. monad_unfold.
  apply Hsink.
Qed.

Lemma chained_sink_error c p ws s w2 :
  truthy c = false →
  p ws = (s, w2) →
  s ≠ Pending →
  outcome (chained sdk name tap start c p ws) = Rejected t.
Proof.
  intros Hc Hp Hs. unfold chained, outcome. monad_unfold. rewrite Hp, Hc.
  destruct s as [v|e|]; [| |done].
  - destruct (reportSuccess_throws (RValue v) w2) as [w' ->].
    destruct (reportFailure_throws t w') as [w'' ->]. done.
  - destruct (reportFailure_throws e w2) as [w' ->]. done.
Qed.

Lemma resumed_sink_error r ws s w2 :
  await r ws = (s, w2) →
  s ≠ Pending →
  outcome (resumed sdk name tap start r ws) = Rejected t.
Proof.
  intros Hp Hs. unfold resumed, outcome. rewrite Hp. monad_unfold.
  destruct s as [v|e|]; [| |done].
  - destruct (reportSuccess_throws (RValue v) w2) as [w' ->].
    destruct (reportFailure_throws t w') as [w'' ->]. done.
  - destruct (reportFailure_throws e w2) as [w' ->]. done.
Qed.
End Throws.
End AnySink.

Lemma syncProxy_transparent sdk name tap (o : Callback) this args w :
  sinkReturns sdk →
  outcome (syncProxy sdk name tap (Some o) this args w) = outcome (o this args w).
Proof.
  intros Hsink. unfold outcome.
  cbv [syncProxy onError bind try_catch Date_now apply throw ret].
  destruct (o this args w) as [[res|e] w1]; simpl.
  - destruct (reportSuccess_returns sdk name tap (now w) Hsink res w1) as [w' ->]. done.
  - destruct (reportFailure_returns sdk name tap (now w) Hsink e w1) as [w' ->]. done.
Qed.

Lemma syncProxy_sink_error sdk name tap (o : Callback) this args w t :
  sinkThrows sdk t →
  outcome (syncProxy sdk name tap (Some o) this args w) = Throw t.
Proof.
  intros Hsink. unfold outcome.
  cbv [syncProxy onError bind try_catch Date_now apply throw ret].
  destruct (o this args w) as [[res|e] w1]; simpl.
  - destruct (reportSuccess_throws sdk name tap (now w) t Hsink res w1) as [w' ->].
    destruct (reportFailure_throws sdk name tap (now w) t Hsink t w') as [w'' ->]. done.
  - destruct (reportFailure_throws sdk name tap (now w) t Hsink e w1) as [w' ->]. done.
Qed.

Lemma asyncProxy_throws sdk name tap (o : Callback) this args w e w1 :
  o this args w = (Throw e, w1) →
  ∃ s w2, settle (onError sdk name tap (now w) e) w1 = (s, w2)
          ∧ asyncProxy sdk name tap (Some o) this args w
            = (Normal (RPromise (fun w' => (s, w'))), w2).
Proof.
  intros Ho. unfold asyncProxy, apply. rewrite Ho.
  destruct (settle (onError sdk name tap (now w) e) w1) as [s w2].
  by exists s, w2.
Qed.

(** ** Synchronous taps *)

(** C5.  A synchronous tap whose callback, called with the caller's
    [this] and arguments, returns [res]: the instrumented callback
    returns the same [res] and submits exactly one record, whose result
    is [null] and whose error list is empty.  Whatever the sink, the
    submission is one call of [reportPlugin] with that record alone,
    made in the world the callback left; with the session's sink, the
    hook has exactly that record more. *)
Theorem sync_success_same_value_one_null_record
    (name : string) (tap : loc) (hp : Heap) (o : Callback)
    (this : Value) (args : list Value) (w w1 : World) (res : Returned) :
  typeIs hp tap "sync" →
  fnOf hp !! tap = Some o →
  o this args w = (Normal res, w1) →
  ∃ r, result r = VNull
       ∧ error r = []
       ∧ describes tap (now w) w1 r
       ∧ (∀ sdk w2, reportPlugin sdk {[ name := [r] ]} w1 = (Normal tt, w2) →
            instrumented sdk name tap hp this args w = (Normal res, w2))
       ∧ instrumented sessionSdk name tap hp this args w
         = (Normal res, withRecord name r w1)
       ∧ recordsOf name (withRecord name r w1) = (recordsOf name w1 ++ [r])%list.
Proof.
  intros Hty Hfn Ho.
  destruct (reportSuccess_one_call name tap (now w) res w1)
    as (r & (Hres & Herr) & Hd & Hcall).
  assert (∀ sdk w2, reportPlugin sdk {[ name := [r] ]} w1 = (Normal tt, w2) →
            instrumented sdk name tap hp this args w = (Normal res, w2)) as Hany.
  { intros sdk w2 Hsub.
    rewrite (instrumented_sync _ _ _ _ Hty), Hfn.
    cbv [syncProxy onError bind try_catch Date_now apply ret].
    by rewrite Ho, Hcall, Hsub. }
  exists r. rewrite recordsOf_withRecord.
  split; [done|]. split; [done|]. split; [done|]. split; [done|].
  split; [|done]. apply Hany, sessionSdk_reportPlugin.
Qed.

Lemma sync_success_same_value_one_null_record_witness :
  ∃ r, result r = VNull
     ∧ error r = []
     ∧ describes 0%nat (now (Scenario.world0 "sync"))
         (Scenario.later 5 (Scenario.world0 "sync")) r
     ∧ (∀ sdk w2,
          reportPlugin sdk {[ "compile" := [r] ]}
            (Scenario.later 5 (Scenario.world0 "sync")) = (Normal tt, w2) →
          instrumented sdk "compile" 0%nat
            (Scenario.heap0 "sync" Scenario.returns42) VUndefined []
            (Scenario.world0 "sync")
          = (Normal (RValue (VNum 42)), w2))
     ∧ instrumented sessionSdk "compile" 0%nat
         (Scenario.heap0 "sync" Scenario.returns42) VUndefined []
         (Scenario.world0 "sync")
       = (Normal (RValue (VNum 42)),
          withRecord "compile" r (Scenario.later 5 (Scenario.world0 "sync")))
     ∧ recordsOf "compile"
         (withRecord "compile" r (Scenario.later 5 (Scenario.world0 "sync")))
       = (recordsOf "compile" (Scenario.later 5 (Scenario.world0 "sync")) ++ [r])%list.
Proof.
  apply (sync_success_same_value_one_null_record "compile" 0%nat
           (Scenario.heap0 "sync" Scenario.returns42) Scenario.returns42
           VUndefined [] (Scenario.world0 "sync")
           (Scenario.later 5 (Scenario.world0 "sync")) (RValue (VNum 42)));
    reflexivity.
Defined.




(** The two scenarios of the specification: the tap [my-plugin] on hook
    [compile] runs for 5 ms and returns 42; as an async tap its promise
    rejects with [Error("boom")]. *)
Example scenario_sync_returns_42 :
  instrumented sessionSdk "compile" 0%nat
    (Scenario.heap0 "sync" Scenario.returns42) VUndefined []
    (Scenario.world0 "sync")
  = (Normal (RValue (VNum 42)),
     withRecord "compile"
       {| tapName := "my-plugin"; costs := 5; startAt := 100; endAt := 105;
          type := "sync"; result := VNull; error := [] |}
       (Scenario.later 5 (Scenario.world0 "sync"))).
Proof.
  rewrite (instrumented_sync sessionSdk "compile" 0%nat
             (Scenario.heap0 "sync" Scenario.returns42) eq_refl).
  assert (fnOf (Scenario.heap0 "sync" Scenario.returns42) !! 0%nat
          = Some Scenario.returns42) as -> by reflexivity.
  cbv [syncProxy onError bind try_catch Date_now apply ret reportSuccess
       tapNameOf tapTypeOf Scenario.returns42].
  rewrite reportPluginData_session. reflexivity.
Qed.

Example scenario_async_boom :
  ∃ p', instrumented sessionSdk "compile" 0%nat
          (Scenario.heap0 "async" (Scenario.rejects Scenario.boom)) VUndefined []
          (Scenario.world0 "async")
        = (Normal (RPromise p'), Scenario.world0 "async")
      ∧ p' (Scenario.world0 "async")
        = (Rejected Scenario.boom,
           withRecord "compile"
             {| tapName := "my-plugin"; costs := 5; startAt := 100; endAt := 105;
                type := "async"; result := VNull;
                error := [ {| title := "my-plugin compile Error";
                              message := VStr "boom";
                              noStack := false; noColor := true;
                              stack := VStr "Error: boom at my-plugin.js:1:1" |} ] |}
             (Scenario.later 5 (Scenario.world0 "async"))).
Proof.
  rewrite (instrumented_async sessionSdk "compile" 0%nat
             (Scenario.heap0 "async" (Scenario.rejects Scenario.boom)) eq_refl).
  assert (fnOf (Scenario.heap0 "async" (Scenario.rejects Scenario.boom)) !! 0%nat
          = Some (Scenario.rejects Scenario.boom)) as -> by reflexivity.
  erewrite asyncProxy_returns by reflexivity.
  eexists. split; [reflexivity|].
  cbv [resumed await settle onError bind throw reportFailure tapNameOf tapTypeOf].
  rewrite reportPluginData_session. reflexivity.
Qed.

(** ** Promise-returning taps *)

(** No first argument, or no [compiler] on it: the predicate is absent. *)
Lemma notChild_no_argument : notChild [].
Proof. by exists VUndefined. Qed.

Lemma notChild_no_compiler (a0 : Value) (rest : list Value) :
  nullish (getProp a0 "compiler") = true → notChild (a0 :: rest).
Proof.
  intros Hc. exists VUndefined. split; [|done].
  unfold isChildOf, index; simpl. rewrite Hc. by destruct (nullish a0).
Qed.

Lemma notChild_isChild_exclusive (args : list Value) :
  notChild args → isChild args → False.
Proof. intros (c & Hc & Hf) (c' & Hc' & Ht). congruence. Qed.

(** In a child context a fulfilment is passed on and nothing is
    submitted, whatever the sink. *)
Lemma promise_child_fulfilled_silent sdk name tap hp (o : Callback) this args w p w1 :
  typeIs hp tap "promise" →
  fnOf hp !! tap = Some o →
  isChild args →
  o this args w = (Normal (RPromise p), w1) →
  ∃ p', instrumented sdk name tap hp this args w = (Normal (RPromise p'), w1)
        ∧ ∀ ws v w2, p ws = (Fulfilled v, w2) → p' ws = (Fulfilled v, w2).
Proof.
  intros Hty Hfn (c & Hc & Htr) Ho.
  rewrite (instrumented_promise _ _ _ _ Hty), Hfn.
  rewrite (promiseProxy_promise _ _ _ _ _ _ _ _ _ _ Hc Ho).
  eexists. split; [reflexivity|].
  intros ws v w2 Hp. by apply chained_child_fulfilled.
Qed.

(** In a child context a rejection is passed on, and reported. *)
Lemma promise_child_rejected_reported name tap hp (o : Callback) this args w p w1 :
  typeIs hp tap "promise" →
  fnOf hp !! tap = Some o →
  isChild args →
  o this args w = (Normal (RPromise p), w1) →
  ∃ p', instrumented sessionSdk name tap hp this args w = (Normal (RPromise p'), w1)
        ∧ ∀ ws e w2, p ws = (Rejected e, w2) → truthy e = true →
            ∃ r, p' ws = (Rejected e, withRecord name r w2)
                 ∧ isFailureRecord (nameAt w2 tap) name e r.
Proof.
  intros Hty Hfn (c & Hc & Htr) Ho.
  rewrite (instrumented_promise _ _ _ _ Hty), Hfn.
  rewrite (promiseProxy_promise _ _ _ _ _ _ _ _ _ _ Hc Ho).
  eexists. split; [reflexivity|].
  intros ws e w2 Hp He.
  destruct (chained_rejected name tap (now w) c p ws e w2 He Hp) as (r & Hr & Hf & _).
  by exists r.
Qed.

(** C1 (the code departs from the claim).  The tap [my-plugin] of
    convention [promise] on hook [compile] is called with a compilation
    whose [compiler.isChild()] is [true]; its promise rejects with
    [Error("boom")].  The rejection reaches the caller unchanged, but
    the session holds one record for the invocation, not none: the
    rejection handler reports without consulting [isChild]. *)
Theorem promise_child_rejection_submits_a_record :
  isChild Scenario.childArgs ∧
  ∃ p' r d,
    instrumented sessionSdk "compile" 0%nat
      (Scenario.heap0 "promise" (Scenario.rejects Scenario.boom))
      VUndefined Scenario.childArgs (Scenario.world0 "promise")
    = (Normal (RPromise p'), Scenario.world0 "promise")
    ∧ p' (Scenario.world0 "promise")
      = (Rejected Scenario.boom,
         withRecord "compile" r (Scenario.later 5 (Scenario.world0 "promise")))
    ∧ recordsOf "compile" (Scenario.later 5 (Scenario.world0 "promise")) = []
    ∧ recordsOf "compile"
        (withRecord "compile" r (Scenario.later 5 (Scenario.world0 "promise"))) = [r]
    ∧ error r = [d]
    ∧ title d = "my-plugin compile Error"
    ∧ message d = VStr "boom".
Proof.
  assert (isChild Scenario.childArgs) as Hchild by (by exists (VBool true)).
  split; [done|].
  destruct (promise_child_rejected_reported "compile" 0%nat
              (Scenario.heap0 "promise" (Scenario.rejects Scenario.boom))
              (Scenario.rejects Scenario.boom) VUndefined Scenario.childArgs
              (Scenario.world0 "promise") _ (Scenario.world0 "promise")
              eq_refl eq_refl Hchild eq_refl) as (p' & Hrun & Hsettle).
  destruct (Hsettle (Scenario.world0 "promise") Scenario.boom
              (Scenario.later 5 (Scenario.world0 "promise")) eq_refl eq_refl)
    as (r & Hr & _ & d & Hd & Htitle & Hmsg & _).
  exists p', r, d. rewrite recordsOf_withRecord.
  by repeat split.
Qed.

(** C6, as stated, fails: called without arguments, the tap's promise
    rejects with [undefined] (as [Promise.reject()] does); one record is
    submitted and it carries no error descriptor. *)
Lemma promise_rejected_undefined_record_has_no_error :
  notChild [] ∧
  ∃ p' r,
    instrumented sessionSdk "compile" 0%nat
      (Scenario.heap0 "promise" (Scenario.rejects VUndefined))
      VUndefined [] (Scenario.world0 "promise")
    = (Normal (RPromise p'), Scenario.world0 "promise")
    ∧ p' (Scenario.world0 "promise")
      = (Rejected VUndefined,
         withRecord "compile" r (Scenario.later 5 (Scenario.world0 "promise")))
    ∧ ¬ errorIffRejected (Rejected VUndefined) r.
Proof.
  split; [apply notChild_no_argument|].
  rewrite (instrumented_promise sessionSdk "compile" 0%nat
             (Scenario.heap0 "promise" (Scenario.rejects VUndefined)) eq_refl).
  assert (fnOf (Scenario.heap0 "promise" (Scenario.rejects VUndefined)) !! 0%nat
          = Some (Scenario.rejects VUndefined)) as -> by reflexivity.
  erewrite promiseProxy_promise by reflexivity.
  destruct (chained_rejected_falsy "compile" 0%nat (now (Scenario.world0 "promise"))
              VUndefined (λ w', (Rejected VUndefined, Scenario.later 5 w'))
              (Scenario.world0 "promise") VUndefined
              (Scenario.later 5 (Scenario.world0 "promise")) eq_refl eq_refl)
    as (r & Hr & (_ & Herr) & _).
  eexists _, r. split; [reflexivity|]. split; [exact Hr|].
  intros [_ Hiff]. apply Hiff; [|done]. by exists VUndefined.
Qed.

(** C6, amended.  A promise-returning tap invoked where the
    child-context predicate is false or absent: nothing is submitted
    until the promise of the callback settles; when it does, the
    settlement is passed on unchanged and exactly one record is
    submitted (one call of [reportPlugin], whatever the sink; one
    record more for the hook with the session's sink), which carries an
    error descriptor if and only if the promise rejected with a truthy
    reason (an error object, say). *)
Theorem promise_top_level_one_record_on_settlement
    (name : string) (tap : loc) (hp : Heap) (o : Callback)
    (this : Value) (args : list Value) (w w1 : World) (p : Promise)
    (ws w2 : World) (s : Settlement) :
  typeIs hp tap "promise" →
  fnOf hp !! tap = Some o →
  notChild args →
  o this args w = (Normal (RPromise p), w1) →
  p ws = (s, w2) →
  s ≠ Pending →
  ∃ r,
    (error r ≠ [] ↔ ∃ e, s = Rejected e ∧ truthy e = true)
    ∧ (∀ sdk, ∃ p',
         instrumented sdk name tap hp this args w = (Normal (RPromise p'), w1)
         ∧ ∀ w3, reportPlugin sdk {[ name := [r] ]} w2 = (Normal tt, w3) →
             p' ws = (s, w3))
    ∧ (∃ p',
         instrumented sessionSdk name tap hp this args w = (Normal (RPromise p'), w1)
         ∧ p' ws = (s, withRecord name r w2))
    ∧ recordsOf name (withRecord name r w2) = (recordsOf name w2 ++ [r])%list.
Proof.
  intros Hty Hfn (c & Hc & Hfalse) Ho Hp Hs.
  destruct (chained_one_call name tap (now w) c p ws s w2 Hfalse Hp Hs)
    as (r & _ & Herr & Hcall).
  assert (∀ sdk, ∃ p',
            instrumented sdk name tap hp this args w = (Normal (RPromise p'), w1)
            ∧ ∀ w3, reportPlugin sdk {[ name := [r] ]} w2 = (Normal tt, w3) →
                p' ws = (s, w3)) as Hany.
  { intros sdk. rewrite (instrumented_promise _ _ _ _ Hty), Hfn.
    rewrite (promiseProxy_promise _ _ _ _ _ _ _ _ _ _ Hc Ho).
    eexists. split; [reflexivity|]. intros w3. apply Hcall. }
  exists r. rewrite recordsOf_withRecord.
  split; [exact Herr|]. split; [exact Hany|]. split; [|reflexivity].
  destruct (Hany sessionSdk) as (p' & Hrun & Hsettle).
  exists p'. split; [exact Hrun|]. apply Hsettle, sessionSdk_reportPlugin.
Qed.

Lemma promise_top_level_one_record_on_settlement_witness :
  ∃ r,
    (error r ≠ [] ↔ ∃ e, Rejected Scenario.boom = Rejected e ∧ truthy e = true)
    ∧ (∀ sdk, ∃ p',
         instrumented sdk "compile" 0%nat
           (Scenario.heap0 "promise" (Scenario.rejects Scenario.boom))
           VUndefined Scenario.topArgs (Scenario.world0 "promise")
         = (Normal (RPromise p'), Scenario.world0 "promise")
         ∧ ∀ w3, reportPlugin sdk {[ "compile" := [r] ]}
                   (Scenario.later 5 (Scenario.world0 "promise")) = (Normal tt, w3) →
             p' (Scenario.world0 "promise") = (Rejected Scenario.boom, w3))
    ∧ (∃ p',
         instrumented sessionSdk "compile" 0%nat
           (Scenario.heap0 "promise" (Scenario.rejects Scenario.boom))
           VUndefined Scenario.topArgs (Scenario.world0 "promise")
         = (Normal (RPromise p'), Scenario.world0 "promise")
         ∧ p' (Scenario.world0 "promise")
           = (Rejected Scenario.boom,
              withRecord "compile" r (Scenario.later 5 (Scenario.world0 "promise"))))
    ∧ recordsOf "compile"
        (withRecord "compile" r (Scenario.later 5 (Scenario.world0 "promise")))
      = (recordsOf "compile" (Scenario.later 5 (Scenario.world0 "promise")) ++ [r])%list.
Proof.
  apply (promise_top_level_one_record_on_settlement "compile" 0%nat
           (Scenario.heap0 "promise" (Scenario.rejects Scenario.boom))
           (Scenario.rejects Scenario.boom) VUndefined Scenario.topArgs
           (Scenario.world0 "promise") (Scenario.world0 "promise")
           (λ w', (Rejected Scenario.boom, Scenario.later 5 w'))
           (Scenario.world0 "promise")
           (Scenario.later 5 (Scenario.world0 "promise"))
           (Rejected Scenario.boom)).
  - reflexivity.
  - reflexivity.
  - exists (VBool false). split; reflexivity.
  - reflexivity.
  - reflexivity.
  - discriminate.
Defined.

(** ** Errors of the telemetry path *)

Lemma sessionSdk_returns : sinkReturns sessionSdk.
Proof. intros d w. eexists. reflexivity. Qed.

Lemma faultySdk_throws (t : Value) : sinkThrows (faultySdk t) t.
Proof. intros d w. by exists w. Qed.

(** C2, as stated, fails: with a sink whose submit throws, the
    synchronous tap that returns 42 makes its instrumented callback
    throw the sink's error. *)
Lemma faulty_sink_error_reaches_the_caller :
  outcome (Scenario.returns42 VUndefined [] (Scenario.world0 "sync"))
    = Normal (RValue (VNum 42))
  ∧ outcome (instrumented (faultySdk (VStr "sink down")) "compile" 0%nat
               (Scenario.heap0 "sync" Scenario.returns42)
               VUndefined [] (Scenario.world0 "sync"))
    = Throw (VStr "sink down")
  ∧ outcome (instrumented (faultySdk (VStr "sink down")) "compile" 0%nat
               (Scenario.heap0 "sync" Scenario.returns42)
               VUndefined [] (Scenario.world0 "sync"))
    ≠ outcome (Scenario.returns42 VUndefined [] (Scenario.world0 "sync")).
Proof.
  assert (outcome (instrumented (faultySdk (VStr "sink down")) "compile" 0%nat
                     (Scenario.heap0 "sync" Scenario.returns42)
                     VUndefined [] (Scenario.world0 "sync"))
          = Throw (VStr "sink down")) as Hrun.
  { rewrite (instrumented_sync (faultySdk (VStr "sink down")) "compile" 0%nat
               (Scenario.heap0 "sync" Scenario.returns42) eq_refl).
    assert (fnOf (Scenario.heap0 "sync" Scenario.returns42) !! 0%nat
            = Some Scenario.returns42) as -> by reflexivity.
    apply syncProxy_sink_error, faultySdk_throws. }
  split; [reflexivity|]. split; [exact Hrun|].
  rewrite Hrun. discriminate.
Qed.

(** C2, amended.  As long as the session sink's submit returns, every
    instrumented tap hands on what the original callback does: the
    sync one returns or throws the same; the async one returns a
    promise that settles as the awaited call of the original does; the
    promise one (its child-context predicate being computable) throws
    what the original throws and returns a promise that settles as the
    original's.  An error of submit is not caught anywhere: when submit
    throws [t], the sync callback throws [t], and the promise of the
    async one, and that of the promise one outside a child context,
    reject with [t] once the original has settled. *)
Theorem outcome_unchanged_unless_submit_throws
    (sdk : RsdoctorSDK) (name : string) (tap : loc) (hp : Heap) (o : Callback)
    (this : Value) (args : list Value) (w : World) :
  fnOf hp !! tap = Some o →
  (sinkReturns sdk →
     (typeIs hp tap "sync" →
        outcome (instrumented sdk name tap hp this args w) = outcome (o this args w))
   ∧ (typeIs hp tap "async" →
        ∃ p', outcome (instrumented sdk name tap hp this args w) = Normal (RPromise p')
              ∧ ∀ ws, outcome (p' ws) = outcome (awaited (outcome (o this args w)) ws))
   ∧ (typeIs hp tap "promise" → ∀ c, isChildOf args = Normal c →
        (∀ e, outcome (o this args w) = Throw e →
           outcome (instrumented sdk name tap hp this args w) = Throw e)
      ∧ (∀ p, outcome (o this args w) = Normal (RPromise p) →
           ∃ p', outcome (instrumented sdk name tap hp this args w)
                   = Normal (RPromise p')
                 ∧ ∀ ws, outcome (p' ws) = outcome (p ws))))
  ∧ (∀ t, sinkThrows sdk t →
     (typeIs hp tap "sync" →
        outcome (instrumented sdk name tap hp this args w) = Throw t)
   ∧ (typeIs hp tap "async" →
        ∃ p', outcome (instrumented sdk name tap hp this args w) = Normal (RPromise p')
              ∧ ∀ ws s w2, awaited (outcome (o this args w)) ws = (s, w2) →
                  s ≠ Pending → outcome (p' ws) = Rejected t)
   ∧ (typeIs hp tap "promise" → notChild args →
        ∀ p, outcome (o this args w) = Normal (RPromise p) →
          ∃ p', outcome (instrumented sdk name tap hp this args w)
                  = Normal (RPromise p')
                ∧ ∀ ws s w2, p ws = (s, w2) →
                    s ≠ Pending → outcome (p' ws) = Rejected t)).
Proof.
  intros Hfn. split.
  - intros Hsink. split; [|split].
    + intros Hty. rewrite (instrumented_sync _ _ _ _ Hty), Hfn.
      by apply syncProxy_transparent.
    + intros Hty. rewrite (instrumented_async _ _ _ _ Hty), Hfn.
      destruct (o this args w) as [[r|e] w1] eqn:Ho.
      * rewrite (asyncProxy_returns _ _ _ _ _ _ _ _ _ Ho).
        eexists. split; [reflexivity|].
        intros ws. by apply resumed_transparent.
      * destruct (asyncProxy_throws sdk name tap o this args w e w1 Ho)
          as (s & w2 & Hs & ->).
        eexists. split; [reflexivity|].
        intros ws. unfold outcome; simpl.
        revert Hs. unfold settle, onError, bind, throw.
        destruct (reportFailure_returns sdk name tap (now w) Hsink e w1) as [w' ->].
        by intros [= <- _].
    + intros Hty c Hc. rewrite (instrumented_promise _ _ _ _ Hty), Hfn. split.
      * intros e He. destruct (o this args w) as [c0 w1] eqn:Ho.
        unfold outcome in He; simpl in He; subst c0.
        by rewrite (promiseProxy_throws _ _ _ _ _ _ _ _ _ _ Hc Ho).
      * intros p Hp. destruct (o this args w) as [c0 w1] eqn:Ho.
        unfold outcome in Hp; simpl in Hp; subst c0.
        rewrite (promiseProxy_promise _ _ _ _ _ _ _ _ _ _ Hc Ho).
        eexists. split; [reflexivity|].
        intros ws. by apply chained_transparent.
  - intros t Hsink. split; [|split].
    + intros Hty. rewrite (instrumented_sync _ _ _ _ Hty), Hfn.
      by apply syncProxy_sink_error.
    + intros Hty. rewrite (instrumented_async _ _ _ _ Hty), Hfn.
      destruct (o this args w) as [[r|e] w1] eqn:Ho.
      * rewrite (asyncProxy_returns _ _ _ _ _ _ _ _ _ Ho).
        eexists. split; [reflexivity|].
        intros ws s w2 Hs Hne. simpl in Hs.
        by eapply resumed_sink_error.
      * destruct (asyncProxy_throws sdk name tap o this args w e w1 Ho)
          as (s & w2 & Hs & ->).
        eexists. split; [reflexivity|].
        intros ws s' w2' _ _. unfold outcome; simpl.
        revert Hs. unfold settle, onError, bind, throw.
        destruct (reportFailure_throws sdk name tap (now w) t Hsink e w1) as [w' ->].
        by intros [= <- _].
    + intros Hty (c & Hc & Hfalse) p Hp.
      rewrite (instrumented_promise _ _ _ _ Hty), Hfn.
      destruct (o this args w) as [c0 w1] eqn:Ho.
      unfold outcome in Hp; simpl in Hp; subst c0.
      rewrite (promiseProxy_promise _ _ _ _ _ _ _ _ _ _ Hc Ho).
      eexists. split; [reflexivity|].
      intros ws s w2 Hs Hne. by eapply chained_sink_error.
Qed.

Lemma outcome_unchanged_unless_submit_throws_witness :
  outcome (instrumented sessionSdk "compile" 0%nat
             (Scenario.heap0 "sync" Scenario.throwsBoom)
             VUndefined [] (Scenario.world0 "sync"))
    = outcome (Scenario.throwsBoom VUndefined [] (Scenario.world0 "sync"))
  ∧ outcome (instrumented (faultySdk (VStr "sink down")) "compile" 0%nat
               (Scenario.heap0 "sync" Scenario.throwsBoom)
               VUndefined [] (Scenario.world0 "sync"))
    = Throw (VStr "sink down").
Proof.
  split.
  - apply (proj1 (outcome_unchanged_unless_submit_throws sessionSdk "compile" 0%nat
                    (Scenario.heap0 "sync" Scenario.throwsBoom) Scenario.throwsBoom
                    VUndefined [] (Scenario.world0 "sync") eq_refl)).
    + intros d w. eexists. reflexivity.
    + reflexivity.
  - apply (proj2 (outcome_unchanged_unless_submit_throws
                    (faultySdk (VStr "sink down")) "compile" 0%nat
                    (Scenario.heap0 "sync" Scenario.throwsBoom) Scenario.throwsBoom
                    VUndefined [] (Scenario.world0 "sync") eq_refl)
                 (VStr "sink down")).
    + intros d w. exists w. reflexivity.
    + reflexivity.
Defined.

(** ** Intercepting the same hook twice *)

Lemma interceptedTwice_unfold sdk name hp tap o :
  interceptedTwice sdk name hp tap o
  = snd (register sdk name tap (snd (register sdk name tap (setFn tap o hp)))).
Proof.
  unfold interceptedTwice, interceptPluginHook, tapableHook, hook_intercept,
    hook_tap, emptyHook, runRegister; simpl.
  destruct (register sdk name tap (setFn tap o hp)) as [t1 hp1] eqn:H1.
  assert (t1 = tap) as ->.
  { revert H1. unfold register. repeat case_bool_decide; by intros [= <- _]. }
  simpl. by destruct (register sdk name tap hp1).
Qed.

Lemma typeIs_register sdk name tap hp tap' ty :
  typeIs hp tap' ty → typeIs (snd (register sdk name tap hp)) tap' ty.
Proof.
  unfold typeIs, register. by repeat case_bool_decide.
Qed.

Lemma callTap_interceptedTwice sdk name hp tap (o : Callback) ty :
  typeIs hp tap ty →
  callTap (interceptedTwice sdk name hp tap o) tap
  = instrumented sdk name tap (snd (register sdk name tap (setFn tap o hp))).
Proof. intros _. by rewrite interceptedTwice_unfold. Qed.

Lemma fnOf_register_sync sdk name tap hp :
  typeIs hp tap "sync" →
  fnOf (snd (register sdk name tap hp)) !! tap
  = Some (syncProxy sdk name tap (fnOf hp !! tap)).
Proof.
  unfold typeIs, register. intros ->.
  rewrite bool_decide_eq_true_2 by done. simpl. by rewrite lookup_insert_eq.
Qed.

Lemma fnOf_register_async sdk name tap hp :
  typeIs hp tap "async" →
  fnOf (snd (register sdk name tap hp)) !! tap
  = Some (asyncProxy sdk name tap (fnOf hp !! tap)).
Proof.
  unfold typeIs, register. intros ->.
  rewrite bool_decide_eq_false_2 by done.
  rewrite bool_decide_eq_true_2 by done. simpl. by rewrite lookup_insert_eq.
Qed.

Lemma fnOf_register_promise sdk name tap hp :
  typeIs hp tap "promise" →
  fnOf (snd (register sdk name tap hp)) !! tap
  = Some (promiseProxy sdk name tap (fnOf hp !! tap)).
Proof.
  unfold typeIs, register. intros ->.
  do 2 rewrite bool_decide_eq_false_2 by done.
  rewrite bool_decide_eq_true_2 by done. simpl. by rewrite lookup_insert_eq.
Qed.

Lemma fnOf_setFn tap (o : Callback) hp : fnOf (setFn tap o hp) !! tap = Some o.
Proof. unfold setFn; simpl. by rewrite lookup_insert_eq. Qed.

Lemma typeIs_setFn tap (o : Callback) hp tap' ty :
  typeIs hp tap' ty → typeIs (setFn tap o hp) tap' ty.
Proof. done. Qed.

(** C3, as stated, fails: after two calls of [interceptPluginHook] for
    the same session and hook, the synchronous tap registered next
    yields two records for one invocation. *)
Lemma intercept_twice_reports_twice :
  ∃ w' r1 r2,
    callTap
      (interceptedTwice sessionSdk "compile"
         {| world := Scenario.world0 "sync"; fnOf := ∅ |} 0%nat Scenario.returns42)
      0%nat VUndefined [] (Scenario.world0 "sync")
    = (Normal (RValue (VNum 42)), w')
    ∧ recordsOf "compile" w' = [r1; r2]
    ∧ length (recordsOf "compile" w') ≠ 1%nat.
Proof.
  set (hp := {| world := Scenario.world0 "sync"; fnOf := ∅ |}).
  assert (typeIs hp 0%nat "sync") as Hty by reflexivity.
  rewrite (callTap_interceptedTwice _ _ _ _ _ _ Hty).
  pose proof (typeIs_setFn 0%nat Scenario.returns42 _ _ _ Hty) as Hty0.
  pose proof (typeIs_register sessionSdk "compile" 0%nat _ _ _ Hty0) as Hty1.
  rewrite (instrumented_sync _ _ _ _ Hty1).
  rewrite (fnOf_register_sync _ _ _ _ Hty0), fnOf_setFn.
  destruct (syncProxy_completes "compile" 0%nat Scenario.returns42 VUndefined []
              (Scenario.world0 "sync") _ _ eq_refl) as (r1 & Hr1).
  destruct (syncProxy_completes "compile" 0%nat _ VUndefined []
              (Scenario.world0 "sync") _ _ Hr1) as (r2 & Hr2).
  eexists _, r1, r2. split; [exact Hr2|].
  rewrite !recordsOf_withRecord.
  assert (recordsOf "compile" (Scenario.later 5 (Scenario.world0 "sync")) = [])
    as -> by reflexivity.
  split; [reflexivity|]. simpl. lia.
Qed.

(** C3, amended.  [interceptPluginHook] is not idempotent: called twice
    for the same session, hook name and hook, it installs two
    observers; the tap registered next is wrapped by a proxy around a
    proxy, the caller still gets what the original callback does, and
    each invocation yields exactly two records: for a synchronous tap
    when the callback completes, for an async or (outside a child
    context) a promise-returning one when the original settles. *)
Theorem intercept_twice_wraps_twice
    (name : string) (tap : loc) (hp : Heap) (o : Callback)
    (this : Value) (args : list Value) (w : World) :
  (typeIs hp tap "sync" →
     fnOf (interceptedTwice sessionSdk name hp tap o) !! tap
       = Some (syncProxy sessionSdk name tap
                 (Some (syncProxy sessionSdk name tap (Some o))))
     ∧ ∀ c w1, o this args w = (c, w1) →
         ∃ r1 r2,
           callTap (interceptedTwice sessionSdk name hp tap o) tap this args w
             = (c, withRecord name r2 (withRecord name r1 w1))
           ∧ recordsOf name (withRecord name r2 (withRecord name r1 w1))
             = (recordsOf name w1 ++ [r1; r2])%list)
  ∧ (typeIs hp tap "async" →
     fnOf (interceptedTwice sessionSdk name hp tap o) !! tap
       = Some (asyncProxy sessionSdk name tap
                 (Some (asyncProxy sessionSdk name tap (Some o))))
     ∧ ∀ r w1, o this args w = (Normal r, w1) →
         ∃ p', callTap (interceptedTwice sessionSdk name hp tap o) tap this args w
                 = (Normal (RPromise p'), w1)
               ∧ ∀ ws s w2, await r ws = (s, w2) → s ≠ Pending →
                   ∃ r1 r2,
                     p' ws = (s, withRecord name r2 (withRecord name r1 w2))
                     ∧ recordsOf name (withRecord name r2 (withRecord name r1 w2))
                       = (recordsOf name w2 ++ [r1; r2])%list)
  ∧ (typeIs hp tap "promise" →
     fnOf (interceptedTwice sessionSdk name hp tap o) !! tap
       = Some (promiseProxy sessionSdk name tap
                 (Some (promiseProxy sessionSdk name tap (Some o))))
     ∧ (notChild args →
        ∀ p w1, o this args w = (Normal (RPromise p), w1) →
         ∃ p', callTap (interceptedTwice sessionSdk name hp tap o) tap this args w
                 = (Normal (RPromise p'), w1)
               ∧ ∀ ws s w2, p ws = (s, w2) → s ≠ Pending →
                   ∃ r1 r2,
                     p' ws = (s, withRecord name r2 (withRecord name r1 w2))
                     ∧ recordsOf name (withRecord name r2 (withRecord name r1 w2))
                       = (recordsOf name w2 ++ [r1; r2])%list)).
Proof.
  assert (∀ r1 r2 w', recordsOf name (withRecord name r2 (withRecord name r1 w'))
                      = (recordsOf name w' ++ [r1; r2])%list) as Hrecs.
  { intros. rewrite !recordsOf_withRecord. by rewrite <- app_assoc. }
  split; [|split]; intros Hty;
    pose proof (typeIs_setFn tap o _ _ _ Hty) as Hty0;
    pose proof (typeIs_register sessionSdk name tap _ _ _ Hty0) as Hty1;
    unfold callTap; rewrite interceptedTwice_unfold.
  - rewrite (fnOf_register_sync _ _ _ _ Hty1), (fnOf_register_sync _ _ _ _ Hty0),
      fnOf_setFn.
    split; [reflexivity|]. intros c w1 Ho. simpl.
    destruct (syncProxy_completes name tap o this args w c w1 Ho) as (r1 & Hr1).
    destruct (syncProxy_completes name tap _ this args w c _ Hr1) as (r2 & Hr2).
    by exists r1, r2.
  - rewrite (fnOf_register_async _ _ _ _ Hty1), (fnOf_register_async _ _ _ _ Hty0),
      fnOf_setFn.
    split; [reflexivity|]. intros r w1 Ho. simpl.
    pose proof (asyncProxy_returns sessionSdk name tap o this args w r w1 Ho) as H1.
    rewrite (asyncProxy_returns sessionSdk name tap _ this args w _ w1 H1).
    eexists. split; [reflexivity|].
    intros ws s w2 Hs Hne.
    destruct (resumed_settled name tap (now w) r ws s w2 Hs Hne) as (r1 & Hr1 & _).
    destruct (resumed_settled name tap (now w) (RPromise _) ws s _ Hr1 Hne)
      as (r2 & Hr2 & _).
    by exists r1, r2.
  - rewrite (fnOf_register_promise _ _ _ _ Hty1), (fnOf_register_promise _ _ _ _ Hty0),
      fnOf_setFn.
    split; [reflexivity|]. intros (c & Hc & Hfalse) p w1 Ho. simpl.
    pose proof (promiseProxy_promise sessionSdk name tap o this args w c p w1 Hc Ho)
      as H1.
    rewrite (promiseProxy_promise sessionSdk name tap _ this args w c _ w1 Hc H1).
    eexists. split; [reflexivity|].
    intros ws s w2 Hs Hne.
    destruct (chained_settled name tap (now w) c p ws s w2 Hfalse Hs Hne)
      as (r1 & Hr1 & _).
    destruct (chained_settled name tap (now w) c _ ws s _ Hfalse Hr1 Hne)
      as (r2 & Hr2 & _).
    by exists r1, r2.
Qed.

Lemma intercept_twice_wraps_twice_witness :
  fnOf (interceptedTwice sessionSdk "compile"
          {| world := Scenario.world0 "sync"; fnOf := ∅ |} 0%nat Scenario.returns42)
    !! 0%nat
  = Some (syncProxy sessionSdk "compile" 0%nat
            (Some (syncProxy sessionSdk "compile" 0%nat (Some Scenario.returns42))))
  ∧ ∀ c w1, Scenario.returns42 VUndefined [] (Scenario.world0 "sync") = (c, w1) →
      ∃ r1 r2,
        callTap (interceptedTwice sessionSdk "compile"
                   {| world := Scenario.world0 "sync"; fnOf := ∅ |} 0%nat
                   Scenario.returns42)
          0%nat VUndefined [] (Scenario.world0 "sync")
        = (c, withRecord "compile" r2 (withRecord "compile" r1 w1))
        ∧ recordsOf "compile" (withRecord "compile" r2 (withRecord "compile" r1 w1))
          = (recordsOf "compile" w1 ++ [r1; r2])%list.
Proof.
  apply (proj1 (intercept_twice_wraps_twice "compile" 0%nat
                  {| world := Scenario.world0 "sync"; fnOf := ∅ |}
                  Scenario.returns42 VUndefined [] (Scenario.world0 "sync"))).
  reflexivity.
Defined.

(** ** The registration observer *)

(** C7.  A tap whose convention tag is none of ['sync'], ['async'],
    ['promise'] (or that has no tag): the observer hands back the tap it
    was given and leaves the store as it is, the [fn] slot included;
    it does not throw. *)
Theorem register_unrecognised_type_untouched
    (sdk : RsdoctorSDK) (name : string) (tap : loc) (hp : Heap) :
  tap_type <$> taps (world hp) !! tap ≠ Some "sync" →
  tap_type <$> taps (world hp) !! tap ≠ Some "async" →
  tap_type <$> taps (world hp) !! tap ≠ Some "promise" →
  register sdk name tap hp = (tap, hp)
  ∧ callTap (snd (register sdk name tap hp)) tap = callTap hp tap.
Proof.
  intros Hs Ha Hp. unfold register.
  by rewrite !bool_decide_eq_false_2.
Qed.

Lemma register_unrecognised_type_untouched_witness :
  register sessionSdk "compile" 0%nat (Scenario.heap0 "callback" Scenario.returns42)
    = (0%nat, Scenario.heap0 "callback" Scenario.returns42)
  ∧ callTap (snd (register sessionSdk "compile" 0%nat
                    (Scenario.heap0 "callback" Scenario.returns42))) 0%nat
    = callTap (Scenario.heap0 "callback" Scenario.returns42) 0%nat.
Proof.
  apply (register_unrecognised_type_untouched sessionSdk "compile" 0%nat
           (Scenario.heap0 "callback" Scenario.returns42));
    vm_compute; discriminate.
Defined.

(** C9.  A tap with one of the three known tags: the observer hands
    back the very tap it was given; the world, which holds the name,
    the tag and the other fields of every tap object, is the same; the
    [fn] slot of the tap holds the proxy built around the callback
    that was there, and every other [fn] slot is as before. *)
Theorem register_replaces_only_fn
    (sdk : RsdoctorSDK) (name : string) (tap : loc) (hp : Heap) (ty : string) :
  typeIs hp tap ty →
  ty = "sync" ∨ ty = "async" ∨ ty = "promise" →
  ∃ proxy,
    register sdk name tap hp = (tap, setFn tap proxy hp)
    ∧ (proxy = syncProxy sdk name tap (fnOf hp !! tap)
       ∨ proxy = asyncProxy sdk name tap (fnOf hp !! tap)
       ∨ proxy = promiseProxy sdk name tap (fnOf hp !! tap))
    ∧ world (snd (register sdk name tap hp)) = world hp
    ∧ taps (world (snd (register sdk name tap hp))) !! tap = taps (world hp) !! tap
    ∧ fnOf (snd (register sdk name tap hp)) !! tap = Some proxy
    ∧ ∀ other, other ≠ tap →
        fnOf (snd (register sdk name tap hp)) !! other = fnOf hp !! other.
Proof.
  unfold typeIs. intros Hty Hrec. unfold register. rewrite Hty.
  destruct Hrec as [-> | [-> | ->]].
  - rewrite bool_decide_eq_true_2 by done.
    eexists. split; [reflexivity|]. split; [by left|]. simpl.
    rewrite lookup_insert_eq. repeat split; try done.
    intros other Hne. by rewrite lookup_insert_ne.
  - rewrite bool_decide_eq_false_2 by done.
    rewrite bool_decide_eq_true_2 by done.
    eexists. split; [reflexivity|]. split; [by right; left|]. simpl.
    rewrite lookup_insert_eq. repeat split; try done.
    intros other Hne. by rewrite lookup_insert_ne.
  - do 2 rewrite bool_decide_eq_false_2 by done.
    rewrite bool_decide_eq_true_2 by done.
    eexists. split; [reflexivity|]. split; [by right; right|]. simpl.
    rewrite lookup_insert_eq. repeat split; try done.
    intros other Hne. by rewrite lookup_insert_ne.
Qed.

Lemma register_replaces_only_fn_witness :
  ∃ proxy,
    register sessionSdk "compile" 0%nat (Scenario.heap0 "async" Scenario.returns42)
      = (0%nat, setFn 0%nat proxy (Scenario.heap0 "async" Scenario.returns42))
    ∧ (proxy = syncProxy sessionSdk "compile" 0%nat
                 (fnOf (Scenario.heap0 "async" Scenario.returns42) !! 0%nat)
       ∨ proxy = asyncProxy sessionSdk "compile" 0%nat
                   (fnOf (Scenario.heap0 "async" Scenario.returns42) !! 0%nat)
       ∨ proxy = promiseProxy sessionSdk "compile" 0%nat
                   (fnOf (Scenario.heap0 "async" Scenario.returns42) !! 0%nat))
    ∧ world (snd (register sessionSdk "compile" 0%nat
                    (Scenario.heap0 "async" Scenario.returns42)))
      = world (Scenario.heap0 "async" Scenario.returns42)
    ∧ taps (world (snd (register sessionSdk "compile" 0%nat
                          (Scenario.heap0 "async" Scenario.returns42)))) !! 0%nat
      = taps (world (Scenario.heap0 "async" Scenario.returns42)) !! 0%nat
    ∧ fnOf (snd (register sessionSdk "compile" 0%nat
                   (Scenario.heap0 "async" Scenario.returns42))) !! 0%nat
      = Some proxy
    ∧ ∀ other, other ≠ 0%nat →
        fnOf (snd (register sessionSdk "compile" 0%nat
                     (Scenario.heap0 "async" Scenario.returns42))) !! other
        = fnOf (Scenario.heap0 "async" Scenario.returns42) !! other.
Proof.
  apply (register_replaces_only_fn sessionSdk "compile" 0%nat
           (Scenario.heap0 "async" Scenario.returns42) "async").
  - reflexivity.
  - right; left; reflexivity.
Defined.

(** ** Hooks without an interception point *)

(** C8.  A hook that is [undefined] or [null], or that has no
    [intercept] member: [interceptPluginHook] returns normally and the
    store and the hook's state are what they were, so no observer has
    been installed. *)
Theorem interceptPluginHook_without_intercept_is_noop
    (sdk : RsdoctorSDK) (name : string) (hook : IHook) (st : Heap * HookState) :
  hook = None ∨ (∃ hk, hook = Some hk ∧ intercept hk = None) →
  interceptPluginHook sdk name hook st = (Normal tt, st).
Proof.
  intros [-> | [hk [-> Hnone]]]; unfold interceptPluginHook; [done|].
  by rewrite Hnone.
Qed.

Lemma interceptPluginHook_without_intercept_is_noop_witness :
  interceptPluginHook sessionSdk "compile" (Some {| intercept := None |})
    (Scenario.heap0 "sync" Scenario.returns42, emptyHook)
  = (Normal tt, (Scenario.heap0 "sync" Scenario.returns42, emptyHook)).
Proof.
  apply (interceptPluginHook_without_intercept_is_noop sessionSdk "compile"
           (Some {| intercept := None |})
           (Scenario.heap0 "sync" Scenario.returns42, emptyHook)).
  right. exists {| intercept := None |}. split; reflexivity.
Defined.

(** ** Feature flags *)

Module ConfigProps.
Import Config.

Lemma isStr_true (s : string) (v : Value) : isStr s v = true ↔ v = VStr s.
Proof.
  destruct v; simpl; try (split; [discriminate|congruence]).
  rewrite String.eqb_eq. split; [by intros ->|by intros [= ->]].
Qed.

Lemma includes_In (items : list Value) (s : string) :
  includes items s = true ↔ In (VStr s) items.
Proof.
  unfold includes. rewrite existsb_exists. split.
  - intros (v & Hin & Hv). apply isStr_true in Hv. by subst.
  - intros Hin. exists (VStr s). split; [done|]. by apply isStr_true.
Qed.

Lemma defaultBoolean_defaultsTo (v : Value) (dft : bool) :
  defaultsTo dft v (defaultBoolean v dft).
Proof. split; by intros; subst. Qed.

Lemma asserts_pass (v : Value) :
  objectOrAbsent v →
  assert (truthy (orDefault v (VObject [])) && typeofObject (orDefault v (VObject [])))
  = Normal tt.
Proof. by intros [-> | [[props ->] | [items ->]]]. Qed.

(** C10.  [normalizeUserConfig] on a configuration whose other options
    pass its checks.  Features given as an array: each of [loader],
    [plugins], [resolver], [bundle], [treeShaking] is on exactly when
    its name is in the array.  Features given as an object (or left
    out): [loader], [plugins], [bundle] are [true] and [resolver],
    [treeShaking] are [false] when not specified, and the boolean given
    otherwise.  In both forms [lite] is on when the mode is ['lite']. *)
Theorem normalizeUserConfig_features (config : UserConfig) :
  objectOrAbsent (linter config) →
  objectOrAbsent (loaderInterceptorOptions config) →
  booleanOrAbsent (disableClientServer config) →
  output config ≠ VNull →
  (∀ items, features config = VArray items →
     ∃ f, normalizeUserConfig config = Normal f
          ∧ (loader f = true ↔ In (VStr "loader") items)
          ∧ (plugins f = true ↔ In (VStr "plugins") items)
          ∧ (resolver f = true ↔ In (VStr "resolver") items)
          ∧ (bundle f = true ↔ In (VStr "bundle") items)
          ∧ (treeShaking f = true ↔ In (VStr "treeShaking") items)
          ∧ (lite f = true ↔ In (VStr "lite") items ∨ mode config = VStr "lite"))
  ∧ (∀ props,
       features config = VObject props
       ∨ (features config = VUndefined ∧ props = []) →
     ∃ f, normalizeUserConfig config = Normal f
          ∧ defaultsTo true (lookupProp "loader" props) (loader f)
          ∧ defaultsTo true (lookupProp "plugins" props) (plugins f)
          ∧ defaultsTo false (lookupProp "resolver" props) (resolver f)
          ∧ defaultsTo true (lookupProp "bundle" props) (bundle f)
          ∧ defaultsTo false (lookupProp "treeShaking" props) (treeShaking f)
          ∧ (mode config = VStr "lite" → lite f = true)
          ∧ (lite f = true ↔
               lookupProp "lite" props = VBool true ∨ mode config = VStr "lite")).
Proof.
  intros Hlinter Hloader Hdcs Hout.
  assert (nullish (orDefault (output config) (VObject [])) = false) as Hnn
    by (by destruct (output config)).
  assert (assert (isBoolean (orDefault (disableClientServer config) (VBool false)))
          = Normal tt) as Hb
    by (by destruct Hdcs as [-> | [b ->]]).
  assert (isStr IMode_lite (orDefault (mode config) (VStr "normal")) = true
          ↔ mode config = VStr "lite") as Hmode.
  { rewrite isStr_true. unfold IMode_lite.
    destruct (mode config); simpl; split; intros H; done. }
  split.
  - intros items Hf. unfold normalizeUserConfig.
    rewrite (asserts_pass _ Hlinter), (asserts_pass _ Hloader), Hb, Hnn, Hf. simpl.
    eexists. split; [reflexivity|]. simpl.
    rewrite orb_true_iff, Hmode, !includes_In. by repeat split.
  - intros props Hf. unfold normalizeUserConfig.
    rewrite (asserts_pass _ Hlinter), (asserts_pass _ Hloader), Hb, Hnn.
    assert (orDefault (features config) (VObject []) = VObject props) as ->
      by (by destruct Hf as [-> | [-> ->]]).
    simpl. eexists. split; [reflexivity|]. simpl.
    repeat (split; [apply defaultBoolean_defaultsTo|]).
    rewrite orb_true_iff, Hmode. split; [by right|].
    split; (intros [H|H]; [left|by right]).
    + by destruct (lookupProp "lite" props) as [| |[]| | | | |].
    + by rewrite H.
Qed.

Lemma normalizeUserConfig_features_witness :
  ∃ f, normalizeUserConfig
         {| linter := VUndefined;
            features := VArray [VStr "loader"; VStr "treeShaking"];
            loaderInterceptorOptions := VUndefined;
            disableClientServer := VBool true;
            output := VUndefined;
            mode := VStr "lite" |} = Normal f
       ∧ (loader f = true ↔ In (VStr "loader") [VStr "loader"; VStr "treeShaking"])
       ∧ (plugins f = true ↔ In (VStr "plugins") [VStr "loader"; VStr "treeShaking"])
       ∧ (resolver f = true ↔ In (VStr "resolver") [VStr "loader"; VStr "treeShaking"])
       ∧ (bundle f = true ↔ In (VStr "bundle") [VStr "loader"; VStr "treeShaking"])
       ∧ (treeShaking f = true
          ↔ In (VStr "treeShaking") [VStr "loader"; VStr "treeShaking"])
       ∧ (lite f = true
          ↔ In (VStr "lite") [VStr "loader"; VStr "treeShaking"]
            ∨ VStr "lite" = VStr "lite").
Proof.
  apply (proj1 (normalizeUserConfig_features
                  {| linter := VUndefined;
                     features := VArray [VStr "loader"; VStr "treeShaking"];
                     loaderInterceptorOptions := VUndefined;
                     disableClientServer := VBool true;
                     output := VUndefined;
                     mode := VStr "lite" |}
                  (or_introl eq_refl) (or_introl eq_refl)
                  (or_intror (ex_intro _ true eq_refl))
                  ltac:(discriminate))
               [VStr "loader"; VStr "treeShaking"]).
  reflexivity.
Defined.

End ConfigProps.

(** * More of the interceptor *)

(** ** The async proxy *)

(** X1.  The callback installed for an async tap never throws: whatever
    the original callback and the sink do, even when there is no
    callback in the slot, the call returns a promise. *)
Theorem async_proxy_always_returns_a_promise
    (sdk : RsdoctorSDK) (name : string) (tap : loc) (hp : Heap)
    (this : Value) (args : list Value) (w : World) :
  typeIs hp tap "async" →
  ∃ p w', instrumented sdk name tap hp this args w = (Normal (RPromise p), w').
Proof.
  intros Hty. rewrite (instrumented_async _ _ _ _ Hty).
  unfold asyncProxy.
  destruct (apply (fnOf hp !! tap) this args w) as [[r|e] w1].
  - by eexists _, _.
  - destruct (settle (onError sdk name tap (now w) e) w1) as [s w2].
    by eexists _, _.
Qed.

Lemma async_proxy_always_returns_a_promise_witness :
  ∃ p w', instrumented (faultySdk Cases.sinkDown) "compile" 0%nat
            (Scenario.heap0 "async" Scenario.throwsBoom) VUndefined []
            (Scenario.world0 "async")
          = (Normal (RPromise p), w').
Proof.
  apply (async_proxy_always_returns_a_promise (faultySdk Cases.sinkDown) "compile"
           0%nat (Scenario.heap0 "async" Scenario.throwsBoom) VUndefined []
           (Scenario.world0 "async")).
  reflexivity.
Defined.

(** X2.  An async tap whose awaited result is the value [v]: the promise
    of the instrumented callback fulfils with [v], nothing is submitted
    by the call itself, and the one record submitted when the result is
    there has no error, starts at the clock reading of the call and
    ends at the reading of the time the result is there; its cost is
    their difference, which is not negative unless the clock was set
    back. *)
Theorem async_success_record_spans_the_await
    (name : string) (tap : loc) (hp : Heap) (o : Callback)
    (this : Value) (args : list Value) (w w1 : World) (r : Returned)
    (ws w2 : World) (v : Value) :
  typeIs hp tap "async" →
  fnOf hp !! tap = Some o →
  o this args w = (Normal r, w1) →
  await r ws = (Fulfilled v, w2) →
  ∃ rec, result rec = VNull
       ∧ error rec = []
       ∧ startAt rec = now w
       ∧ endAt rec = now w2
       ∧ costs rec = endAt rec - startAt rec
       ∧ ((now w ≤ now w2)%Z → (0 ≤ costs rec)%Z)
       ∧ ∀ sdk, ∃ p',
           instrumented sdk name tap hp this args w = (Normal (RPromise p'), w1)
           ∧ ∀ w3, reportPlugin sdk {[ name := [rec] ]} w2 = (Normal tt, w3) →
               p' ws = (Fulfilled v, w3).
Proof.
  intros Hty Hfn Ho Hv.
  destruct (reportSuccess_one_call name tap (now w) (RValue v) w2)
    as (rec & (Hres & Herr) & (_ & _ & Hs & He & Hc) & Hcall).
  exists rec. split; [done|]. split; [done|]. split; [done|]. split; [done|].
  split; [by rewrite Hc, Hs, He|]. split; [rewrite Hc; lia|].
  intros sdk. rewrite (instrumented_async _ _ _ _ Hty), Hfn.
  rewrite (asyncProxy_returns _ _ _ _ _ _ _ _ _ Ho).
  eexists. split; [reflexivity|]. intros w3 Hsub.
  unfold resumed. rewrite Hv. monad_unfold. by rewrite Hcall, Hsub.
Qed.

Lemma async_success_record_spans_the_await_witness :
  ∃ rec, result rec = VNull
       ∧ error rec = []
       ∧ startAt rec = 100
       ∧ endAt rec = 105
       ∧ costs rec = endAt rec - startAt rec
       ∧ ((100 ≤ 105)%Z → (0 ≤ costs rec)%Z)
       ∧ ∀ sdk, ∃ p',
           instrumented sdk "compile" 0%nat
             (Scenario.heap0 "async" (Scenario.resolves (VNum 42))) VUndefined []
             (Scenario.world0 "async")
           = (Normal (RPromise p'), Scenario.world0 "async")
           ∧ ∀ w3, reportPlugin sdk {[ "compile" := [rec] ]}
                     (Scenario.later 5 (Scenario.world0 "async")) = (Normal tt, w3) →
               p' (Scenario.world0 "async") = (Fulfilled (VNum 42), w3).
Proof.
  apply (async_success_record_spans_the_await "compile" 0%nat
           (Scenario.heap0 "async" (Scenario.resolves (VNum 42)))
           (Scenario.resolves (VNum 42)) VUndefined []
           (Scenario.world0 "async") (Scenario.world0 "async")
           (RPromise (λ w', (Fulfilled (VNum 42), Scenario.later 5 w')))
           (Scenario.world0 "async") (Scenario.later 5 (Scenario.world0 "async"))
           (VNum 42)); reflexivity.
Defined.

(** X3.  An async tap whose callback throws the truthy [e] before it
    returns anything: the failure is reported within the call, and the
    promise handed back is rejected with [e] already. *)
Theorem async_synchronous_throw_reported_at_once
    (name : string) (tap : loc) (hp : Heap) (o : Callback)
    (this : Value) (args : list Value) (w w1 : World) (e : Value) :
  typeIs hp tap "async" →
  fnOf hp !! tap = Some o →
  o this args w = (Throw e, w1) →
  truthy e = true →
  ∃ rec d, error rec = [d]
         ∧ title d = nameAt w1 tap +:+ " " +:+ name +:+ " Error"
         ∧ message d = getProp e "message"
         ∧ stack d = getProp e "stack"
         ∧ ∀ sdk w2, reportPlugin sdk {[ name := [rec] ]} w1 = (Normal tt, w2) →
             ∃ p', instrumented sdk name tap hp this args w
                     = (Normal (RPromise p'), w2)
                   ∧ ∀ ws, p' ws = (Rejected e, ws).
Proof.
  intros Hty Hfn Ho He.
  destruct (reportFailure_one_call name tap (now w) e w1)
    as (rec & _ & Hfail & _ & Hcall).
  destruct (Hfail He) as (_ & d & Herr & Htitle & Hmsg & Hstack & _).
  exists rec, d. split; [done|]. split; [done|]. split; [done|]. split; [done|].
  intros sdk w2 Hsub. rewrite (instrumented_async _ _ _ _ Hty), Hfn.
  unfold asyncProxy, apply. rewrite Ho. monad_unfold. rewrite Hcall, Hsub.
  eexists. split; reflexivity.
Qed.

Lemma async_synchronous_throw_reported_at_once_witness :
  ∃ rec d, error rec = [d]
         ∧ title d = nameAt (Scenario.later 5 (Scenario.world0 "async")) 0%nat
                     +:+ " " +:+ "compile" +:+ " Error"
         ∧ message d = getProp Scenario.boom "message"
         ∧ stack d = getProp Scenario.boom "stack"
         ∧ ∀ sdk w2, reportPlugin sdk {[ "compile" := [rec] ]}
                       (Scenario.later 5 (Scenario.world0 "async")) = (Normal tt, w2) →
             ∃ p', instrumented sdk "compile" 0%nat
                     (Scenario.heap0 "async" Scenario.throwsBoom) VUndefined []
                     (Scenario.world0 "async")
                   = (Normal (RPromise p'), w2)
                   ∧ ∀ ws, p' ws = (Rejected Scenario.boom, ws).
Proof.
  apply (async_synchronous_throw_reported_at_once "compile" 0%nat
           (Scenario.heap0 "async" Scenario.throwsBoom) Scenario.throwsBoom
           VUndefined [] (Scenario.world0 "async")
           (Scenario.later 5 (Scenario.world0 "async")) Scenario.boom);
    reflexivity.
Defined.

(** ** What is not reported *)

(** X4.  A promise that never settles is never reported: for a
    promise-returning tap and for an async one, as long as the
    original's promise is pending so is the instrumented callback's,
    and the sink is not called. *)
Theorem pending_promise_is_never_reported
    (sdk : RsdoctorSDK) (name : string) (tap : loc) (hp : Heap) (o : Callback)
    (this : Value) (args : list Value) (w w1 : World) (p : Promise) :
  fnOf hp !! tap = Some o →
  o this args w = (Normal (RPromise p), w1) →
  (typeIs hp tap "promise" → ∀ c, isChildOf args = Normal c →
     ∃ p', instrumented sdk name tap hp this args w = (Normal (RPromise p'), w1)
           ∧ ∀ ws w2, p ws = (Pending, w2) → p' ws = (Pending, w2))
  ∧ (typeIs hp tap "async" →
     ∃ p', instrumented sdk name tap hp this args w = (Normal (RPromise p'), w1)
           ∧ ∀ ws w2, p ws = (Pending, w2) → p' ws = (Pending, w2)).
Proof.
  intros Hfn Ho. split.
  - intros Hty c Hc. rewrite (instrumented_promise _ _ _ _ Hty), Hfn.
    rewrite (promiseProxy_promise _ _ _ _ _ _ _ _ _ _ Hc Ho).
    eexists. split; [reflexivity|]. intros ws w2 Hp.
    by apply chained_pending.
  - intros Hty. rewrite (instrumented_async _ _ _ _ Hty), Hfn.
    rewrite (asyncProxy_returns _ _ _ _ _ _ _ _ _ Ho).
    eexists. split; [reflexivity|]. intros ws w2 Hp.
    by apply (resumed_pending name tap (now w) (RPromise p) sdk ws w2).
Qed.

Lemma pending_promise_is_never_reported_witness :
  ∃ p', instrumented sessionSdk "compile" 0%nat
          (Scenario.heap0 "promise" Cases.hangs) VUndefined Scenario.topArgs
          (Scenario.world0 "promise")
        = (Normal (RPromise p'), Scenario.world0 "promise")
      ∧ ∀ ws w2, (λ w', (Pending, w')) ws = (Pending, w2) → p' ws = (Pending, w2).
Proof.
  apply (proj1 (pending_promise_is_never_reported sessionSdk "compile" 0%nat
                  (Scenario.heap0 "promise" Cases.hangs) Cases.hangs
                  VUndefined Scenario.topArgs (Scenario.world0 "promise")
                  (Scenario.world0 "promise") (λ w', (Pending, w'))
                  eq_refl eq_refl) eq_refl (VBool false) eq_refl).
Defined.

(** X5.  A promise-returning tap whose callback throws before it
    returns a promise: the error goes to the caller and, unlike for
    the two other conventions, nothing is submitted; the sink is not
    called at all. *)
Theorem promise_synchronous_throw_is_not_reported
    (sdk : RsdoctorSDK) (name : string) (tap : loc) (hp : Heap) (o : Callback)
    (this : Value) (args : list Value) (w w1 : World) (c e : Value) :
  typeIs hp tap "promise" →
  fnOf hp !! tap = Some o →
  isChildOf args = Normal c →
  o this args w = (Throw e, w1) →
  instrumented sdk name tap hp this args w = (Throw e, w1).
Proof.
  intros Hty Hfn Hc Ho. rewrite (instrumented_promise _ _ _ _ Hty), Hfn.
  by apply (promiseProxy_throws _ _ _ _ _ _ _ c).
Qed.

Lemma promise_synchronous_throw_is_not_reported_witness :
  instrumented (faultySdk Cases.sinkDown) "compile" 0%nat
    (Scenario.heap0 "promise" Scenario.throwsBoom) VUndefined Scenario.topArgs
    (Scenario.world0 "promise")
  = (Throw Scenario.boom, Scenario.later 5 (Scenario.world0 "promise")).
Proof.
  apply (promise_synchronous_throw_is_not_reported (faultySdk Cases.sinkDown)
           "compile" 0%nat (Scenario.heap0 "promise" Scenario.throwsBoom)
           Scenario.throwsBoom VUndefined Scenario.topArgs
           (Scenario.world0 "promise") (Scenario.later 5 (Scenario.world0 "promise"))
           (VBool false) Scenario.boom); reflexivity.
Defined.

(** X6.  A promise-returning tap called with a first argument whose
    [compiler] is there but has no callable [isChild]: the instrumented
    callback throws a [TypeError] of its own, the original callback is
    not called (whatever is in the slot, the world is left as it was)
    and nothing is submitted. *)
Theorem promise_uncallable_isChild_breaks_the_call
    (sdk : RsdoctorSDK) (name : string) (tap : loc) (hp : Heap)
    (this : Value) (a0 : Value) (rest : list Value) (w : World) :
  typeIs hp tap "promise" →
  nullish a0 = false →
  nullish (getProp a0 "compiler") = false →
  (∀ r, getProp (getProp a0 "compiler") "isChild" ≠ VFunction r) →
  instrumented sdk name tap hp this (a0 :: rest) w = (Throw TypeError, w).
Proof.
  intros Hty Ha Hc Hno. rewrite (instrumented_promise _ _ _ _ Hty).
  unfold promiseProxy, isChildOf, index, callMethod; simpl.
  rewrite Ha, Hc. monad_unfold.
  destruct (getProp (getProp a0 "compiler") "isChild") as [| | | | | | |r] eqn:Hm;
    try reflexivity.
  by destruct (Hno r).
Qed.

Lemma promise_uncallable_isChild_breaks_the_call_witness :
  instrumented sessionSdk "compile" 0%nat
    (Scenario.heap0 "promise" (Scenario.resolves (VNum 42))) VUndefined
    Cases.oddArgs (Scenario.world0 "promise")
  = (Throw TypeError, Scenario.world0 "promise").
Proof.
  apply (promise_uncallable_isChild_breaks_the_call sessionSdk "compile" 0%nat
           (Scenario.heap0 "promise" (Scenario.resolves (VNum 42))) VUndefined
           (VObject [("compiler", VObject [("name", VStr "child")])]) []
           (Scenario.world0 "promise")); try reflexivity.
  intros r; discriminate.
Defined.

(** X7.  A promise-returning tap whose callback returns a value that has
    no callable [then]: the original has run, and the instrumented
    callback throws a [TypeError] instead of handing the value on;
    nothing is submitted. *)
Theorem promise_tap_returning_no_promise_throws
    (sdk : RsdoctorSDK) (name : string) (tap : loc) (hp : Heap) (o : Callback)
    (this : Value) (args : list Value) (w w1 : World) (c v : Value) :
  typeIs hp tap "promise" →
  fnOf hp !! tap = Some o →
  isChildOf args = Normal c →
  o this args w = (Normal (RValue v), w1) →
  isThenable v = false →
  instrumented sdk name tap hp this args w = (Throw TypeError, w1).
Proof.
  intros Hty Hfn Hc Ho Hv. rewrite (instrumented_promise _ _ _ _ Hty), Hfn.
  unfold promiseProxy. monad_unfold. rewrite Hc, Ho.
  unfold callMethod, isThenable in *.
  destruct (nullish v); [reflexivity|].
  by destruct (getProp v "then").
Qed.

Lemma promise_tap_returning_no_promise_throws_witness :
  instrumented sessionSdk "compile" 0%nat
    (Scenario.heap0 "promise" (Cases.returns VUndefined)) VUndefined []
    (Scenario.world0 "promise")
  = (Throw TypeError, Scenario.later 5 (Scenario.world0 "promise")).
Proof.
  apply (promise_tap_returning_no_promise_throws sessionSdk "compile" 0%nat
           (Scenario.heap0 "promise" (Cases.returns VUndefined))
           (Cases.returns VUndefined) VUndefined []
           (Scenario.world0 "promise") (Scenario.later 5 (Scenario.world0 "promise"))
           VUndefined VUndefined); reflexivity.
Defined.

(** X8.  In a child context a fulfilment is handed on and nothing is
    submitted, whatever the sink: the world is the one the original's
    promise left. *)
Theorem promise_child_fulfilment_submits_nothing
    (sdk : RsdoctorSDK) (name : string) (tap : loc) (hp : Heap) (o : Callback)
    (this : Value) (args : list Value) (w w1 : World) (p : Promise)
    (ws w2 : World) (v : Value) :
  typeIs hp tap "promise" →
  fnOf hp !! tap = Some o →
  isChild args →
  o this args w = (Normal (RPromise p), w1) →
  p ws = (Fulfilled v, w2) →
  ∃ p', instrumented sdk name tap hp this args w = (Normal (RPromise p'), w1)
        ∧ p' ws = (Fulfilled v, w2).
Proof.
  intros Hty Hfn (c & Hc & Htr) Ho Hp.
  rewrite (instrumented_promise _ _ _ _ Hty), Hfn.
  rewrite (promiseProxy_promise _ _ _ _ _ _ _ _ _ _ Hc Ho).
  eexists. split; [reflexivity|]. by apply chained_child_fulfilled.
Qed.

Lemma promise_child_fulfilment_submits_nothing_witness :
  ∃ p', instrumented (faultySdk Cases.sinkDown) "compile" 0%nat
          (Scenario.heap0 "promise" (Scenario.resolves (VNum 42))) VUndefined
          Scenario.childArgs (Scenario.world0 "promise")
        = (Normal (RPromise p'), Scenario.world0 "promise")
      ∧ p' (Scenario.world0 "promise")
        = (Fulfilled (VNum 42), Scenario.later 5 (Scenario.world0 "promise")).
Proof.
  apply (promise_child_fulfilment_submits_nothing (faultySdk Cases.sinkDown)
           "compile" 0%nat (Scenario.heap0 "promise" (Scenario.resolves (VNum 42)))
           (Scenario.resolves (VNum 42)) VUndefined Scenario.childArgs
           (Scenario.world0 "promise") (Scenario.world0 "promise")
           (λ w', (Fulfilled (VNum 42), Scenario.later 5 w'))
           (Scenario.world0 "promise") (Scenario.later 5 (Scenario.world0 "promise"))
           (VNum 42)); try reflexivity.
  exists (VBool true). split; reflexivity.
Defined.

(** ** What is reported wrongly *)

Lemma reportFailure_falsy_one_call (name : string) (tap : loc) (start : Z)
    (e : Value) (w : World) :
  truthy e = false →
  ∃ r, error r = [] ∧ result r = VNull
       ∧ ∀ sdk, reportFailure sdk name tap start e w
                = reportPlugin sdk {[ name := [r] ]} w.
Proof.
  intros He. eexists. split; [|split]; [| |intros sdk; reflexivity].
  - simpl. by rewrite He.
  - reflexivity.
Qed.

(** X9.  A synchronous tap whose callback throws a falsy value
    ([undefined], [null], [0], [""], [false]): the value is thrown
    again, and the one record submitted has an empty error list, as the
    record of a success has. *)
Theorem sync_falsy_throw_recorded_without_error
    (name : string) (tap : loc) (hp : Heap) (o : Callback)
    (this : Value) (args : list Value) (w w1 : World) (e : Value) :
  typeIs hp tap "sync" →
  fnOf hp !! tap = Some o →
  o this args w = (Throw e, w1) →
  truthy e = false →
  ∃ r, error r = []
       ∧ result r = VNull
       ∧ ∀ sdk w2, reportPlugin sdk {[ name := [r] ]} w1 = (Normal tt, w2) →
           instrumented sdk name tap hp this args w = (Throw e, w2).
Proof.
  intros Hty Hfn Ho He.
  destruct (reportFailure_falsy_one_call name tap (now w) e w1 He)
    as (r & Herr & Hres & Hcall).
  exists r. split; [done|]. split; [done|].
  intros sdk w2 Hsub. rewrite (instrumented_sync _ _ _ _ Hty), Hfn.
  cbv [syncProxy onError bind try_catch Date_now apply throw].
  by rewrite Ho, Hcall, Hsub.
Qed.

Lemma sync_falsy_throw_recorded_without_error_witness :
  ∃ r, error r = []
       ∧ result r = VNull
       ∧ ∀ sdk w2, reportPlugin sdk {[ "compile" := [r] ]}
                     (Scenario.later 5 (Scenario.world0 "sync")) = (Normal tt, w2) →
           instrumented sdk "compile" 0%nat
             (Scenario.heap0 "sync" (Cases.throws VUndefined)) VUndefined []
             (Scenario.world0 "sync")
           = (Throw VUndefined, w2).
Proof.
  apply (sync_falsy_throw_recorded_without_error "compile" 0%nat
           (Scenario.heap0 "sync" (Cases.throws VUndefined))
           (Cases.throws VUndefined) VUndefined [] (Scenario.world0 "sync")
           (Scenario.later 5 (Scenario.world0 "sync")) VUndefined); reflexivity.
Defined.

(** X10.  A synchronous tap whose callback returns, with a sink that
    throws the truthy [t] when the success is submitted: the [catch]
    block submits a second record, which names [t] as the error of the
    tap, and the instrumented callback throws [t] where the original
    returned. *)
Theorem sync_sink_error_is_recorded_as_the_taps
    (name : string) (tap : loc) (hp : Heap) (o : Callback)
    (this : Value) (args : list Value) (w w1 : World) (res : Returned) :
  typeIs hp tap "sync" →
  fnOf hp !! tap = Some o →
  o this args w = (Normal res, w1) →
  ∃ r1, error r1 = []
      ∧ ∀ sdk t w1',
          reportPlugin sdk {[ name := [r1] ]} w1 = (Throw t, w1') →
          truthy t = true →
          ∃ r2 d, error r2 = [d]
                ∧ title d = nameAt w1' tap +:+ " " +:+ name +:+ " Error"
                ∧ message d = getProp t "message"
                ∧ ∀ w2, reportPlugin sdk {[ name := [r2] ]} w1' = (Normal tt, w2) →
                    instrumented sdk name tap hp this args w = (Throw t, w2).
Proof.
  intros Hty Hfn Ho.
  destruct (reportSuccess_one_call name tap (now w) res w1)
    as (r1 & (_ & Herr1) & _ & Hcall1).
  exists r1. split; [done|]. intros sdk t w1' Hfail Ht.
  destruct (reportFailure_one_call name tap (now w) t w1')
    as (r2 & _ & Hf & _ & Hcall2).
  destruct (Hf Ht) as (_ & d & Herr2 & Htitle & Hmsg & _).
  exists r2, d. split; [done|]. split; [done|]. split; [done|].
  intros w2 Hsub. rewrite (instrumented_sync _ _ _ _ Hty), Hfn.
  cbv [syncProxy onError bind try_catch Date_now apply throw ret].
  by rewrite Ho, Hcall1, Hfail, Hcall2, Hsub.
Qed.

Lemma sync_sink_error_is_recorded_as_the_taps_witness :
  ∃ r2 d w2,
    error r2 = [d]
    ∧ title d = "my-plugin compile Error"
    ∧ message d = VStr "sink down"
    ∧ instrumented (Cases.flakySdk Cases.sinkDown) "compile" 0%nat
        (Scenario.heap0 "sync" Scenario.returns42) VUndefined []
        (Scenario.world0 "sync")
      = (Throw Cases.sinkDown, w2)
    ∧ recordsOf "compile" w2 = [r2].
Proof.
  destruct (sync_sink_error_is_recorded_as_the_taps "compile" 0%nat
              (Scenario.heap0 "sync" Scenario.returns42) Scenario.returns42
              VUndefined [] (Scenario.world0 "sync")
              (Scenario.later 5 (Scenario.world0 "sync")) (RValue (VNum 42))
              eq_refl eq_refl eq_refl) as (r1 & _ & H).
  destruct (H (Cases.flakySdk Cases.sinkDown) Cases.sinkDown _ eq_refl eq_refl)
    as (r2 & d & Herr & Htitle & Hmsg & Hrun).
  exists r2, d. eexists.
  split; [exact Herr|]. split; [exact Htitle|]. split; [exact Hmsg|].
  split; [apply Hrun; reflexivity|].
  unfold recordsOf, mergePluginData; simpl.
  rewrite lookup_union_with, lookup_insert_ne by done.
  by rewrite lookup_empty, lookup_singleton_eq.
Defined.

(** ** One interception of a hook *)

Lemma interceptedOnce_unfold sdk name hp tap o :
  interceptedOnce sdk name hp tap o = snd (register sdk name tap (setFn tap o hp)).
Proof.
  unfold interceptedOnce, interceptPluginHook, tapableHook, hook_intercept,
    hook_tap, emptyHook, runRegister; simpl.
  by destruct (register sdk name tap (setFn tap o hp)).
Qed.

(** X11.  [interceptPluginHook] called once on a hook of the host, a
    tap registered next: a synchronous tap is wrapped once and each
    invocation yields exactly one record; an async tap and, outside a
    child context, a promise-returning one yield exactly one record
    when the original settles; a tap of any other convention is called
    as it was registered. *)
Theorem intercept_once_wraps_once
    (name : string) (tap : loc) (hp : Heap) (o : Callback)
    (this : Value) (args : list Value) (w : World) :
  (typeIs hp tap "sync" →
     fnOf (interceptedOnce sessionSdk name hp tap o) !! tap
       = Some (syncProxy sessionSdk name tap (Some o))
     ∧ ∀ c w1, o this args w = (c, w1) →
         ∃ r, callTap (interceptedOnce sessionSdk name hp tap o) tap this args w
              = (c, withRecord name r w1))
  ∧ (typeIs hp tap "async" →
     ∀ r w1, o this args w = (Normal r, w1) →
       ∃ p', callTap (interceptedOnce sessionSdk name hp tap o) tap this args w
               = (Normal (RPromise p'), w1)
             ∧ ∀ ws s w2, await r ws = (s, w2) → s ≠ Pending →
                 ∃ rec, p' ws = (s, withRecord name rec w2))
  ∧ (typeIs hp tap "promise" → notChild args →
     ∀ p w1, o this args w = (Normal (RPromise p), w1) →
       ∃ p', callTap (interceptedOnce sessionSdk name hp tap o) tap this args w
               = (Normal (RPromise p'), w1)
             ∧ ∀ ws s w2, p ws = (s, w2) → s ≠ Pending →
                 ∃ rec, p' ws = (s, withRecord name rec w2))
  ∧ (tap_type <$> taps (world hp) !! tap ≠ Some "sync" →
     tap_type <$> taps (world hp) !! tap ≠ Some "async" →
     tap_type <$> taps (world hp) !! tap ≠ Some "promise" →
     callTap (interceptedOnce sessionSdk name hp tap o) tap this args w
       = o this args w).
Proof.
  split; [|split; [|split]].
  - intros Hty. pose proof (typeIs_setFn tap o _ _ _ Hty) as Hty0.
    unfold callTap. rewrite interceptedOnce_unfold.
    rewrite (fnOf_register_sync _ _ _ _ Hty0), fnOf_setFn.
    split; [reflexivity|]. intros c w1 Ho. simpl.
    by apply syncProxy_completes.
  - intros Hty r w1 Ho. pose proof (typeIs_setFn tap o _ _ _ Hty) as Hty0.
    unfold callTap. rewrite interceptedOnce_unfold.
    rewrite (fnOf_register_async _ _ _ _ Hty0), fnOf_setFn. simpl.
    rewrite (asyncProxy_returns _ _ _ _ _ _ _ _ _ Ho).
    eexists. split; [reflexivity|]. intros ws s w2 Hs Hne.
    destruct (resumed_settled name tap (now w) r ws s w2 Hs Hne) as (rec & Hr & _).
    by exists rec.
  - intros Hty (c & Hc & Hfalse) p w1 Ho.
    pose proof (typeIs_setFn tap o _ _ _ Hty) as Hty0.
    unfold callTap. rewrite interceptedOnce_unfold.
    rewrite (fnOf_register_promise _ _ _ _ Hty0), fnOf_setFn. simpl.
    rewrite (promiseProxy_promise _ _ _ _ _ _ _ _ _ _ Hc Ho).
    eexists. split; [reflexivity|]. intros ws s w2 Hs Hne.
    destruct (chained_settled name tap (now w) c p ws s w2 Hfalse Hs Hne)
      as (rec & Hr & _).
    by exists rec.
  - intros Hs Ha Hp. unfold callTap. rewrite interceptedOnce_unfold.
    unfold register. simpl. rewrite !bool_decide_eq_false_2 by done.
    simpl. by rewrite lookup_insert_eq.
Qed.

Lemma intercept_once_wraps_once_witness :
  fnOf (interceptedOnce sessionSdk "compile"
          {| world := Scenario.world0 "sync"; fnOf := ∅ |} 0%nat Scenario.returns42)
    !! 0%nat
  = Some (syncProxy sessionSdk "compile" 0%nat (Some Scenario.returns42))
  ∧ ∀ c w1, Scenario.returns42 VUndefined [] (Scenario.world0 "sync") = (c, w1) →
      ∃ r, callTap (interceptedOnce sessionSdk "compile"
                      {| world := Scenario.world0 "sync"; fnOf := ∅ |} 0%nat
                      Scenario.returns42)
             0%nat VUndefined [] (Scenario.world0 "sync")
           = (c, withRecord "compile" r w1).
Proof.
  apply (proj1 (intercept_once_wraps_once "compile" 0%nat
                  {| world := Scenario.world0 "sync"; fnOf := ∅ |}
                  Scenario.returns42 VUndefined [] (Scenario.world0 "sync"))).
  reflexivity.
Defined.

(** * The whole of the configuration *)

Module OptionsProps.
Import Options.

Lemma isStr_iff (s : string) (v : Value) : isStr s v = true ↔ v = VStr s.
Proof.
  destruct v; simpl; try (split; [discriminate|congruence]).
  rewrite String.eqb_eq. split; [by intros ->|by intros [= ->]].
Qed.

Lemma isStr_false (s : string) (v : Value) : v ≠ VStr s → isStr s v = false.
Proof.
  intros Hne. destruct (isStr s v) eqn:H; [|done].
  by apply isStr_iff in H.
Qed.

Lemma truthy_not_nullish (v : Value) : truthy v = true → nullish v = false.
Proof. by destruct v. Qed.

(** The flags of a [reportCodeType] that is neither [undefined] nor
    [null] can all be read. *)
Lemma normalizeReportType_defined (reportCodeType mode : Value) :
  nullish reportCodeType = false →
  normalizeReportType reportCodeType mode
  = Normal (if isStr IMode_brief mode then ToDataType.NoCode
            else if isStr Config.IMode_lite mode then
              if truthy (getProp reportCodeType "noAssetsAndModuleSource")
              then ToDataType.NoSourceAndAssets else ToDataType.NoSource
            else if truthy (getProp reportCodeType "noCode") then ToDataType.NoCode
            else if truthy (getProp reportCodeType "noAssetsAndModuleSource")
              then ToDataType.NoSourceAndAssets
            else if truthy (getProp reportCodeType "noModuleSource")
              then ToDataType.NoSource
            else ToDataType.Normal).
Proof.
  intros Hn. unfold normalizeReportType, member. rewrite Hn.
  destruct (isStr IMode_brief mode); [done|].
  destruct (isStr Config.IMode_lite mode).
  - by destruct (truthy _).
  - destruct (truthy (getProp reportCodeType "noCode")); [done|].
    destruct (truthy (getProp reportCodeType "noAssetsAndModuleSource")); [done|].
    by destruct (truthy (getProp reportCodeType "noModuleSource")).
Qed.

(** Outside the mode ['brief'] the first flag read of [undefined] or
    [null] throws. *)
Lemma normalizeReportType_nullish (reportCodeType mode : Value) :
  nullish reportCodeType = true →
  normalizeReportType reportCodeType mode
  = if isStr IMode_brief mode then Normal ToDataType.NoCode else Throw TypeError.
Proof.
  intros Hn. unfold normalizeReportType, member. rewrite Hn.
  destruct (isStr IMode_brief mode); [done|].
  by destruct (isStr Config.IMode_lite mode).
Qed.

(** [normalizeUserConfig] hands [normalizeReportType] a truthy
    [output.reportCodeType] or the three flags set to [false], so that
    call returns. *)
Lemma chosen_report_type (reportCodeType mode : Value) :
  ∃ t, (if truthy reportCodeType
        then normalizeReportType reportCodeType mode
        else normalizeReportType defaultReportCodeType mode) = Normal t
     ∧ (mode = VStr "brief" → t = ToDataType.NoCode)
     ∧ (mode = VStr "lite" →
        t = if truthy (getProp reportCodeType "noAssetsAndModuleSource")
            then ToDataType.NoSourceAndAssets else ToDataType.NoSource)
     ∧ (truthy reportCodeType = false → mode = VStr "normal" →
        t = ToDataType.Normal).
Proof.
  destruct (truthy reportCodeType) eqn:Hr.
  - rewrite (normalizeReportType_defined _ _ (truthy_not_nullish _ Hr)).
    eexists. split; [reflexivity|].
    split; [by intros ->|]. split; [by intros ->|done].
  - rewrite (normalizeReportType_defined defaultReportCodeType mode eq_refl).
    eexists. split; [reflexivity|].
    split; [by intros ->|]. split; [|by intros _ ->].
    intros ->. simpl.
    assert (truthy (getProp reportCodeType "noAssetsAndModuleSource") = false) as ->
      by (revert Hr; by destruct reportCodeType).
    done.
Qed.

(** X12.  The report mode ['brief'] stores no code whatever is given as
    [reportCodeType], which it does not read.  The mode ['lite'] reads
    [noAssetsAndModuleSource] alone: of [undefined] or [null] that read
    throws a [TypeError]; otherwise the report has no sources, and no
    assets either when the flag is truthy; [noCode] and
    [noModuleSource] are not consulted, so a ['lite'] report is never
    without code and never complete. *)
Theorem normalizeReportType_brief_and_lite (reportCodeType : Value) :
  normalizeReportType reportCodeType (VStr "brief") = Normal ToDataType.NoCode
  ∧ (nullish reportCodeType = true →
     normalizeReportType reportCodeType (VStr "lite") = Throw TypeError)
  ∧ (nullish reportCodeType = false →
     normalizeReportType reportCodeType (VStr "lite")
     = Normal (if truthy (getProp reportCodeType "noAssetsAndModuleSource")
               then ToDataType.NoSourceAndAssets else ToDataType.NoSource)
     ∧ ∀ other,
         nullish other = false →
         truthy (getProp other "noAssetsAndModuleSource")
         = truthy (getProp reportCodeType "noAssetsAndModuleSource") →
         normalizeReportType other (VStr "lite")
         = normalizeReportType reportCodeType (VStr "lite"))
  ∧ normalizeReportType reportCodeType (VStr "lite") ≠ Normal ToDataType.NoCode
  ∧ normalizeReportType reportCodeType (VStr "lite") ≠ Normal ToDataType.Normal.
Proof.
  split; [reflexivity|].
  split; [intros Hn; by rewrite (normalizeReportType_nullish _ _ Hn)|].
  split.
  - intros Hn. rewrite (normalizeReportType_defined _ _ Hn). simpl.
    split; [reflexivity|].
    intros other Ho Hsame. rewrite (normalizeReportType_defined _ _ Ho). simpl.
    by rewrite Hsame.
  - destruct (nullish reportCodeType) eqn:Hn.
    + rewrite (normalizeReportType_nullish _ _ Hn). simpl. by split.
    + rewrite (normalizeReportType_defined _ _ Hn). simpl.
      split; by destruct (truthy _).
Qed.

Lemma normalizeReportType_brief_and_lite_witness :
  normalizeReportType (VObject [("noCode", VBool true)]) (VStr "lite")
  = normalizeReportType (VObject []) (VStr "lite").
Proof.
  apply (proj2 (proj1 (proj2 (proj2 (normalizeReportType_brief_and_lite
                                       (VObject [])))) eq_refl));
    reflexivity.
Defined.

(** X13.  [normalizeReportType] throws, and then a [TypeError], exactly
    when the mode is not ['brief'] and [reportCodeType] is [undefined]
    or [null].  The whole code is kept exactly when the mode is neither
    ['brief'] nor ['lite'], [reportCodeType] can be read and none of
    the three flags is truthy; in such a mode the flags rank [noCode],
    [noAssetsAndModuleSource], [noModuleSource]: the first truthy one
    decides. *)
Theorem normalizeReportType_normal_mode (reportCodeType mode : Value) :
  (∀ e, normalizeReportType reportCodeType mode = Throw e
        ↔ e = TypeError ∧ mode ≠ VStr "brief" ∧ nullish reportCodeType = true)
  ∧ (normalizeReportType reportCodeType mode = Normal ToDataType.Normal
     ↔ mode ≠ VStr "brief" ∧ mode ≠ VStr "lite"
       ∧ nullish reportCodeType = false
       ∧ truthy (getProp reportCodeType "noCode") = false
       ∧ truthy (getProp reportCodeType "noAssetsAndModuleSource") = false
       ∧ truthy (getProp reportCodeType "noModuleSource") = false)
  ∧ (mode ≠ VStr "brief" → mode ≠ VStr "lite" → nullish reportCodeType = false →
     (truthy (getProp reportCodeType "noCode") = true →
        normalizeReportType reportCodeType mode = Normal ToDataType.NoCode)
     ∧ (truthy (getProp reportCodeType "noCode") = false →
        truthy (getProp reportCodeType "noAssetsAndModuleSource") = true →
        normalizeReportType reportCodeType mode = Normal ToDataType.NoSourceAndAssets)
     ∧ (truthy (getProp reportCodeType "noCode") = false →
        truthy (getProp reportCodeType "noAssetsAndModuleSource") = false →
        truthy (getProp reportCodeType "noModuleSource") = true →
        normalizeReportType reportCodeType mode = Normal ToDataType.NoSource)).
Proof.
  assert (isStr IMode_brief mode = true ↔ mode = VStr "brief") as Hb
    by apply isStr_iff.
  assert (isStr Config.IMode_lite mode = true ↔ mode = VStr "lite") as Hl
    by apply isStr_iff.
  destruct (nullish reportCodeType) eqn:Hn.
  - rewrite (normalizeReportType_nullish _ _ Hn).
    destruct (isStr IMode_brief mode) eqn:Hbm.
    + pose proof (proj1 Hb eq_refl) as Hm.
      split; [|split].
      * intros e. split; [discriminate|]. by intros (_ & Hne & _).
      * split; [discriminate|]. by intros (Hne & _).
      * intros Hne. by destruct Hne.
    + assert (mode ≠ VStr "brief") as Hne.
      { intros Hm. apply Hb in Hm. discriminate Hm. }
      split; [|split].
      * intros e. split; [by intros [= <-]|]. by intros (-> & _).
      * split; [discriminate|]. intros (_ & _ & Hd & _). discriminate Hd.
      * intros _ _ Hd. discriminate Hd.
  - rewrite (normalizeReportType_defined _ _ Hn).
    split; [|split].
    + intros e. split; [discriminate|]. intros (_ & _ & Hd). discriminate Hd.
    + destruct (isStr IMode_brief mode) eqn:Hbm.
      { pose proof (proj1 Hb eq_refl) as Hm.
        split; [discriminate|]. by intros (Hne & _). }
      destruct (isStr Config.IMode_lite mode) eqn:Hlm.
      { pose proof (proj1 Hl eq_refl) as Hm.
        split; [by destruct (truthy _)|]. by intros (_ & Hne & _). }
      assert (mode ≠ VStr "brief") as Hnb.
      { intros Hm. apply Hb in Hm. discriminate Hm. }
      assert (mode ≠ VStr "lite") as Hnl.
      { intros Hm. apply Hl in Hm. discriminate Hm. }
      destruct (truthy (getProp reportCodeType "noCode"));
        destruct (truthy (getProp reportCodeType "noAssetsAndModuleSource"));
        destruct (truthy (getProp reportCodeType "noModuleSource"));
        split; try done; by intros (_ & _ & _ & ? & ? & ?).
    + intros Hnb Hnl _. unfold IMode_brief, Config.IMode_lite.
      rewrite (isStr_false _ _ Hnb), (isStr_false _ _ Hnl).
      split; [by intros ->|]. split; [by intros -> ->|]. by intros -> -> ->.
Qed.

Lemma normalizeReportType_normal_mode_witness :
  normalizeReportType
    (VObject [("noModuleSource", VBool true); ("noCode", VNum 0)]) (VStr "normal")
  = Normal ToDataType.NoSource.
Proof.
  apply (proj2 (proj2 (normalizeReportType_normal_mode
                         (VObject [("noModuleSource", VBool true); ("noCode", VNum 0)])
                         (VStr "normal")))); try reflexivity; discriminate.
Defined.

Lemma assert_object (v : Value) :
  (Config.objectOrAbsent v
   ∧ Config.assert (truthy (Config.orDefault v (VObject []))
                    && Config.typeofObject (Config.orDefault v (VObject [])))
     = Normal tt)
  ∨ (¬ Config.objectOrAbsent v
     ∧ Config.assert (truthy (Config.orDefault v (VObject []))
                      && Config.typeofObject (Config.orDefault v (VObject [])))
       = Throw AssertionError).
Proof.
  unfold Config.objectOrAbsent.
  destruct v; simpl;
    try (left; split; [eauto|reflexivity]);
    try (destruct b); try (destruct (negb _));
    right; (split; [|reflexivity]);
    intros [H | [[? H] | [? H]]]; discriminate.
Qed.

Lemma assert_boolean (v : Value) :
  (Config.booleanOrAbsent v
   ∧ Config.assert (Config.isBoolean (Config.orDefault v (VBool false))) = Normal tt)
  ∨ (¬ Config.booleanOrAbsent v
     ∧ Config.assert (Config.isBoolean (Config.orDefault v (VBool false)))
       = Throw AssertionError).
Proof.
  unfold Config.booleanOrAbsent.
  destruct v; simpl;
    try (left; split; [eauto|reflexivity]);
    right; (split; [|reflexivity]); intros [H | [? H]]; discriminate.
Qed.

Lemma nullish_output (v : Value) :
  nullish (Config.orDefault v defaultOutput) = true ↔ v = VNull.
Proof. destruct v; simpl; split; congruence. Qed.

(** X14.  [normalizeUserConfig] throws an [AssertionError] exactly when
    [linter], [features] or [loaderInterceptorOptions] is given and is
    no object ([null] included), or [disableClientServer] is given and
    is no boolean; it throws a [TypeError] exactly when those pass and
    [output] is [null]; otherwise it returns. *)
Theorem normalizeUserConfig_throws_exactly (config : PluginOptions) :
  (normalizeUserConfig config = Throw AssertionError ↔ ¬ optionsPass config)
  ∧ (normalizeUserConfig config = Throw TypeError
     ↔ optionsPass config ∧ output config = VNull)
  ∧ ((∃ r, normalizeUserConfig config = Normal r)
     ↔ optionsPass config ∧ output config ≠ VNull).
Proof.
  assert (Throw AssertionError ≠ (Throw TypeError : Completion (Normalized * list string)))
    as Hdiff by (unfold AssertionError, TypeError; congruence).
  unfold normalizeUserConfig, optionsPass.
  destruct (assert_object (linter config)) as [[H1 ->] | [H1 ->]];
    [|split; [|split]; (split; [|tauto]);
      [tauto | congruence | intros [? ?]; congruence]].
  destruct (assert_object (features config)) as [[H2 ->] | [H2 ->]];
    [|split; [|split]; (split; [|tauto]);
      [tauto | congruence | intros [? ?]; congruence]].
  destruct (assert_object (loaderInterceptorOptions config)) as [[H3 ->] | [H3 ->]];
    [|split; [|split]; (split; [|tauto]);
      [tauto | congruence | intros [? ?]; congruence]].
  destruct (assert_boolean (disableClientServer config)) as [[H4 ->] | [H4 ->]];
    [|split; [|split]; (split; [|tauto]);
      [tauto | congruence | intros [? ?]; congruence]].
  destruct (nullish (Config.orDefault (output config) defaultOutput)) eqn:Hn.
  - apply nullish_output in Hn.
    split; [|split]; split.
    + intros H. by destruct Hdiff.
    + tauto.
    + done.
    + done.
    + intros [? ?]; congruence.
    + tauto.
  - assert (output config ≠ VNull) as Hne.
    { intros Heq. apply nullish_output in Heq. congruence. }
    destruct (chosen_report_type
                (getProp (Config.orDefault (output config) defaultOutput)
                   "reportCodeType")
                (Config.orDefault (mode config) (VStr "normal")))
      as (rt & -> & _).
    split; [|split]; split.
    + congruence.
    + tauto.
    + congruence.
    + tauto.
    + done.
    + intros _. by eexists.
Qed.

Lemma normalizeUserConfig_throws_exactly_witness :
  normalizeUserConfig (onlyOutput VUndefined VNull) = Throw TypeError.
Proof.
  apply (proj2 (proj1 (proj2 (normalizeUserConfig_throws_exactly
                                (onlyOutput VUndefined VNull))))).
  split; [|reflexivity].
  repeat split; by left.
Defined.

Ltac open_assert lem H :=
  let Ha := fresh "Ha" in
  match type of H with
  | context [Config.assert ?c] =>
      destruct lem as [[_ Ha] | [_ Ha]]; rewrite Ha in H; clear Ha; [|discriminate H]
  end.

Ltac open_normalized config H :=
  unfold normalizeUserConfig in H;
  open_assert (assert_object (linter config)) H;
  open_assert (assert_object (features config)) H;
  open_assert (assert_object (loaderInterceptorOptions config)) H;
  open_assert (assert_boolean (disableClientServer config)) H;
  let Hn := fresh "Hn" in
  destruct (nullish (Config.orDefault (output config) defaultOutput)) eqn:Hn;
  [discriminate H|];
  destruct (chosen_report_type
              (getProp (Config.orDefault (output config) defaultOutput)
                 "reportCodeType")
              (Config.orDefault (mode config) (VStr "normal")))
    as (rt & Hrt & Hrt_brief & Hrt_lite & Hrt_normal);
  rewrite Hrt in H; clear Hrt;
  injection H as <- <-.

(** X15.  The advice about [compressData] is logged exactly when
    [output.compressData] is the boolean [false] and
    [output.reportCodeType] has no truthy [noAssetsAndModuleSource]
    (it may be missing altogether); the mode plays no part, and nothing
    else is ever logged. *)
Theorem compressData_warning_exactly
    (config : PluginOptions) (r : Normalized) (logged : list string) :
  normalizeUserConfig config = Normal (r, logged) →
  (logged = [compressDataWarning]
   ↔ getProp (outputOf config) "compressData" = VBool false
     ∧ truthy (getProp (getProp (outputOf config) "reportCodeType")
                 "noAssetsAndModuleSource") = false)
  ∧ (logged = [compressDataWarning] ∨ logged = []).
Proof.
  intros H. open_normalized config H. unfold outputOf.
  set (out := Config.orDefault (output config) defaultOutput).
  destruct (getProp out "compressData") as [| |[|]| | | | |] eqn:Hc;
    try (split; [split; [discriminate|by intros [? _]]|by right]).
  destruct (truthy (getProp out "reportCodeType")) eqn:Hr; simpl.
  - destruct (truthy (getProp (getProp out "reportCodeType")
                        "noAssetsAndModuleSource")); simpl.
    + split; [split; [discriminate|by intros [_ ?]]|by right].
    + split; [done|by left].
  - assert (truthy (getProp (getProp out "reportCodeType")
                      "noAssetsAndModuleSource") = false) as ->.
    { revert Hr. destruct (getProp out "reportCodeType"); simpl; try done. }
    split; [done|by left].
Qed.

Lemma compressData_warning_exactly_witness :
  [compressDataWarning] = [compressDataWarning]
  ↔ getProp (outputOf (onlyOutput (VStr "brief")
                         (VObject [("compressData", VBool false)])))
      "compressData" = VBool false
    ∧ truthy (getProp
                (getProp (outputOf (onlyOutput (VStr "brief")
                                      (VObject [("compressData", VBool false)])))
                   "reportCodeType")
                "noAssetsAndModuleSource") = false.
Proof.
  refine (proj1 (compressData_warning_exactly
                   (onlyOutput (VStr "brief") (VObject [("compressData", VBool false)]))
                   _ [compressDataWarning] _)).
  reflexivity.
Defined.

(** X16.  What [normalizeUserConfig] returns has a value wherever the
    code supplies one: [skipLoaders] is an array, [disableClientServer]
    a boolean, [reportDir] a truthy value or the empty string, and
    [compressData], [innerClientPath], [supports], [printLog], [mode]
    and [brief] are not [undefined]. *)
Theorem normalized_options_are_filled_in
    (config : PluginOptions) (r : Normalized) (logged : list string) :
  normalizeUserConfig config = Normal (r, logged) →
  isArray (res_skipLoaders r) = true
  ∧ Config.isBoolean (res_disableClientServer r) = true
  ∧ (truthy (res_reportDir r) = true ∨ res_reportDir r = VStr "")
  ∧ res_compressData r ≠ VUndefined
  ∧ res_innerClientPath r ≠ VUndefined
  ∧ res_supports r ≠ VUndefined
  ∧ res_printLog r ≠ VUndefined
  ∧ res_mode r ≠ VUndefined
  ∧ res_brief r ≠ VUndefined.
Proof.
  intros H.
  assert (Config.isBoolean (Config.orDefault (disableClientServer config) (VBool false))
          = true) as Hb.
  { unfold normalizeUserConfig in H.
    open_assert (assert_object (linter config)) H.
    open_assert (assert_object (features config)) H.
    open_assert (assert_object (loaderInterceptorOptions config)) H.
    destruct (Config.isBoolean _); [done|discriminate H]. }
  open_normalized config H. simpl.
  split.
  { destruct (isArray (getProp _ "skipLoaders")) eqn:Ha; [exact Ha|reflexivity]. }
  split; [exact Hb|].
  split.
  { destruct (truthy (getProp _ "reportDir")) eqn:Ht; [by left|by right]. }
  split.
  { by destruct (getProp _ "compressData"). }
  repeat split.
  - by destruct (innerClientPath config).
  - by destruct (supports config).
  - by destruct (printLog config).
  - by destruct (mode config).
  - by destruct (brief config).
Qed.

Lemma normalized_options_are_filled_in_witness :
  ∃ r, isArray (res_skipLoaders r) = true
     ∧ Config.isBoolean (res_disableClientServer r) = true
     ∧ (truthy (res_reportDir r) = true ∨ res_reportDir r = VStr "")
     ∧ res_compressData r ≠ VUndefined
     ∧ res_innerClientPath r ≠ VUndefined
     ∧ res_supports r ≠ VUndefined
     ∧ res_printLog r ≠ VUndefined
     ∧ res_mode r ≠ VUndefined
     ∧ res_brief r ≠ VUndefined.
Proof.
  eexists.
  refine (normalized_options_are_filled_in
            (onlyOutput VUndefined (VObject [("compressData", VNull)])) _ [] _).
  reflexivity.
Defined.

Lemma lookupProp_app_in (k : string) (xs ys : list (string * Value)) :
  In k (map fst xs) → lookupProp k (xs ++ ys) = lookupProp k xs.
Proof.
  induction xs as [|[k' v] xs IH]; simpl; [done|].
  intros [-> | Hin].
  - by rewrite String.eqb_refl.
  - destruct (String.eqb k k'); [done|]. by apply IH.
Qed.

Lemma lookupProp_app_notin (k : string) (xs ys : list (string * Value)) :
  ¬ In k (map fst xs) → lookupProp k (xs ++ ys) = lookupProp k ys.
Proof.
  induction xs as [|[k' v] xs IH]; simpl; [done|].
  intros Hnot. destruct (String.eqb k k') eqn:Heq.
  - apply String.eqb_eq in Heq. destruct Hnot. by left.
  - apply IH. intros Hin. destruct Hnot. by right.
Qed.

(** X17.  The normalized [linter] is the user's object with three
    members added where the user has none: [rules] an empty object,
    [extends] an empty array, [level] ['Error'].  A member the user
    has wins, also one whose value is [undefined]; a [linter] left out
    gives the three defaults. *)
Theorem normalized_linter_keeps_the_users_members
    (config : PluginOptions) (r : Normalized) (logged : list string)
    (props : list (string * Value)) :
  normalizeUserConfig config = Normal (r, logged) →
  linter config = VObject props ∨ (linter config = VUndefined ∧ props = []) →
  (∀ k, In k (map fst props) → getProp (res_linter r) k = lookupProp k props)
  ∧ (∀ k, ¬ In k (map fst props) →
       getProp (res_linter r) k = lookupProp k linterDefaults)
  ∧ (¬ In "level" (map fst props) → getProp (res_linter r) "level" = VStr "Error").
Proof.
  intros H Hl. open_normalized config H. simpl.
  assert (ownProps (Config.orDefault (linter config) (VObject [])) = props) as ->
    by (by destruct Hl as [-> | [-> ->]]).
  split; [|split].
  - intros k Hin. by apply lookupProp_app_in.
  - intros k Hnot. by apply lookupProp_app_notin.
  - intros Hnot. by rewrite lookupProp_app_notin.
Qed.

Lemma normalized_linter_keeps_the_users_members_witness :
  ∃ r, (∀ k, In k (map fst [("level", VUndefined)]) →
          getProp (res_linter r) k = lookupProp k [("level", VUndefined)])
     ∧ (∀ k, ¬ In k (map fst [("level", VUndefined)]) →
          getProp (res_linter r) k = lookupProp k linterDefaults)
     ∧ (¬ In "level" (map fst [("level", VUndefined)]) →
          getProp (res_linter r) "level" = VStr "Error").
Proof.
  eexists.
  refine (normalized_linter_keeps_the_users_members
            {| linter := VObject [("level", VUndefined)]; features := VUndefined;
               loaderInterceptorOptions := VUndefined;
               disableClientServer := VUndefined; sdkInstance := VUndefined;
               innerClientPath := VUndefined; output := VUndefined;
               supports := VUndefined; port := VUndefined; printLog := VUndefined;
               mode := VUndefined; brief := VUndefined; experiments := VUndefined |}
            _ [] [("level", VUndefined)] _ _).
  - reflexivity.
  - by left.
Defined.

(** X18.  The mode decides across the result: with ['brief'] no code is
    stored whatever [output.reportCodeType] says; with ['lite'] the
    [lite] feature is on and the report has no sources (and no assets
    when [noAssetsAndModuleSource] is truthy), whatever the features
    and the other flags say; with the mode and [output.reportCodeType]
    left out the whole code is stored and the mode is ['normal']. *)
Theorem mode_decides_report_type_and_lite
    (config : PluginOptions) (r : Normalized) (logged : list string) :
  normalizeUserConfig config = Normal (r, logged) →
  (mode config = VStr "brief" → res_reportCodeType r = ToDataType.NoCode)
  ∧ (mode config = VStr "lite" →
       Config.lite (res_features r) = true
       ∧ res_reportCodeType r
         = (if truthy (getProp (getProp (outputOf config) "reportCodeType")
                         "noAssetsAndModuleSource")
            then ToDataType.NoSourceAndAssets else ToDataType.NoSource))
  ∧ (mode config = VUndefined →
     truthy (getProp (outputOf config) "reportCodeType") = false →
       res_mode r = VStr "normal" ∧ res_reportCodeType r = ToDataType.Normal).
Proof.
  intros H. open_normalized config H. unfold outputOf. simpl.
  set (out := Config.orDefault (output config) defaultOutput).
  split; [|split].
  - intros Hm. rewrite Hm in Hrt_brief. by apply Hrt_brief.
  - intros Hm. rewrite Hm in Hrt_lite |- *. simpl. split.
    + unfold normalizeFeatures.
      destruct (Config.orDefault (features config) (VObject [])); simpl;
        by rewrite ?orb_true_r.
    + by apply Hrt_lite.
  - intros Hm Hr. rewrite Hm in Hrt_normal |- *. simpl. split; [done|].
    by apply Hrt_normal.
Qed.

Lemma mode_decides_report_type_and_lite_witness :
  ∃ r, Config.lite (res_features r) = true
     ∧ res_reportCodeType r
       = (if truthy (getProp
                       (getProp (outputOf
                                   (onlyOutput (VStr "lite")
                                      (VObject [("reportCodeType",
                                                 VObject [("noCode", VBool true)])])))
                          "reportCodeType")
                       "noAssetsAndModuleSource")
          then ToDataType.NoSourceAndAssets else ToDataType.NoSource).
Proof.
  eexists.
  refine (proj1 (proj2 (mode_decides_report_type_and_lite
                          (onlyOutput (VStr "lite")
                             (VObject [("reportCodeType",
                                        VObject [("noCode", VBool true)])]))
                          _ [] _)) _); reflexivity.
Defined.

(** X19.  [normalizeRspackUserOptions] throws what [normalizeUserConfig]
    throws and otherwise returns its result and its log, with an
    [experiments] object of one member: [enableNativePlugin] is the
    value given, not turned into a boolean, and [false] when
    [experiments] or the member is [undefined] or [null]; any other
    member of the [experiments] given is dropped. *)
Theorem normalizeRspackUserOptions_experiments (options : PluginOptions) :
  (∀ e, normalizeUserConfig options = Throw e →
        normalizeRspackUserOptions options = Throw e)
  ∧ (∀ r logged, normalizeUserConfig options = Normal (r, logged) →
       ∃ v, normalizeRspackUserOptions options
            = Normal ({| base := r;
                         res_experiments := VObject [("enableNativePlugin", v)] |},
                      logged)
          ∧ (nullish (experiments options) = true → v = VBool false)
          ∧ (nullish (experiments options) = false →
             (nullish (getProp (experiments options) "enableNativePlugin") = true →
                v = VBool false)
             ∧ (nullish (getProp (experiments options) "enableNativePlugin") = false →
                v = getProp (experiments options) "enableNativePlugin"))).
Proof.
  split.
  - intros e H. unfold normalizeRspackUserOptions. by rewrite H.
  - intros r logged H. unfold normalizeRspackUserOptions. rewrite H.
    eexists. split; [reflexivity|].
    destruct (nullish (experiments options)) eqn:He; simpl.
    + split; [done|discriminate].
    + split; [discriminate|]. intros _. split; by intros ->.
Qed.

Lemma normalizeRspackUserOptions_experiments_witness :
  ∃ v r, normalizeRspackUserOptions
           {| linter := VUndefined; features := VUndefined;
              loaderInterceptorOptions := VUndefined;
              disableClientServer := VUndefined; sdkInstance := VUndefined;
              innerClientPath := VUndefined; output := VUndefined;
              supports := VUndefined; port := VUndefined; printLog := VUndefined;
              mode := VUndefined; brief := VUndefined;
              experiments := VObject [("enableNativePlugin", VNum 1);
                                      ("other", VBool true)] |}
         = Normal ({| base := r;
                      res_experiments := VObject [("enableNativePlugin", v)] |}, [])
       ∧ v = VNum 1.
Proof.
  destruct (proj2 (normalizeRspackUserOptions_experiments
                     {| linter := VUndefined; features := VUndefined;
                        loaderInterceptorOptions := VUndefined;
                        disableClientServer := VUndefined; sdkInstance := VUndefined;
                        innerClientPath := VUndefined; output := VUndefined;
                        supports := VUndefined; port := VUndefined;
                        printLog := VUndefined; mode := VUndefined;
                        brief := VUndefined;
                        experiments := VObject [("enableNativePlugin", VNum 1);
                                                ("other", VBool true)] |})
              _ [] eq_refl) as (v & Hrun & _ & Hgiven).
  exists v. eexists. split; [exact Hrun|].
  by apply (proj2 (Hgiven eq_refl)).
Defined.

(** The features of the whole embedding are those of the one that
    computes the features alone. *)
Lemma normalized_features_agree (config : PluginOptions) :
  Config.normalizeUserConfig (toConfig config)
  = match normalizeUserConfig config with
    | Normal (r, _) => Normal (res_features r)
    | Throw e => Throw e
    end.
Proof.
  unfold Config.normalizeUserConfig, normalizeUserConfig, toConfig; simpl.
  destruct (Config.assert (truthy (Config.orDefault (linter config) (VObject []))
                           && _)); [|done].
  destruct (Config.assert (truthy (Config.orDefault (features config) (VObject []))
                           && _)); [|done].
  destruct (Config.assert
              (truthy (Config.orDefault (loaderInterceptorOptions config) (VObject []))
               && _)); [|done].
  destruct (Config.assert _); [|done].
  assert (nullish (Config.orDefault (output config) (VObject []))
          = nullish (Config.orDefault (output config) defaultOutput)) as ->
    by (by destruct (output config)).
  destruct (nullish _); [done|].
  by destruct (chosen_report_type
                 (getProp (Config.orDefault (output config) defaultOutput)
                    "reportCodeType")
                 (Config.orDefault (mode config) (VStr "normal")))
    as (rt & -> & _).
Qed.

End OptionsProps.

(** * Rule sets made serializable *)

Module RulesProps.
Import Rules.

Lemma Condition_ind' (P : Condition → Prop) :
  P CAbsent →
  (∀ s, P (CString s)) →
  P CFunction →
  (∀ source toString toJSON, P (CRegExp source toString toJSON)) →
  (∀ items, Forall P items → P (CArray items)) →
  (∀ a o n, P a → P o → P n → P (CLogical a o n)) →
  ∀ c, P c.
Proof.
  intros Habs Hstr Hfun Hre Harr Hlog. fix IH 1.
  intros [|s| |source toString toJSON|items|a o n].
  - exact Habs.
  - apply Hstr.
  - exact Hfun.
  - apply Hre.
  - apply Harr. induction items as [|c cs IHcs]; constructor; [apply IH|exact IHcs].
  - apply Hlog; apply IH.
Qed.

Lemma sameMethod_iff (f g : Method) : sameMethod f g = true ↔ f = g.
Proof.
  destruct f as [|a], g as [|b]; simpl; try (split; [discriminate|congruence]);
    [done|].
  rewrite String.eqb_eq. split; [by intros ->|by intros [= ->]].
Qed.

Lemma make_serializable (c : Condition) :
  serializable (makeRuleSetSerializable c) = true.
Proof.
  induction c as [| | |source toString toJSON|items IH|a o n IHa IHo IHn]
    using Condition_ind'; simpl; try reflexivity.
  - by apply sameMethod_iff.
  - induction IH as [|c cs Hc _ IHcs]; simpl; [done|]. by rewrite Hc, IHcs.
  - by rewrite IHa, IHo, IHn.
Qed.

Lemma bare_make (c : Condition) : bare (makeRuleSetSerializable c) = bare c.
Proof.
  induction c as [| | | |items IH|a o n IHa IHo IHn] using Condition_ind';
    simpl; try reflexivity.
  - f_equal. induction IH as [|c cs Hc _ IHcs]; simpl; [done|]. by rewrite Hc, IHcs.
  - by rewrite IHa, IHo, IHn.
Qed.

Lemma make_fixed (c : Condition) :
  makeRuleSetSerializable c = c ↔ serializable c = true.
Proof.
  induction c as [| | |source toString toJSON|items IH|a o n IHa IHo IHn]
    using Condition_ind'; simpl; try done.
  - destruct toJSON as [f|]; [|split; discriminate].
    rewrite sameMethod_iff. split; [by intros [= <-]|by intros ->].
  - split.
    + intros [= Heq]. induction IH as [|c cs Hc _ IHcs]; simpl in *; [done|].
      injection Heq as Hc' Hcs'. rewrite (proj1 Hc Hc'), (IHcs Hcs'). done.
    + intros Hall. f_equal.
      induction IH as [|c cs Hc _ IHcs]; simpl in *; [done|].
      apply andb_true_iff in Hall as [H1 H2].
      by rewrite (proj2 Hc H1), (IHcs H2).
  - rewrite !andb_true_iff. split.
    + intros [= Ha Ho Hn]. by rewrite <- IHa, <- IHo, <- IHn.
    + intros [[Ha Ho] Hn].
      by rewrite (proj2 IHa Ha), (proj2 IHo Ho), (proj2 IHn Hn).
Qed.

(** X20.  After [makeRuleSetSerializable] every regular expression of
    the condition, however deep in arrays and in [and], [or], [not],
    has its [toString] as [toJSON]; nothing else of the condition has
    changed. *)
Theorem makeRuleSetSerializable_reaches_every_RegExp (c : Condition) :
  serializable (makeRuleSetSerializable c) = true
  ∧ bare (makeRuleSetSerializable c) = bare c.
Proof. split; [apply make_serializable|apply bare_make]. Qed.

(** X21.  [makeRuleSetSerializable] changes a condition exactly when one
    of its regular expressions has no [toJSON] or one that is not its
    [toString] (the assignment is not guarded, so another [toJSON] is
    overwritten), and calling it a second time changes nothing. *)
Theorem makeRuleSetSerializable_idempotent (c : Condition) :
  (makeRuleSetSerializable c = c ↔ serializable c = true)
  ∧ makeRuleSetSerializable (makeRuleSetSerializable c) = makeRuleSetSerializable c.
Proof.
  split; [apply make_fixed|]. apply make_fixed, make_serializable.
Qed.

Lemma makeRuleSetSerializable_idempotent_witness :
  makeRuleSetSerializable
    (CLogical (CArray [CRegExp "\.ts$" (Custom "tag") (Some (Custom "tag"));
                       CString "src"])
       CAbsent CFunction)
  = CLogical (CArray [CRegExp "\.ts$" (Custom "tag") (Some (Custom "tag"));
                      CString "src"])
      CAbsent CFunction.
Proof.
  apply (proj2 (proj1 (makeRuleSetSerializable_idempotent
                         (CLogical
                            (CArray [CRegExp "\.ts$" (Custom "tag")
                                       (Some (Custom "tag"));
                                     CString "src"])
                            CAbsent CFunction)))).
  reflexivity.
Defined.

Lemma Rule_ind' (P : Rule → Prop) :
  (∀ t rq rs rf sc iss il inc exc oneOf rules,
     (∀ l r, oneOf = Some l → In (Some r) l → P r) →
     (∀ l r, rules = Some l → In (Some r) l → P r) →
     P (mkRule t rq rs rf sc iss il inc exc oneOf rules)) →
  ∀ r, P r.
Proof.
  intros H. fix IH 1. intros [t rq rs rf sc iss il inc exc oneOf rules].
  apply H.
  - destruct oneOf as [l|]; [|intros l' r Hd; discriminate Hd].
    intros l' r Heq. injection Heq as <-.
    induction l as [|[r'|] l IHl]; simpl.
    + intros [].
    + intros [Heq | Hin]; [injection Heq as <-; apply IH|exact (IHl Hin)].
    + intros [Hd | Hin]; [discriminate Hd|exact (IHl Hin)].
  - destruct rules as [l|]; [|intros l' r Hd; discriminate Hd].
    intros l' r Heq. injection Heq as <-.
    induction l as [|[r'|] l IHl]; simpl.
    + intros [].
    + intros [Heq | Hin]; [injection Heq as <-; apply IH|exact (IHl Hin)].
    + intros [Hd | Hin]; [discriminate Hd|exact (IHl Hin)].
Qed.

Lemma nested_done (rs : option (list (option Rule))) :
  (∀ l r, rs = Some l → In (Some r) l → ruleDone r) →
  Forall (fun c => serializable c = true)
    (nestedConditions (option_map (map (option_map serializeRule)) rs))
  ∧ map bare (nestedConditions (option_map (map (option_map serializeRule)) rs))
    = map bare (nestedConditions rs)
  ∧ option_map (map (option_map serializeRule))
      (option_map (map (option_map serializeRule)) rs)
    = option_map (map (option_map serializeRule)) rs.
Proof.
  destruct rs as [l|]; simpl; [|done].
  intros H. assert (∀ r, In (Some r) l → ruleDone r) as Hl by eauto. clear H.
  induction l as [|[r|] l IHl]; simpl; [done| |].
  - destruct (Hl r (or_introl eq_refl)) as (H1 & H2 & H3).
    destruct IHl as (I1 & I2 & I3); [intros; apply Hl; by right|].
    split; [by apply Forall_app|]. split.
    + by rewrite !map_app, H2, I2.
    + injection I3 as I3. by rewrite H3, I3.
  - destruct IHl as (I1 & I2 & I3); [intros; apply Hl; by right|].
    split; [done|]. split; [done|]. injection I3 as I3. by rewrite I3.
Qed.

Lemma serializeRule_done (r : Rule) : ruleDone r.
Proof.
  induction r as [t rq rs rf sc iss il inc exc oneOf rules IH1 IH2] using Rule_ind'.
  destruct (nested_done oneOf IH1) as (A1 & A2 & A3).
  destruct (nested_done rules IH2) as (B1 & B2 & B3).
  unfold ruleDone. simpl.
  change (fun r0 : option Rule =>
            match r0 with Some r' => conditionsOf r' | None => [] end)
    with entryConditions in *.
  fold (nestedConditions (option_map (map (option_map serializeRule)) oneOf)).
  fold (nestedConditions (option_map (map (option_map serializeRule)) rules)).
  fold (nestedConditions oneOf). fold (nestedConditions rules).
  split; [|split].
  - repeat (apply Forall_cons; split; [apply make_serializable|]).
    apply Forall_app. split.
    { destruct il; simpl; [|done].
      apply Forall_cons; split; [apply make_serializable|done]. }
    repeat (apply Forall_cons; split; [apply make_serializable|]).
    by apply Forall_app.
  - rewrite !bare_make. do 6 f_equal.
    rewrite !map_app. f_equal; [by destruct il; simpl; rewrite ?bare_make|].
    simpl. rewrite !bare_make, !map_app. do 2 f_equal. by rewrite A2, B2.
  - rewrite A3, B3.
    rewrite !(proj2 (make_fixed _) (make_serializable _)).
    f_equal. destruct il; simpl; [|done].
    by rewrite (proj2 (make_fixed _) (make_serializable _)).
Qed.

(** X22.  After [makeRulesSerializable] every condition of every rule
    of the array ([test], [resourceQuery], [resource],
    [resourceFragment], [scheme], [issuer], [issuerLayer], [include],
    [exclude]), the rules nested under [oneOf] and [rules] at any depth
    included, has each of its regular expressions carry its [toString]
    as [toJSON]; the
    conditions are otherwise the ones that were there, in the same
    places. *)
Theorem makeRulesSerializable_reaches_every_rule
    (rules : option (list (option Rule))) :
  Forall (fun c => serializable c = true)
    (conditionsOfAll (makeRulesSerializable rules))
  ∧ map bare (conditionsOfAll (makeRulesSerializable rules))
    = map bare (conditionsOfAll rules).
Proof.
  destruct (nested_done rules (fun l r _ _ => serializeRule_done r))
    as (H1 & H2 & _).
  split; [exact H1|exact H2].
Qed.

(** X23.  [makeRulesSerializable] leaves an argument that is no array
    and an empty array as they are, keeps the length of the array and
    its falsy entries where they were, and called a second time
    changes nothing. *)
Theorem makeRulesSerializable_idempotent
    (rules : option (list (option Rule))) :
  makeRulesSerializable (makeRulesSerializable rules) = makeRulesSerializable rules
  ∧ makeRulesSerializable None = None
  ∧ makeRulesSerializable (Some []) = Some []
  ∧ ∀ l, rules = Some l →
      ∃ l', makeRulesSerializable rules = Some l'
            ∧ length l' = length l
            ∧ ∀ i, l' !! i = Some None ↔ l !! i = Some None.
Proof.
  destruct (nested_done rules (fun l r _ _ => serializeRule_done r))
    as (_ & _ & H3).
  split; [exact H3|]. split; [reflexivity|]. split; [reflexivity|].
  intros l ->. eexists. split; [reflexivity|].
  split; [apply length_map|].
  intros i. rewrite list_lookup_fmap.
  destruct (l !! i) as [[r|]|]; simpl; split; congruence.
Qed.

Lemma makeRulesSerializable_idempotent_witness :
  ∃ l', makeRulesSerializable
          (Some [None;
                 Some (ruleWith (CRegExp "\.css$" RegExpToString None) None)])
        = Some l'
        ∧ length l'
          = length [None;
                    Some (ruleWith (CRegExp "\.css$" RegExpToString None) None)]
        ∧ ∀ i, l' !! i = Some None
               ↔ [None;
                  Some (ruleWith (CRegExp "\.css$" RegExpToString None) None)]
                 !! i
                 = Some None.
Proof.
  apply (proj2 (proj2 (proj2 (makeRulesSerializable_idempotent
                                (Some [None;
                                       Some (ruleWith
                                               (CRegExp "\.css$" RegExpToString
                                                  None)
                                               None)]))))).
  reflexivity.
Defined.

End RulesProps.

(** * Where a node of the transformed code comes from *)

Module SourceRangeProps.
Import SourceRange.

Lemma member_defined (v : Value) (k : string) :
  nullish v = false → member v k = Normal (getProp v k).
Proof. unfold member. by intros ->. Qed.

Lemma isUndefined_false (v : Value) : isUndefined v = false ↔ v ≠ VUndefined.
Proof. destruct v; simpl; split; congruence. Qed.

Lemma reports_differ (module : ModuleInstance) (loc : Value) :
  originalReport module loc ≠ transformedReport module loc
  ∧ originalReport module loc ≠ VUndefined
  ∧ transformedReport module loc ≠ VUndefined.
Proof. unfold originalReport, transformedReport, report. repeat split; congruence. Qed.

Ltac walk :=
  repeat match goal with
         | |- context [if ?b then _ else _] =>
             let E := fresh "E" in destruct b eqn:E; simpl
         | |- context [match member ?a ?k with _ => _ end] =>
             let E := fresh "E" in destruct (member a k) eqn:E; simpl
         end.

(** X24.  For a node that has a location, the function returns
    [undefined] exactly when the start or the end of the location is
    missing (falsy); the module's source, source map and source range
    play no part in that. *)
Theorem source_range_undefined_exactly (module : ModuleInstance) (loc : Value) :
  nullish loc = false →
  (getSourceRangeFromTransformedOffset module loc = Normal VUndefined
   ↔ truthy (getProp loc "start") = false ∨ truthy (getProp loc "end") = false).
Proof.
  intros Hloc. unfold getSourceRangeFromTransformedOffset.
  rewrite !(member_defined loc _ Hloc).
  destruct (truthy (getProp loc "start")) eqn:Hs;
    destruct (truthy (getProp loc "end")) eqn:He; simpl;
    try (split; [auto|reflexivity]).
  split; [|by intros [?|?]].
  unfold report. walk; discriminate.
Qed.

Lemma source_range_undefined_exactly_witness :
  getSourceRangeFromTransformedOffset
    (moduleMappingTo VUndefined VUndefined)
    (VObject [("start", position (VNum 1) (VNum 0))])
  = Normal VUndefined.
Proof.
  apply (proj2 (source_range_undefined_exactly
                  (moduleMappingTo VUndefined VUndefined)
                  (VObject [("start", position (VNum 1) (VNum 0))]) eq_refl)).
  by right.
Defined.

(** X25.  For a located node of a module that has a source, the report
    says where the node is in the original code exactly when the module
    has a source map and the range it maps the node to has a start and
    an end with lines and columns that are not [undefined] (a 0 or a
    [null] counts as given); then the content is the original source
    and the range the mapped one.  Without a source map, or without a
    mapped range, the report is the one of the transformed code. *)
Theorem original_source_reported_exactly (module : ModuleInstance) (loc : Value) :
  located module loc →
  (getSourceRangeFromTransformedOffset module loc
   = Normal (originalReport module loc)
   ↔ truthy (getSourceMap module) = true ∧ mapped (getSourceRange module loc))
  ∧ (truthy (getSourceMap module) = false →
     getSourceRangeFromTransformedOffset module loc
     = Normal (transformedReport module loc))
  ∧ (nullish (getSourceRange module loc) = true →
     getSourceRangeFromTransformedOffset module loc
     = Normal (transformedReport module loc)).
Proof.
  intros (Hloc & Hs & He & Hsrc).
  destruct (reports_differ module loc) as (Hdiff & _ & _).
  unfold getSourceRangeFromTransformedOffset.
  rewrite !(member_defined loc _ Hloc), Hs, He,
    !(member_defined (getSource module) _ Hsrc). simpl.
  fold (transformedReport module loc). fold (originalReport module loc).
  split; [|split].
  - unfold mapped, member.
    destruct (truthy (getSourceMap module)); simpl;
      [|split; [intros [= H]; by destruct Hdiff|by intros [? _]]].
    destruct (nullish (getSourceRange module loc)); simpl;
      [split; [intros [= H]; by destruct Hdiff|by intros [_ [? _]]]|].
    destruct (nullish (getProp (getSourceRange module loc) "start")); simpl;
      [split; [discriminate|by intros [_ (_ & ? & _)]]|].
    destruct (getProp (getProp (getSourceRange module loc) "start") "line") eqn:H1;
      simpl; try (split; [intros [= H]; by destruct Hdiff|by intros [_ (_ & _ & ? & _)]]);
    (destruct (getProp (getProp (getSourceRange module loc) "start") "column")
       eqn:H2; simpl;
       try (split; [intros [= H]; by destruct Hdiff|by intros [_ (_ & _ & _ & ? & _)]]));
    (destruct (nullish (getProp (getSourceRange module loc) "end")); simpl;
       [split; [intros [= H]; by destruct Hdiff|by intros [_ (_ & _ & _ & _ & ? & _)]]|]);
    (destruct (getProp (getProp (getSourceRange module loc) "end") "line") eqn:H3;
       simpl;
       try (split; [intros [= H]; by destruct Hdiff
                   |by intros [_ (_ & _ & _ & _ & _ & ? & _)]]));
    (destruct (getProp (getProp (getSourceRange module loc) "end") "column") eqn:H4;
       simpl;
       try (split; [intros [= H]; by destruct Hdiff
                   |by intros [_ (_ & _ & _ & _ & _ & _ & ?)]]));
    (split; [intros _; repeat split; congruence|reflexivity]).
  - by intros ->.
  - intros ->. by destruct (truthy (getSourceMap module)).
Qed.

Lemma original_source_reported_exactly_witness :
  getSourceRangeFromTransformedOffset
    (moduleMappingTo (VObject [])
       (range (position (VNum 3) (VNum 0)) (position (VNum 3) VNull)))
    someLoc
  = Normal (originalReport
              (moduleMappingTo (VObject [])
                 (range (position (VNum 3) (VNum 0)) (position (VNum 3) VNull)))
              someLoc).
Proof.
  apply (proj2 (proj1 (original_source_reported_exactly
                         (moduleMappingTo (VObject [])
                            (range (position (VNum 3) (VNum 0))
                               (position (VNum 3) VNull)))
                         someLoc
                         (conj eq_refl (conj eq_refl (conj eq_refl eq_refl)))))).
  split; [reflexivity|]. unfold mapped; simpl. repeat split; discriminate.
Defined.

(** X26.  With a source map, a mapped range that has no [end] makes the
    function fall back on the report of the transformed code, but one
    that has no [start] makes it throw a [TypeError]: only the end is
    read with [?.]. *)
Theorem source_range_without_start_throws (module : ModuleInstance) (loc : Value) :
  located module loc →
  truthy (getSourceMap module) = true →
  nullish (getSourceRange module loc) = false →
  (nullish (getProp (getSourceRange module loc) "start") = true →
     getSourceRangeFromTransformedOffset module loc = Throw TypeError)
  ∧ (nullish (getProp (getSourceRange module loc) "start") = false →
     nullish (getProp (getSourceRange module loc) "end") = true →
     getSourceRangeFromTransformedOffset module loc
     = Normal (transformedReport module loc)).
Proof.
  intros (Hloc & Hs & He & Hsrc) Hmap Hsr.
  unfold getSourceRangeFromTransformedOffset.
  rewrite !(member_defined loc _ Hloc), Hs, He,
    !(member_defined (getSource module) _ Hsrc), Hmap, Hsr. simpl.
  fold (transformedReport module loc).
  split.
  - intros Hst. unfold member. by rewrite Hst.
  - intros Hst Hen. rewrite (member_defined _ _ Hst), Hen.
    by walk.
Qed.

Lemma source_range_without_start_throws_witness :
  getSourceRangeFromTransformedOffset
    (moduleMappingTo (VObject [])
       (VObject [("end", position (VNum 3) (VNum 4))]))
    someLoc
  = Throw TypeError.
Proof.
  apply (proj1 (source_range_without_start_throws
                  (moduleMappingTo (VObject [])
                     (VObject [("end", position (VNum 3) (VNum 4))]))
                  someLoc
                  (conj eq_refl (conj eq_refl (conj eq_refl eq_refl)))
                  eq_refl eq_refl)).
  reflexivity.
Defined.

End SourceRangeProps.
